(** * SCR prompt generator: the document ingestion and knowledge pipeline

    A shallow embedding of the ingestion core of the repository
    ([src/main.py], [src/knowledge/models.py], [src/knowledge/database.py],
    [src/parsers/], [src/config/settings.py]) together with the properties
    its specification states about it.

    Conventions of the embedding.
    - A Python [str] is a Rocq [string] whose characters are read as the
      code points U+0000..U+00FF (Latin-1).  [len], slicing and the regular
      expressions count code points, so this is faithful on every text of
      that range; the accented letters of the source (e with grave or acute
      accent) are the code points 232 and 233.
    - A Python [float] is a binary64 [float] of [PrimFloat], a Python [int]
      is a [Z] or a [nat] where it is a length or a count.
    - What the code obtains from its surroundings (does a path exist, what
      PyPDF2, BeautifulSoup or the network return, the clock) is a field of
      the record [World]; an exception is a value of [exc].
    - The SQLite tables are lists of rows in rowid order.  Whether SQLite
      carries a write out is also a matter of the surroundings: the field
      [write_succeeds] of [World] says it for the n-th write the generator
      asks for, and a write that is not carried out takes the [except]
      branch of the store.  A [REAL] column gives back NaN as NULL and a
      zero without its sign.
    - [urlparse] may raise [ValueError] on a bracketed host; its verdict
      on a host with both brackets depends on the version of Python and
      is the field [bracketed_host_ok] of [World]. *)

From Stdlib Require Import String Ascii List Bool Arith ZArith NArith Lia.
From Stdlib Require Import Floats.
From Stdlib Require Import Sorted Permutation.
Import ListNotations.

Local Open Scope string_scope.
Local Open Scope list_scope.

(* ================================================================== *)
(** ** Python string primitives *)
(* ================================================================== *)

Module PyStr.

Definition code (c : ascii) : nat := nat_of_ascii c.
Definition chr (n : nat) : ascii := ascii_of_nat n.
Definition str1 (n : nat) : string := String (chr n) EmptyString.

Definition in_range (lo hi : nat) (c : ascii) : bool :=
  (lo <=? code c)%nat && (code c <=? hi)%nat.

(** [str.isspace] on one code point: TAB..CR, FS..US, SPACE, NEL, NBSP. *)
Definition is_space (c : ascii) : bool :=
  in_range 9 13 c || in_range 28 32 c || (code c =? 133)%nat || (code c =? 160)%nat.

(** [str.isdecimal], which is what [\d] tests. *)
Definition is_digit (c : ascii) : bool := in_range 48 57 c.

(** [str.isalpha] below U+0100. *)
Definition is_alpha (c : ascii) : bool :=
  in_range 65 90 c || in_range 97 122 c
  || (code c =? 170)%nat || (code c =? 181)%nat || (code c =? 186)%nat
  || in_range 192 214 c || in_range 216 246 c || in_range 248 255 c.

(** [str.isnumeric] below U+0100: the digits, the superscripts 1 2 3 and
    the vulgar fractions. *)
Definition is_numeric (c : ascii) : bool :=
  is_digit c || (code c =? 178)%nat || (code c =? 179)%nat || (code c =? 185)%nat
  || in_range 188 190 c.

(** [\w]: alphanumeric or underscore. *)
Definition is_word (c : ascii) : bool :=
  is_alpha c || is_numeric c || (code c =? 95)%nat.

(** [str.lower] on one code point. *)
Definition lower_char (c : ascii) : ascii :=
  if in_range 65 90 c then chr (code c + 32)
  else if in_range 192 222 c && negb (code c =? 215)%nat then chr (code c + 32)
  else c.

Fixpoint lower (s : string) : string :=
  match s with
  | EmptyString => EmptyString
  | String c t => String (lower_char c) (lower t)
  end.

Fixpoint startswith (s p : string) : bool :=
  match p, s with
  | EmptyString, _ => true
  | String a p', String b s' => Ascii.eqb a b && startswith s' p'
  | String _ _, EmptyString => false
  end.

(** [sub in s]. *)
Fixpoint contains (s sub : string) : bool :=
  startswith s sub ||
  match s with
  | EmptyString => false
  | String _ t => contains t sub
  end.

Fixpoint rev_str (acc s : string) : string :=
  match s with
  | EmptyString => acc
  | String c t => rev_str (String c acc) t
  end.

Definition endswith (s p : string) : bool :=
  startswith (rev_str EmptyString s) (rev_str EmptyString p).

Fixpoint lstrip (s : string) : string :=
  match s with
  | String c t => if is_space c then lstrip t else s
  | EmptyString => EmptyString
  end.

Definition rstrip (s : string) : string :=
  rev_str EmptyString (lstrip (rev_str EmptyString s)).

(** [s.strip()]. *)
Definition strip (s : string) : string := rstrip (lstrip s).

(** [s[:n]]. *)
Fixpoint take (n : nat) (s : string) : string :=
  match n, s with
  | S k, String c t => String c (take k t)
  | _, _ => EmptyString
  end.

(** [s[n:]]. *)
Fixpoint drop (n : nat) (s : string) : string :=
  match n, s with
  | S k, String _ t => drop k t
  | _, _ => s
  end.

(** [s[a:b]] for non-negative indices. *)
Definition slice (a b : nat) (s : string) : string := take (b - a) (drop a s).

(** [s.split()]: the maximal runs of non-blank characters.  [cur] is the
    run being read, most recent character first. *)
Fixpoint split_ws_aux (cur : string) (s : string) : list string :=
  match s with
  | EmptyString =>
      match cur with EmptyString => [] | _ => [rev_str EmptyString cur] end
  | String c t =>
      if is_space c then
        match cur with
        | EmptyString => split_ws_aux EmptyString t
        | _ => rev_str EmptyString cur :: split_ws_aux EmptyString t
        end
      else split_ws_aux (String c cur) t
  end.

Definition split_ws (s : string) : list string := split_ws_aux EmptyString s.

(** [s.split(sep)] for a one-character separator: empty fields are kept. *)
Fixpoint split_on_aux (sep : ascii) (cur : string) (s : string) : list string :=
  match s with
  | EmptyString => [rev_str EmptyString cur]
  | String c t =>
      if Ascii.eqb c sep then rev_str EmptyString cur :: split_on_aux sep EmptyString t
      else split_on_aux sep (String c cur) t
  end.

Definition split_on (sep : ascii) (s : string) : list string :=
  split_on_aux sep EmptyString s.

(** [s.replace(old, new)] for a non-empty [old]: leftmost occurrences,
    not overlapping.  [skip] counts the characters of an occurrence that
    has just been replaced and are still to be passed over. *)
Fixpoint replace_aux (old new : string) (skip : nat) (s : string) : string :=
  match s with
  | EmptyString => EmptyString
  | String c t =>
      match skip with
      | S k => replace_aux old new k t
      | O =>
          if startswith s old
          then new ++ replace_aux old new (String.length old - 1) t
          else String c (replace_aux old new 0 t)
      end
  end.

Definition replace (s old new : string) : string := replace_aux old new 0 s.

(** [s.rfind(c)] for one character: the last index, if any. *)
Fixpoint rfind_char (c : ascii) (i : nat) (s : string) : option nat :=
  match s with
  | EmptyString => None
  | String a t =>
      match rfind_char c (S i) t with
      | Some j => Some j
      | None => if Ascii.eqb a c then Some i else None
      end
  end.

(** [any(k in s for k in keys)]. *)
Definition contains_any (s : string) (keys : list string) : bool :=
  existsb (contains s) keys.

(** [text.encode('utf-8')] on code points below U+0100. *)
Fixpoint utf8 (s : string) : list Z :=
  match s with
  | EmptyString => []
  | String c t =>
      let n := Z.of_nat (code c) in
      if (n <? 128)%Z then n :: utf8 t
      else Z.lor 192 (Z.shiftr n 6) :: Z.lor 128 (Z.land n 63) :: utf8 t
  end.

End PyStr.

(* ================================================================== *)
(** ** MD5, as [hashlib.md5(...).hexdigest()] computes it (RFC 1321) *)
(* ================================================================== *)

Module Md5.
Local Open Scope Z_scope.

Definition mask32 : Z := 4294967295.
Definition w32 (x : Z) : Z := Z.land x mask32.
Definition add32 (x y : Z) : Z := w32 (x + y).
Definition not32 (x : Z) : Z := Z.lxor x mask32.
Definition rotl32 (x : Z) (n : Z) : Z :=
  w32 (Z.lor (Z.shiftl x n) (Z.shiftr x (32 - n))).

Definition K : list Z :=
  [ 3614090360; 3905402710; 606105819; 3250441966;
    4118548399; 1200080426; 2821735955; 4249261313;
    1770035416; 2336552879; 4294925233; 2304563134;
    1804603682; 4254626195; 2792965006; 1236535329;
    4129170786; 3225465664; 643717713; 3921069994;
    3593408605; 38016083; 3634488961; 3889429448;
    568446438; 3275163606; 4107603335; 1163531501;
    2850285829; 4243563512; 1735328473; 2368359562;
    4294588738; 2272392833; 1839030562; 4259657740;
    2763975236; 1272893353; 4139469664; 3200236656;
    681279174; 3936430074; 3572445317; 76029189;
    3654602809; 3873151461; 530742520; 3299628645;
    4096336452; 1126891415; 2878612391; 4237533241;
    1700485571; 2399980690; 4293915773; 2240044497;
    1873313359; 4264355552; 2734768916; 1309151649;
    4149444226; 3174756917; 718787259; 3951481745 ].

Definition shifts : list Z :=
  [ 7; 12; 17; 22; 7; 12; 17; 22; 7; 12; 17; 22; 7; 12; 17; 22;
    5; 9; 14; 20; 5; 9; 14; 20; 5; 9; 14; 20; 5; 9; 14; 20;
    4; 11; 16; 23; 4; 11; 16; 23; 4; 11; 16; 23; 4; 11; 16; 23;
    6; 10; 15; 21; 6; 10; 15; 21; 6; 10; 15; 21; 6; 10; 15; 21 ].

(** Message padding: one 0x80 byte, zeros up to 56 modulo 64, then the
    bit length as a 64-bit little-endian integer. *)
Definition le_bytes (n : nat) (x : Z) : list Z :=
  map (fun i => Z.land (Z.shiftr x (8 * Z.of_nat i)) 255) (seq 0 n).

Definition pad (msg : list Z) : list Z :=
  let len := Z.of_nat (List.length msg) in
  let zeros := Z.to_nat ((55 - len) mod 64) in
  msg ++ 128 :: repeat 0 zeros ++ le_bytes 8 (Z.land (8 * len) 18446744073709551615).

Definition word_le (bs : list Z) : Z :=
  fold_right (fun b acc => b + 256 * acc) 0 bs.

(** The sixteen little-endian words of a 64-byte block. *)
Definition block_words (blk : list Z) : list Z :=
  map (fun i => word_le (firstn 4 (skipn (4 * i) blk))) (seq 0 16).

Definition state : Type := Z * Z * Z * Z.

Definition round (M : list Z) (st : state) (i : nat) : state :=
  let '(A, B, C, D) := st in
  let iz := Z.of_nat i in
  let '(F, g) :=
    if (i <? 16)%nat then (Z.lor (Z.land B C) (Z.land (not32 B) D), iz)
    else if (i <? 32)%nat then (Z.lor (Z.land D B) (Z.land (not32 D) C), (5 * iz + 1) mod 16)
    else if (i <? 48)%nat then (Z.lxor (Z.lxor B C) D, (3 * iz + 5) mod 16)
    else (Z.lxor C (Z.lor B (not32 D)), (7 * iz) mod 16) in
  let F' := add32 (add32 (add32 F A) (nth i K 0)) (nth (Z.to_nat g) M 0) in
  (D, add32 B (rotl32 F' (nth i shifts 0)), B, C).

Definition compress (st : state) (blk : list Z) : state :=
  let '(a0, b0, c0, d0) := st in
  let '(A, B, C, D) := fold_left (round (block_words blk)) (seq 0 64) st in
  (add32 a0 A, add32 b0 B, add32 c0 C, add32 d0 D).

Fixpoint blocks (n : nat) (bs : list Z) : list (list Z) :=
  match n with
  | O => []
  | S k => firstn 64 bs :: blocks k (skipn 64 bs)
  end.

Definition init : state := (1732584193, 4023233417, 2562383102, 271733878).

Definition digest (msg : list Z) : list Z :=
  let p := pad msg in
  let '(a, b, c, d) := fold_left compress (blocks (List.length p / 64) p) init in
  le_bytes 4 a ++ le_bytes 4 b ++ le_bytes 4 c ++ le_bytes 4 d.

Definition hex_digit (n : Z) : ascii :=
  if n <? 10 then ascii_of_nat (48 + Z.to_nat n) else ascii_of_nat (87 + Z.to_nat n).

Fixpoint hex (bs : list Z) : string :=
  match bs with
  | [] => EmptyString
  | b :: t => String (hex_digit (Z.shiftr b 4)) (String (hex_digit (Z.land b 15)) (hex t))
  end.

(** [hashlib.md5(text.encode('utf-8')).hexdigest()]. *)
Definition hexdigest (text : string) : string := hex (digest (PyStr.utf8 text)).

End Md5.

(* ================================================================== *)
(** ** Regular expressions: the backtracking matcher of Python's [re] *)
(* ================================================================== *)

Module Re.
Import PyStr.

(** The fragment of the pattern language the sources use.  Every
    quantifier of the sources is applied to a single character class,
    so [Rep] carries a class.  [greedy = false] is the lazy [*?]. *)
Inductive re : Type :=
| Eps
| Cls (p : ascii -> bool)
| Rep (greedy : bool) (lo : nat) (hi : option nat) (p : ascii -> bool)
| WordB
| Seq (a b : re)
| Alt (a b : re)
| Grp (n : nat) (a : re).

(** The spans [(start, end)] of the groups that have matched. *)
Definition spans : Type := list (nat * (nat * nat)).

Definition below (hi : option nat) (cnt : nat) : bool :=
  match hi with
  | None => true
  | Some h => (cnt <? h)%nat
  end.

Definition word_before (prev : option ascii) : bool :=
  match prev with Some c => is_word c | None => false end.

Definition word_after (rest : string) : bool :=
  match rest with String c _ => is_word c | EmptyString => false end.

Section Matcher.
Context {R : Type}.

(** [p{lo,hi}] from the position [(prev, off, rest)], [cnt] characters
    already taken.  Greedy: one more character first, give back on
    failure.  Lazy: the continuation first. *)
Fixpoint rep_run (greedy : bool) (p : ascii -> bool) (lo : nat) (hi : option nat)
    (cnt : nat) (prev : option ascii) (off : nat) (rest : string)
    (k : option ascii -> nat -> string -> option R) {struct rest} : option R :=
  if greedy then
    match
      match rest with
      | String c t =>
          if below hi cnt && p c
          then rep_run greedy p lo hi (S cnt) (Some c) (S off) t k
          else None
      | EmptyString => None
      end
    with
    | Some r => Some r
    | None => if (lo <=? cnt)%nat then k prev off rest else None
    end
  else
    match (if (lo <=? cnt)%nat then k prev off rest else None) with
    | Some r => Some r
    | None =>
        match rest with
        | String c t =>
            if below hi cnt && p c
            then rep_run greedy p lo hi (S cnt) (Some c) (S off) t k
            else None
        | EmptyString => None
        end
    end.

(** The matcher in continuation-passing style: alternatives are tried
    left to right and the first overall success wins. *)
Fixpoint run (r : re) (prev : option ascii) (off : nat) (rest : string) (caps : spans)
    (k : option ascii -> nat -> string -> spans -> option R) {struct r} : option R :=
  match r with
  | Eps => k prev off rest caps
  | Cls p =>
      match rest with
      | String c t => if p c then k (Some c) (S off) t caps else None
      | EmptyString => None
      end
  | Rep g lo hi p =>
      rep_run g p lo hi 0 prev off rest (fun pv o rs => k pv o rs caps)
  | WordB =>
      if xorb (word_before prev) (word_after rest) then k prev off rest caps else None
  | Seq a b =>
      run a prev off rest caps (fun pv o rs cs => run b pv o rs cs k)
  | Alt a b =>
      match run a prev off rest caps k with
      | Some x => Some x
      | None => run b prev off rest caps k
      end
  | Grp n a =>
      run a prev off rest caps (fun pv o rs cs => k pv o rs ((n, (off, o)) :: cs))
  end.
End Matcher.

(** A match object: [start()], [end()] and the group spans. *)
Record rmatch : Type := { m_start : nat; m_end : nat; m_spans : spans }.

Definition match_at (r : re) (prev : option ascii) (off : nat) (rest : string)
    : option rmatch :=
  run r prev off rest [] (fun _ o _ cs => Some {| m_start := off; m_end := o; m_spans := cs |}).

(** [re.finditer]: leftmost matches, not overlapping.  After a match the
    scan resumes at its end: [skip] counts the characters still to pass.
    (After an empty match the scan moves one character on; no pattern of
    the sources matches the empty string.) *)
Fixpoint scan (r : re) (prev : option ascii) (off skip : nat) (rest : string)
    {struct rest} : list rmatch :=
  match skip with
  | S k =>
      match rest with
      | String c t => scan r (Some c) (S off) k t
      | EmptyString => []
      end
  | O =>
      match match_at r prev off rest with
      | Some m =>
          m :: match rest with
               | String c t => scan r (Some c) (S off) (m_end m - off - 1) t
               | EmptyString => []
               end
      | None =>
          match rest with
          | String c t => scan r (Some c) (S off) 0 t
          | EmptyString => []
          end
      end
  end.

Definition finditer (r : re) (s : string) : list rmatch := scan r None 0 0 s.

(** [re.search]: the first match, if any. *)
Definition search (r : re) (s : string) : option rmatch :=
  match finditer r s with
  | m :: _ => Some m
  | [] => None
  end.

Fixpoint span_of (n : nat) (cs : spans) : option (nat * nat) :=
  match cs with
  | [] => None
  | (i, sp) :: t => if (i =? n)%nat then Some sp else span_of n t
  end.

(** [match.group(n)] for a group that took part in the match. *)
Definition group (n : nat) (s : string) (m : rmatch) : string :=
  match span_of n (m_spans m) with
  | Some (a, b) => slice a b s
  | None => EmptyString
  end.

(** *** Pattern combinators *)

Definition chr_is (c : ascii) : ascii -> bool := Ascii.eqb c.
(** A literal under [re.IGNORECASE]. *)
Definition chr_i (c : ascii) : ascii -> bool :=
  fun x => Ascii.eqb (lower_char x) (lower_char c).
Definition one_of (cs : string) : ascii -> bool :=
  fun x => existsb (Ascii.eqb x) (list_ascii_of_string cs).
Definition none_of (cs : string) : ascii -> bool := fun x => negb (one_of cs x).
(** [.] without [re.DOTALL]. *)
Definition dot : ascii -> bool := none_of (str1 10).
(** [[a-z]] as written, and under [re.IGNORECASE]. *)
Definition az : ascii -> bool := in_range 97 122.
Definition az_i : ascii -> bool := fun x => in_range 97 122 (lower_char x).
Definition either (p q : ascii -> bool) : ascii -> bool := fun x => p x || q x.

Fixpoint seqs (rs : list re) : re :=
  match rs with
  | [] => Eps
  | [r] => r
  | r :: t => Seq r (seqs t)
  end.

Fixpoint lit (s : string) : re :=
  match s with
  | EmptyString => Eps
  | String c EmptyString => Cls (chr_is c)
  | String c t => Seq (Cls (chr_is c)) (lit t)
  end.

Fixpoint lit_i (s : string) : re :=
  match s with
  | EmptyString => Eps
  | String c EmptyString => Cls (chr_i c)
  | String c t => Seq (Cls (chr_i c)) (lit_i t)
  end.

Definition star (p : ascii -> bool) : re := Rep true 0 None p.
Definition plus (p : ascii -> bool) : re := Rep true 1 None p.
Definition opt (p : ascii -> bool) : re := Rep true 0 (Some 1) p.
Definition lazy_star (p : ascii -> bool) : re := Rep false 0 None p.
Definition between (lo hi : nat) (p : ascii -> bool) : re := Rep true lo (Some hi) p.

End Re.

(* ================================================================== *)
(** ** [src/config/settings.py] *)
(* ================================================================== *)

Module Config.

(** [Config.MAX_FILE_SIZE_MB]. *)
Definition MAX_FILE_SIZE_MB : float := 100%float.

Inductive AIProvider : Type :=
| CLAUDE_SONNET_4 | CLAUDE_OPUS_4 | GPT_4 | GPT_4_TURBO | GEMINI_PRO.

Inductive ExpertiseLevel : Type :=
| JUNIOR | CONFIRMED | EXPERT | REGULATION_SPECIALIST.

Inductive SCRModule : Type :=
| SPREAD | INTEREST_RATE | EQUITY | CURRENCY | CONCENTRATION
| MARKET_GLOBAL | COUNTERPARTY | OPERATIONAL | LIFE | NON_LIFE.

Inductive DocumentType : Type :=
| REGULATION_EU | DIRECTIVE | EIOPA_GUIDELINES | TECHNICAL_STANDARDS
| INDUSTRY_PAPER | INTERNAL_DOC | ACADEMIC_PAPER.

(** [SCRModule.value]. *)
Definition SCRModule_value (m : SCRModule) : string :=
  match m with
  | SPREAD => "spread"
  | INTEREST_RATE => "interest_rate"
  | EQUITY => "equity"
  | CURRENCY => "currency"
  | CONCENTRATION => "concentration"
  | MARKET_GLOBAL => "market_global"
  | COUNTERPARTY => "counterparty"
  | OPERATIONAL => "operational"
  | LIFE => "life"
  | NON_LIFE => "non_life"
  end.

(** [DocumentType.value]. *)
Definition DocumentType_value (t : DocumentType) : string :=
  match t with
  | REGULATION_EU => "regulation_eu"
  | DIRECTIVE => "directive"
  | EIOPA_GUIDELINES => "eiopa_guidelines"
  | TECHNICAL_STANDARDS => "technical_standards"
  | INDUSTRY_PAPER => "industry_paper"
  | INTERNAL_DOC => "internal_doc"
  | ACADEMIC_PAPER => "academic_paper"
  end.

Definition SCRModule_eqb (a b : SCRModule) : bool :=
  String.eqb (SCRModule_value a) (SCRModule_value b).

Definition all_modules : list SCRModule :=
  [SPREAD; INTEREST_RATE; EQUITY; CURRENCY; CONCENTRATION;
   MARKET_GLOBAL; COUNTERPARTY; OPERATIONAL; LIFE; NON_LIFE].

End Config.

(* ================================================================== *)
(** ** Exceptions *)
(* ================================================================== *)

Inductive exc : Type :=
| ValueError (msg : string)
| FileNotFoundError (msg : string)
| OtherError (msg : string).

Inductive res (A : Type) : Type :=
| Ok (a : A)
| Raise (e : exc).
Arguments Ok {A} a.
Arguments Raise {A} e.

Definition res_bind {A B : Type} (r : res A) (f : A -> res B) : res B :=
  match r with
  | Ok a => f a
  | Raise e => Raise e
  end.

Definition is_ok {A : Type} (r : res A) : bool :=
  match r with Ok _ => true | Raise _ => false end.

(* ================================================================== *)
(** ** [src/knowledge/models.py] *)
(* ================================================================== *)

Module Models.
Import PyStr Config.

(** A [datetime] is an instant on the clock, a [date] a day number. *)
Definition datetime : Type := Z.
Definition date : Type := Z.

(** The values kept in [DocumentSource.metadata]. *)
Inductive meta_val : Type :=
| MInt (n : Z)
| MStr (s : string)
| MTime (t : datetime)
| MFileInfo (name : string) (size_mb : float) (extension : string).

Definition dict : Type := list (string * meta_val).

(** [d[k] = v]. *)
Fixpoint dict_set (k : string) (v : meta_val) (d : dict) : dict :=
  match d with
  | [] => [(k, v)]
  | (k', v') :: t =>
      if String.eqb k k' then (k, v) :: t else (k', v') :: dict_set k v t
  end.

(** [d.update(e)]. *)
Definition dict_update (d e : dict) : dict :=
  fold_left (fun acc kv => dict_set (fst kv) (snd kv) acc) e d.

Record DocumentSource : Type := {
  id : string;
  title : string;
  doc_type : DocumentType;
  url : option string;
  file_path : option string;
  publication_date : option date;
  regulatory_articles : list string;
  scr_modules : list SCRModule;
  language : string;
  reliability_score : float;
  last_updated : datetime;
  content_hash : string;
  metadata : dict
}.

Definition supported_languages : list string := ["fr"; "en"; "de"; "es"; "it"].

Definition mem_str (x : string) (l : list string) : bool :=
  existsb (String.eqb x) l.

(** [0 <= x <= 1] on floats. *)
Definition in_unit_interval (x : float) : bool :=
  (PrimFloat.leb 0 x && PrimFloat.leb x 1)%float.

Definition msg_reliability : string :=
  "reliability_score doit " ++ str1 234 ++ "tre entre 0 et 1".
Definition msg_confidence : string :=
  "confidence_score doit " ++ str1 234 ++ "tre entre 0 et 1".
Definition msg_concept_name : string :=
  "concept_name doit faire au moins 3 caract" ++ str1 232 ++ "res".

(** [DocumentSource(...)]: the generated [__init__] stores the fields,
    then [__post_init__] validates the score and coerces the language. *)
Definition DocumentSource_new
    (id title : string) (doc_type : DocumentType)
    (url file_path : option string) (publication_date : option date)
    (regulatory_articles : list string) (scr_modules : list SCRModule)
    (language : string) (reliability_score : float)
    (last_updated : datetime) (content_hash : string) (metadata : dict)
    : res DocumentSource :=
  if negb (in_unit_interval reliability_score)
  then Raise (ValueError msg_reliability)
  else Ok {| id := id; title := title; doc_type := doc_type; url := url;
             file_path := file_path; publication_date := publication_date;
             regulatory_articles := regulatory_articles;
             scr_modules := scr_modules;
             language := if negb (mem_str language supported_languages)
                         then "fr" else language;
             reliability_score := reliability_score;
             last_updated := last_updated; content_hash := content_hash;
             metadata := metadata |}.

(** [DocumentSource.is_relevant_for_module]: [module in self.scr_modules]. *)
Definition is_relevant_for_module (d : DocumentSource) (module : SCRModule) : bool :=
  existsb (SCRModule_eqb module) (scr_modules d).

Record SCRConcept : Type := {
  concept_name : string;
  scr_module : SCRModule;
  definition : string;
  concept_id : option Z;
  formula : option string;
  regulatory_article : option string;
  source_document_id : option string;
  examples : list string;
  tags : list string;
  created_at : datetime;
  updated_at : datetime;
  confidence_score : float
}.

(** [SCRConcept(...)] with its [__post_init__]. *)
Definition SCRConcept_new
    (concept_name : string) (scr_module : SCRModule) (definition : string)
    (concept_id : option Z) (formula regulatory_article source_document_id : option string)
    (examples tags : list string) (created_at updated_at : datetime)
    (confidence_score : float) : res SCRConcept :=
  if negb (in_unit_interval confidence_score)
  then Raise (ValueError msg_confidence)
  else
    let name := strip concept_name in
    if (String.length name <? 3)%nat
    then Raise (ValueError msg_concept_name)
    else Ok {| concept_name := name; scr_module := scr_module;
               definition := definition; concept_id := concept_id;
               formula := formula; regulatory_article := regulatory_article;
               source_document_id := source_document_id;
               examples := examples; tags := tags;
               created_at := created_at; updated_at := updated_at;
               confidence_score := confidence_score |}.

Definition set_examples (c : SCRConcept) (ex : list string) (t : datetime) : SCRConcept :=
  {| concept_name := concept_name c; scr_module := scr_module c;
     definition := definition c; concept_id := concept_id c;
     formula := formula c; regulatory_article := regulatory_article c;
     source_document_id := source_document_id c;
     examples := ex; tags := tags c;
     created_at := created_at c; updated_at := t;
     confidence_score := confidence_score c |}.

Definition set_concept_id (c : SCRConcept) (i : Z) : SCRConcept :=
  {| concept_name := concept_name c; scr_module := scr_module c;
     definition := definition c; concept_id := Some i;
     formula := formula c; regulatory_article := regulatory_article c;
     source_document_id := source_document_id c;
     examples := examples c; tags := tags c;
     created_at := created_at c; updated_at := updated_at c;
     confidence_score := confidence_score c |}.

(** [SCRConcept.add_example]: the membership test is on [example] as
    given, the value appended is [example.strip()].  [now] is the clock
    at the call. *)
Definition add_example (now : datetime) (c : SCRConcept) (example : string) : SCRConcept :=
  if negb (String.eqb (strip example) EmptyString) && negb (mem_str example (examples c))
  then set_examples c (examples c ++ [strip example]) now
  else c.

Record PromptConfig : Type := {
  ai_provider : AIProvider;
  expertise_level : ExpertiseLevel;
  pc_scr_module : SCRModule;
  pc_language : string;
  output_format : string;
  include_examples : bool;
  include_formulas : bool;
  include_regulatory_refs : bool;
  max_length : Z;
  custom_requirements : list string;
  context_level : string;
  technical_depth : Z
}.

(** [PromptConfig(...)] with its [__post_init__]; it raises nothing. *)
Definition PromptConfig_new
    (ai_provider : AIProvider) (expertise_level : ExpertiseLevel)
    (scr_module : SCRModule) (language output_format : string)
    (include_examples include_formulas include_regulatory_refs : bool)
    (max_length : Z) (custom_requirements : list string)
    (context_level : string) (technical_depth : Z) : PromptConfig :=
  {| ai_provider := ai_provider; expertise_level := expertise_level;
     pc_scr_module := scr_module; pc_language := language;
     output_format := output_format;
     include_examples := include_examples;
     include_formulas := include_formulas;
     include_regulatory_refs := include_regulatory_refs;
     max_length :=
       if (max_length <? 500)%Z then 500%Z
       else if (max_length >? 10000)%Z then 10000%Z
       else max_length;
     custom_requirements := custom_requirements;
     context_level :=
       if negb (mem_str context_level ["low"; "medium"; "high"])
       then "high" else context_level;
     technical_depth :=
       if negb ((1 <=? technical_depth)%Z && (technical_depth <=? 5)%Z)
       then 3%Z else technical_depth |}.

End Models.

(* ================================================================== *)
(** ** [pathlib] and [urllib.parse], as far as the sources use them *)
(* ================================================================== *)

Module PyPath.
Import PyStr.

(** [Path(p).name] on a POSIX path: the last component that is neither
    empty nor a single dot. *)
Definition name (p : string) : string :=
  last (filter (fun x => negb (String.eqb x EmptyString) && negb (String.eqb x "."))
               (split_on "/" p)) EmptyString.

(** The index [i] of the last dot of [name] when [0 < i < len(name) - 1]. *)
Definition suffix_index (n : string) : option nat :=
  match rfind_char "." 0 n with
  | Some i => if (0 <? i)%nat && (i <? String.length n - 1)%nat then Some i else None
  | None => None
  end.

(** [Path(p).stem]. *)
Definition stem (p : string) : string :=
  let n := name p in
  match suffix_index n with
  | Some i => take i n
  | None => n
  end.

(** [Path(p).suffix]. *)
Definition suffix (p : string) : string :=
  let n := name p in
  match suffix_index n with
  | Some i => drop i n
  | None => EmptyString
  end.

(** [url.replace(b, empty)] for the three characters [urlsplit] removes
    from a URL: TAB, CR and LF. *)
Fixpoint remove_unsafe (s : string) : string :=
  match s with
  | EmptyString => EmptyString
  | String c t =>
      if (code c =? 9)%nat || (code c =? 13)%nat || (code c =? 10)%nat
      then remove_unsafe t else String c (remove_unsafe t)
  end.

(** [_splitnetloc]: up to the first of [/], [?] and [#]. *)
Fixpoint until_delim (s : string) : string :=
  match s with
  | EmptyString => EmptyString
  | String c t =>
      if Ascii.eqb c "/" || Ascii.eqb c "?" || Ascii.eqb c "#"
      then EmptyString else String c (until_delim t)
  end.

(** [c in s]. *)
Definition has_char (c : ascii) (s : string) : bool :=
  existsb (Ascii.eqb c) (list_ascii_of_string s).

Definition msg_ipv6 : string := "Invalid IPv6 URL".

(** [urlparse("http://" + rest).netloc], and the same for ["https://"]:
    [urlsplit] removes TAB, CR and LF, takes the scheme off and cuts
    what follows the two slashes at the first delimiter.  A host with
    one kind of bracket only is refused.  A host with both brackets is
    handed to a check that depends on the version of Python (none before
    3.11.4, the [ipaddress] module since): [bracketed_ok] is its
    verdict.  The last check of [urlsplit], on the NFKC form of the
    host, refuses no host of code points below U+0100. *)
Definition netloc (bracketed_ok : string -> bool) (rest : string) : res string :=
  let host := until_delim (remove_unsafe rest) in
  if xorb (has_char "[" host) (has_char "]" host) then Raise (ValueError msg_ipv6)
  else if has_char "[" host && negb (bracketed_ok host) then Raise (ValueError msg_ipv6)
  else Ok host.

End PyPath.

(* ================================================================== *)
(** ** The surroundings of one call *)
(* ================================================================== *)

Module Env.
Import Models.

(** The dictionary the parsers return, restricted to the entries the
    orchestrator reads. *)
Record ContentData : Type := {
  text_content : string;
  meta_title : option string;       (* content_data['metadata'].get('title') *)
  statistics : dict;                (* content_data['statistics'] *)
  file_info : option meta_val       (* content_data.get('file_info') *)
}.

Record World : Type := {
  (** [Path(p).exists()] *)
  path_exists : string -> bool;
  (** [Path(p).stat().st_size / (1024 * 1024)] *)
  size_mb : string -> float;
  (** PyPDF2 and pdfplumber on an existing file with suffix [.pdf] *)
  read_pdf : string -> res ContentData;
  (** [open] and BeautifulSoup on an existing local file *)
  read_html_file : string -> res ContentData;
  (** [requests] and BeautifulSoup on a URL *)
  fetch_url : string -> res ContentData;
  (** [datetime.now()], read as one instant for the whole call *)
  now : datetime;
  (** [urlsplit]'s check of a host that holds both brackets *)
  bracketed_host_ok : string -> bool;
  (** does SQLite carry out the write that the generator asks for after
      [n] earlier ones?  Otherwise [execute] or [commit] raises. *)
  write_succeeds : nat -> bool
}.

End Env.

(* ================================================================== *)
(** ** [src/parsers/] *)
(* ================================================================== *)

Module Parsers.
Import PyStr Re Env.

Inductive Parser : Type := PDFParser | HTMLParser.

(** [startswith(('http://', 'https://'))]. *)
Definition is_url (s : string) : bool :=
  startswith s "http://" || startswith s "https://".

Definition msg_unsupported (s : string) : string :=
  "Type de fichier non support" ++ str1 233 ++ ": " ++ s.

(** [create_parser]. *)
Definition create_parser (file_path_or_url : string) : res Parser :=
  if is_url file_path_or_url then Ok HTMLParser
  else if endswith (lower file_path_or_url) ".pdf" then Ok PDFParser
  else if endswith (lower file_path_or_url) ".html"
          || endswith (lower file_path_or_url) ".htm" then Ok HTMLParser
  else Raise (ValueError (msg_unsupported file_path_or_url)).

(** [PDFParser.extract_content]. *)
Definition pdf_extract_content (w : World) (file_path : string) : res ContentData :=
  if negb (path_exists w file_path)
  then Raise (FileNotFoundError ("Fichier PDF non trouv" ++ str1 233 ++ ": " ++ file_path))
  else if negb (String.eqb (lower (PyPath.suffix file_path)) ".pdf")
  then Raise (ValueError ("Le fichier n'est pas un PDF: " ++ file_path))
  else read_pdf w file_path.

(** [HTMLParser._extract_from_file]. *)
Definition html_extract_from_file (w : World) (file_path : string) : res ContentData :=
  if negb (path_exists w file_path)
  then Raise (FileNotFoundError ("Fichier HTML non trouv" ++ str1 233 ++ ": " ++ file_path))
  else read_html_file w file_path.

(** [HTMLParser.extract_content]. *)
Definition html_extract_content (w : World) (file_path_or_url : string) : res ContentData :=
  if is_url file_path_or_url then fetch_url w file_path_or_url
  else html_extract_from_file w file_path_or_url.

Definition extract_content (p : Parser) (w : World) (loc : string) : res ContentData :=
  match p with
  | PDFParser => pdf_extract_content w loc
  | HTMLParser => html_extract_content w loc
  end.

(** The article number [(\d+[a-z]?)] under [re.IGNORECASE]. *)
Definition article_number : re := Grp 1 (seqs [plus is_digit; opt az_i]).

(** The five patterns of [extract_regulatory_articles], compiled with
    [re.IGNORECASE | re.MULTILINE]. *)
Definition article_patterns : list re :=
  [ (* Article\s+(\d+[a-z]?)\b *)
    seqs [lit_i "Article"; plus is_space; article_number; WordB];
    (* Art\.\s+(\d+[a-z]?)\b *)
    seqs [lit_i "Art."; plus is_space; article_number; WordB];
    (* Article\s+(\d+[a-z]?)\s*\([^)]+\) *)
    seqs [lit_i "Article"; plus is_space; article_number; star is_space;
          lit_i "("; plus (none_of ")"); lit_i ")"];
    (* (?:Reglement|Regulation).*?(\d+/\d+), the first e with a grave accent *)
    seqs [Alt (lit_i ("R" ++ str1 232 ++ "glement")) (lit_i "Regulation");
          lazy_star dot;
          Grp 1 (seqs [plus is_digit; lit_i "/"; plus is_digit])];
    (* Directive.*?(\d+/\d+/CE) *)
    seqs [lit_i "Directive"; lazy_star dot;
          Grp 1 (seqs [plus is_digit; lit_i "/"; plus is_digit; lit_i "/CE"])] ].

(** [articles.add(a)] on a set kept as a list without repetition. *)
Definition set_add (a : string) (s : list string) : list string :=
  if Models.mem_str a s then s else s ++ [a].

(** The body of the inner loop: one match of one pattern. *)
Definition add_match (content : string) (articles : list string) (m : rmatch)
    : list string :=
  let article := strip (group 1 content m) in
  if negb (String.eqb article EmptyString) && (String.length article <=? 10)%nat
  then set_add article articles
  else articles.

(** [a < b] on strings: code point by code point. *)
Fixpoint str_ltb (a b : string) : bool :=
  match a, b with
  | EmptyString, EmptyString => false
  | EmptyString, String _ _ => true
  | String _ _, EmptyString => false
  | String x a', String y b' =>
      if (code x <? code y)%nat then true
      else if (code y <? code x)%nat then false
      else str_ltb a' b'
  end.

(** [(len(a), a) < (len(b), b)]. *)
Definition key_ltb (a b : string) : bool :=
  (String.length a <? String.length b)%nat
  || ((String.length a =? String.length b)%nat && str_ltb a b).

(** [sorted(l, key=...)]: a stable sort; an element is put before the
    first one whose key is strictly greater. *)
Fixpoint insert_by {A : Type} (lt : A -> A -> bool) (x : A) (l : list A) : list A :=
  match l with
  | [] => [x]
  | y :: t => if lt x y then x :: l else y :: insert_by lt x t
  end.

Definition sorted_by {A : Type} (lt : A -> A -> bool) (l : list A) : list A :=
  fold_left (fun acc x => insert_by lt x acc) l [].

(** The set built by the two nested loops. *)
Definition collect_articles (content : string) : list string :=
  fold_left
    (fun articles pattern => fold_left (add_match content) (finditer pattern content) articles)
    article_patterns [].

(** [BaseDocumentParser.extract_regulatory_articles]. *)
Definition extract_regulatory_articles (content : string) : list string :=
  sorted_by key_ltb (collect_articles content).

End Parsers.

(* ================================================================== *)
(** ** [src/knowledge/database.py] *)
(* ================================================================== *)

Module Database.
Import PyStr Config Models.

(** A row of table [documents].  The columns [regulatory_articles] and
    [scr_modules] hold [json.dumps] of the lists, which [json.loads]
    reads back unchanged; [doc_type] and the dates likewise are stored
    as text and read back.  The module list is kept here as the list and
    serialised by [json_dumps_modules] where the SQL reads the text. *)
Record DocRow : Type := {
  row_id : string;
  row_title : string;
  row_doc_type : DocumentType;
  row_url : option string;
  row_file_path : option string;
  row_publication_date : option date;
  row_regulatory_articles : list string;
  row_scr_modules : list SCRModule;
  row_language : string;
  row_reliability_score : option float;      (* [None] is NULL *)
  row_content_hash : string;
  row_last_updated : datetime
}.

(** A row of table [scr_concepts]. *)
Record ConceptRow : Type := {
  crow_id : Z;
  crow_concept_name : string;
  crow_scr_module : SCRModule;
  crow_definition : string;
  crow_formula : option string;
  crow_regulatory_article : option string;
  crow_source_document_id : option string;
  crow_examples : option (list string);
  crow_created_at : datetime
}.

(** The database: both tables in rowid order, and the last id given out
    by [AUTOINCREMENT]. *)
Record SCRKnowledgeBase : Type := {
  documents : list DocRow;
  scr_concepts : list ConceptRow;
  concept_seq : nat
}.

Definition empty_kb : SCRKnowledgeBase :=
  {| documents := []; scr_concepts := []; concept_seq := 0 |}.

(** [json.dumps([m.value for m in scr_modules])]: the values need no
    escaping. *)
Definition quoted (x : string) : string := str1 34 ++ x ++ str1 34.

Fixpoint json_items (l : list string) : string :=
  match l with
  | [] => EmptyString
  | [x] => quoted x
  | x :: t => quoted x ++ ", " ++ json_items t
  end.

Definition json_dumps_modules (l : list SCRModule) : string :=
  "[" ++ json_items (map SCRModule_value l) ++ "]".

(** SQLite's case folding of [LIKE]: the ASCII letters only. *)
Definition ascii_fold (c : ascii) : ascii :=
  if in_range 65 90 c then chr (code c + 32) else c.

(** [text LIKE pattern]: [%] is any run of characters, [_] any one
    character, the rest compares without case. *)
Fixpoint like (pattern : string) (text : string) : bool :=
  match pattern with
  | EmptyString => match text with EmptyString => true | _ => false end
  | String p pattern' =>
      if Ascii.eqb p "%" then
        (fix any (t : string) : bool :=
           like pattern' t ||
           match t with
           | EmptyString => false
           | String _ t' => any t'
           end) text
      else
        match text with
        | EmptyString => false
        | String c text' =>
            (Ascii.eqb p "_" || Ascii.eqb (ascii_fold p) (ascii_fold c))
            && like pattern' text'
        end
  end.

(** What a [REAL] column keeps of a float: NaN is bound as NULL, and a
    zero loses its sign, because a real without fractional part is
    stored as an integer. *)
Definition sql_real (x : float) : option float :=
  if PrimFloat.is_nan x then None
  else if PrimFloat.is_zero x then Some 0%float
  else Some x.

Definition row_of_document (d : DocumentSource) : DocRow :=
  {| row_id := id d; row_title := title d; row_doc_type := doc_type d;
     row_url := url d; row_file_path := file_path d;
     row_publication_date := publication_date d;
     row_regulatory_articles := regulatory_articles d;
     row_scr_modules := scr_modules d;
     row_language := language d;
     row_reliability_score := sql_real (reliability_score d);
     row_content_hash := content_hash d;
     row_last_updated := last_updated d |}.

(** [INSERT OR REPLACE INTO documents]: a row with the same primary key
    is deleted, the new row gets a fresh rowid. *)
Definition insert_or_replace (r : DocRow) (rows : list DocRow) : list DocRow :=
  filter (fun x => negb (String.eqb (row_id x) (row_id r))) rows ++ [r].

(** [add_document]; [written] tells whether SQLite carries the write
    out.  When [execute] or [commit] raises, the [except] branch rolls
    back and returns [False], and the tables are as before. *)
Definition add_document (written : bool) (kb : SCRKnowledgeBase)
    (doc_source : DocumentSource) : bool * SCRKnowledgeBase :=
  if written then
    (true,
     {| documents := insert_or_replace (row_of_document doc_source) (documents kb);
        scr_concepts := scr_concepts kb;
        concept_seq := concept_seq kb |})
  else (false, kb).

Definition msg_none_score : string :=
  "TypeError: '<=' not supported between instances of 'int' and 'NoneType'".

(** [_row_to_document_source]; a NULL score is [None], which the
    comparison of [__post_init__] refuses with [TypeError]. *)
Definition _row_to_document_source (r : DocRow) : res DocumentSource :=
  match row_reliability_score r with
  | Some score =>
      DocumentSource_new (row_id r) (row_title r) (row_doc_type r) (row_url r)
        (row_file_path r) (row_publication_date r) (row_regulatory_articles r)
        (row_scr_modules r) (row_language r) score
        (row_last_updated r) (row_content_hash r) []
  | None => Raise (OtherError msg_none_score)
  end.

(** [get_document_by_id]. *)
Definition get_document_by_id (kb : SCRKnowledgeBase) (doc_id : string)
    : res (option DocumentSource) :=
  match find (fun r => String.eqb (row_id r) doc_id) (documents kb) with
  | Some r => res_bind (_row_to_document_source r) (fun d => Ok (Some d))
  | None => Ok None
  end.

(** [ORDER BY reliability_score DESC, publication_date DESC]: does [a]
    come strictly before [b]?  NULL is below every date. *)
Definition date_gtb (a b : option date) : bool :=
  match a, b with
  | Some x, Some y => (y <? x)%Z
  | Some _, None => true
  | None, _ => false
  end.

Definition date_eqb (a b : option date) : bool :=
  match a, b with
  | Some x, Some y => (x =? y)%Z
  | None, None => true
  | _, _ => false
  end.

(** The order of SQLite on the values of a [REAL] column: NULL is below
    every number, and two NULLs are equal. *)
Definition real_ltb (a b : option float) : bool :=
  match a, b with
  | Some x, Some y => PrimFloat.ltb x y
  | None, Some _ => true
  | _, None => false
  end.

Definition real_eqb (a b : option float) : bool :=
  match a, b with
  | Some x, Some y => PrimFloat.eqb x y
  | None, None => true
  | _, _ => false
  end.

Definition row_before (a b : DocRow) : bool :=
  real_ltb (row_reliability_score b) (row_reliability_score a)
  || (real_eqb (row_reliability_score a) (row_reliability_score b)
      && date_gtb (row_publication_date a) (row_publication_date b)).

(** [mapM] over [res]. *)
Fixpoint res_map {A B : Type} (f : A -> res B) (l : list A) : res (list B) :=
  match l with
  | [] => Ok []
  | x :: t =>
      res_bind (f x) (fun y => res_bind (res_map f t) (fun ys => Ok (y :: ys)))
  end.

(** The rows selected by [WHERE scr_modules LIKE '%<value>%']. *)
Definition rows_like_module (kb : SCRKnowledgeBase) (scr_module : SCRModule)
    : list DocRow :=
  filter (fun r => like ("%" ++ SCRModule_value scr_module ++ "%")
                        (json_dumps_modules (row_scr_modules r)))
         (documents kb).

(** [get_documents_by_module]; [limit] is applied when it is truthy. *)
Definition get_documents_by_module (kb : SCRKnowledgeBase) (scr_module : SCRModule)
    (limit : option nat) : res (list DocumentSource) :=
  let ordered := Parsers.sorted_by row_before (rows_like_module kb scr_module) in
  let rows :=
    match limit with
    | Some (S n) => firstn (S n) ordered
    | _ => ordered
    end in
  res_map _row_to_document_source rows.

(** [add_scr_concept]: the new row takes the next id of the sequence,
    which is returned as [cursor.lastrowid]; [written] tells whether
    SQLite carries the write out.  When it does not, the [except] branch
    rolls back and returns -1, and the tables and the sequence are as
    before. *)
Definition add_scr_concept (written : bool) (kb : SCRKnowledgeBase)
    (concept : SCRConcept) : Z * SCRKnowledgeBase :=
  if written then
    let new_id := S (concept_seq kb) in
    (Z.of_nat new_id,
     {| documents := documents kb;
        scr_concepts :=
          scr_concepts kb ++
          [{| crow_id := Z.of_nat new_id;
              crow_concept_name := concept_name concept;
              crow_scr_module := scr_module concept;
              crow_definition := definition concept;
              crow_formula := formula concept;
              crow_regulatory_article := regulatory_article concept;
              crow_source_document_id := source_document_id concept;
              crow_examples :=
                match examples concept with [] => None | l => Some l end;
              crow_created_at := created_at concept |}];
        concept_seq := new_id |})
  else ((-1)%Z, kb).

(** [get_statistics()['total_documents']]: [SELECT COUNT( * ) FROM documents]. *)
Definition total_documents (kb : SCRKnowledgeBase) : nat :=
  List.length (documents kb).

End Database.

(* ================================================================== *)
(** ** [src/main.py]: the orchestrator *)
(* ================================================================== *)

Set Warnings "-inexact-float".

Module Main.
Import PyStr Re Config Models Env Parsers Database.
Local Open Scope string_scope.

(** *** State, calls and exceptions *)

Inductive signal : Type := SigArticles | SigTitle | SigLanguage | SigReliability.

(** The calls the orchestrator makes on its collaborators, in order. *)
Inductive event : Type :=
| WarnLargeFile
| CallExtractContent (p : Parser)
| CallSignal (s : signal)
| CallAddDocument (doc_id : string)
| CallAddConcept (name : string).

(** [SCRPromptGenerator]: the knowledge base and the counter of
    processed documents; [trace] records the calls made so far. *)
Record State : Type := {
  knowledge_base : SCRKnowledgeBase;
  documents_processed : nat;
  trace : list event
}.

Definition M (A : Type) : Type := State -> res A * State.

Definition ret {A : Type} (a : A) : M A := fun s => (Ok a, s).

Definition bind {A B : Type} (c : M A) (f : A -> M B) : M B :=
  fun s =>
    match c s with
    | (Ok a, s') => f a s'
    | (Raise e, s') => (Raise e, s')
    end.

Notation "x <- c ;; k" := (bind c (fun x => k))
  (at level 61, c at next level, right associativity).
Notation "c ;;; k" := (bind c (fun _ => k))
  (at level 61, right associativity).

(** A raised exception leaves the state as it is. *)
Definition lift {A : Type} (r : res A) : M A := fun s => (r, s).

Definition emit (e : event) : M unit :=
  fun s => (Ok tt, {| knowledge_base := knowledge_base s;
                      documents_processed := documents_processed s;
                      trace := (trace s ++ [e])%list |}).

(** [try: body except Exception: handler]. *)
Definition try_except {A : Type} (body : M A) (handler : exc -> M A) : M A :=
  fun s =>
    match body s with
    | (Ok a, s') => (Ok a, s')
    | (Raise e, s') => handler e s'
    end.

Fixpoint foldM {A B : Type} (f : B -> A -> M B) (l : list A) (b : B) : M B :=
  match l with
  | [] => ret b
  | x :: t => b' <- f b x ;; foldM f t b'
  end.

(** Is the call one to the store? *)
Definition is_store_call (e : event) : bool :=
  match e with
  | CallAddDocument _ | CallAddConcept _ => true
  | _ => false
  end.

(** The number of writes the generator has asked of the store so far. *)
Definition store_calls (calls : list event) : nat :=
  List.length (filter is_store_call calls).

(** [self.knowledge_base.add_document(doc)]. *)
Definition kb_add_document (w : World) (d : DocumentSource) : M bool :=
  fun s =>
    let '(ok, kb') := add_document (write_succeeds w (store_calls (trace s)))
                                   (knowledge_base s) d in
    (Ok ok, {| knowledge_base := kb';
               documents_processed := documents_processed s;
               trace := (trace s ++ [CallAddDocument (id d)])%list |}).

(** [self.knowledge_base.add_scr_concept(concept)]. *)
Definition kb_add_scr_concept (w : World) (c : SCRConcept) : M Z :=
  fun s =>
    let '(cid, kb') := add_scr_concept (write_succeeds w (store_calls (trace s)))
                                       (knowledge_base s) c in
    (Ok cid, {| knowledge_base := kb';
                documents_processed := documents_processed s;
                trace := (trace s ++ [CallAddConcept (concept_name c)])%list |}).

(** [self._documents_processed += 1]. *)
Definition count_processed : M unit :=
  fun s => (Ok tt, {| knowledge_base := knowledge_base s;
                      documents_processed := S (documents_processed s);
                      trace := trace s |}).

(** The keyword arguments [**metadata] the callers pass. *)
Record Overrides : Type := {
  o_title : option string;
  o_url : option string;
  o_publication_date : option date;
  o_language : option string;
  o_reliability_score : option float
}.

Definition no_overrides : Overrides :=
  {| o_title := None; o_url := None; o_publication_date := None;
     o_language := None; o_reliability_score := None |}.

(** *** Identity *)

(** [parsed.netloc.replace('www.', '')] and
    [domain.replace('.', '_')[:20]]. *)
Definition host_name (netloc : string) : string :=
  let domain := replace netloc "www." EmptyString in
  take 20 (replace domain "." "_").

(** [_extract_source_name]; [urlparse] may raise. *)
Definition _extract_source_name (w : World) (file_path_or_url : string) : res string :=
  if startswith file_path_or_url "http://" then
    res_bind (PyPath.netloc (bracketed_host_ok w) (drop 7 file_path_or_url))
             (fun netloc => Ok (host_name netloc))
  else if startswith file_path_or_url "https://" then
    res_bind (PyPath.netloc (bracketed_host_ok w) (drop 8 file_path_or_url))
             (fun netloc => Ok (host_name netloc))
  else Ok (take 20 (PyPath.stem file_path_or_url)).

(** [f"{doc_type.value}_{source_name}_{content_hash[:8]}"]. *)
Definition document_id (doc_type : DocumentType) (source_name content_hash : string)
    : string :=
  DocumentType_value doc_type ++ "_" ++ source_name ++ "_" ++ take 8 content_hash.

(** *** Signals *)

Definition e_acute : string := str1 233.
Definition e_grave : string := str1 232.

Definition title_keywords : list string :=
  [ "r" ++ e_grave ++ "glement"; "directive"; "scr";
    "solvabilit" ++ e_acute; "solvency"; "eiopa"; "guidelines"; "article";
    "commission"; "d" ++ e_acute ++ "l" ++ e_acute ++ "gu" ++ e_acute ].

(** The first of the lines that can be a title. *)
Definition title_line (lines : list string) : option string :=
  find (fun line =>
          (10 <=? String.length line)%nat && (String.length line <=? 200)%nat
          && contains_any (lower line) title_keywords)
       lines.

(** [_extract_title]; the title made from a URL needs the source name,
    which [urlparse] may refuse. *)
Definition _extract_title (w : World) (content_data : ContentData) (source : string)
    : res string :=
  let from_text :=
    let lines :=
      filter (fun l => negb (String.eqb l EmptyString))
             (map strip (split_on (chr 10) (text_content content_data))) in
    match title_line (firstn 15 lines) with
    | Some line => Ok line
    | None =>
        if is_url source
        then res_bind (_extract_source_name w source)
                      (fun source_name => Ok ("Document web - " ++ source_name))
        else Ok ("Document - " ++ PyPath.stem source)
    end in
  match meta_title content_data with
  | Some t =>
      if negb (String.eqb t EmptyString) && (5 <? String.length (strip t))%nat
      then Ok (strip t) else from_text
  | None => from_text
  end.

Definition french_indicators : list string :=
  [ "r" ++ e_grave ++ "glement"; "solvabilit" ++ e_acute; "assurance";
    "soci" ++ e_acute ++ "t" ++ e_acute; "europ" ++ e_acute ++ "enne" ].
Definition english_indicators : list string :=
  [ "regulation"; "solvency"; "insurance"; "european"; "commission" ].

(** [_detect_language]. *)
Definition _detect_language (text : string) : string :=
  let text_lower := lower text in
  let french_count := List.length (filter (contains text_lower) french_indicators) in
  let english_count := List.length (filter (contains text_lower) english_indicators) in
  if (english_count <? french_count)%nat then "fr"
  else if (french_count <? english_count)%nat then "en"
  else "fr".

Definition type_scores (t : DocumentType) : float :=
  match t with
  | REGULATION_EU => 1.0
  | DIRECTIVE => 0.95
  | EIOPA_GUIDELINES => 0.9
  | TECHNICAL_STANDARDS => 0.85
  | INDUSTRY_PAPER => 0.7
  | INTERNAL_DOC => 0.6
  | ACADEMIC_PAPER => 0.75
  end%float.

(** Python's [max(a, b)] and [min(a, b)]: the first argument unless the
    second is strictly greater, resp. smaller. *)
Definition py_max (a b : float) : float := if PrimFloat.ltb a b then b else a.
Definition py_min (a b : float) : float := if PrimFloat.ltb b a then b else a.

(** [len([word for word in text.split() if 'article' in word.lower()])]. *)
Definition article_count (text : string) : nat :=
  List.length (filter (fun word => contains (lower word) "article") (split_ws text)).

(** [len(text.split())]. *)
Definition word_count (text : string) : nat := List.length (split_ws text).

(** [_calculate_reliability_score]. *)
Definition _calculate_reliability_score (content_data : ContentData)
    (doc_type : DocumentType) : float :=
  let score := type_scores doc_type in
  let text := text_content content_data in
  let score := if (10 <? article_count text)%nat then (score + 0.1)%float else score in
  let score :=
    if (5000 <? word_count text)%nat then (score + 0.05)%float
    else if (word_count text <? 500)%nat then (score - 0.1)%float
    else score in
  py_min (py_max score 0.1%float) 1.0%float.

(** [_extract_additional_metadata]. *)
Definition _extract_additional_metadata (now : datetime) (content_data : ContentData)
    : dict :=
  let text := text_content content_data in
  let metadata := dict_set "word_count" (MInt (Z.of_nat (word_count text))) [] in
  let metadata := dict_set "char_count" (MInt (Z.of_nat (String.length text))) metadata in
  let metadata := dict_update metadata (statistics content_data) in
  let metadata :=
    match file_info content_data with
    | Some fi => dict_set "file_info" fi metadata
    | None => metadata
    end in
  dict_set "processed_at" (MTime now) metadata.

(** *** The concept miner *)

(** The value span [([^.\n]{10,hi})]. *)
Definition concept_value (hi : nat) : re :=
  Grp 2 (between 10 hi (none_of ("." ++ str1 10))).

(** [(<word>[^:]{0,30})\s*[:\-]\s*([^.\n]{10,80})]; the bracketed first
    letter of the source is the letter itself under [re.IGNORECASE]. *)
Definition labelled (word : string) : re :=
  seqs [Grp 1 (seqs [lit_i word; between 0 30 (none_of ":")]);
        star is_space; Cls (one_of ":-"); star is_space; concept_value 80].

(** [concept_patterns], compiled with [re.IGNORECASE | re.MULTILINE]. *)
Definition concept_patterns : list (re * string) :=
  [ (* SCR[_\s]*(\w+)\s*=\s*([^.\n]{10,100}) *)
    (seqs [lit_i "SCR"; star (either (chr_is "_") is_space); Grp 1 (plus is_word);
           star is_space; lit_i "="; star is_space; concept_value 100],
     "Formule SCR");
    (labelled "facteur", "Facteur");
    (labelled "coefficient", "Coefficient");
    (labelled "duration", "Duration");
    (labelled ("sensibilit" ++ e_acute), "Sensibilit" ++ e_acute);
    (labelled "notation", "Notation");
    (labelled "rating", "Rating");
    (labelled "choc", "Choc");
    (labelled "stress", "Stress") ].

(** [re.sub(r'\s+', ' ', s)]: every run of blanks becomes one space.
    [in_run] tells that the previous character was a blank. *)
Fixpoint collapse_from (in_run : bool) (s : string) : string :=
  match s with
  | EmptyString => EmptyString
  | String c t =>
      if is_space c then
        if in_run then collapse_from true t
        else String " " (collapse_from true t)
      else String c (collapse_from false t)
  end.

Definition collapse_ws (s : string) : string := collapse_from false s.

(** [[Aa]rticle\s+(\d+[a-z]?)], compiled without flags. *)
Definition article_in_context : re :=
  seqs [Cls (one_of "Aa"); lit "rticle"; plus is_space;
        Grp 1 (seqs [plus is_digit; opt az])].

(** What is kept of a match that passes the quality filter. *)
Record Candidate : Type := {
  cand_name : string;
  cand_definition : string;
  cand_article : option string
}.

(** The body of the loop over the matches, up to the loop over the
    modules: [None] when the quality filter rejects the match. *)
Definition candidate_of (content : string) (m : rmatch) : option Candidate :=
  let concept_name := strip (group 1 content m) in
  let definition := strip (group 2 content m) in
  if (3 <=? String.length concept_name)%nat && (String.length concept_name <=? 50)%nat
     && (10 <=? String.length definition)%nat && (String.length definition <=? 150)%nat
     && negb (existsb (contains definition) ["<"; ">"; "{"; "}"])
  then
    let context := slice (m_start m - 200) (m_end m + 200) content in
    Some {| cand_name := collapse_ws concept_name;
            cand_definition := collapse_ws definition;
            cand_article :=
              match search article_in_context context with
              | Some am => Some (group 1 context am)
              | None => None
              end |}
  else None.

(** The body of the loop over the modules of the document. *)
Definition emit_concept (w : World) (doc_source : DocumentSource) (c : Candidate)
    (extracted : list SCRConcept) (scr_module : SCRModule) : M (list SCRConcept) :=
  concept <- lift (SCRConcept_new (cand_name c) scr_module (cand_definition c)
                     None None (cand_article c) (Some (id doc_source))
                     [] [] (now w) (now w) 0.8%float) ;;
  concept_id <- kb_add_scr_concept w concept ;;
  if (0 <? concept_id)%Z
  then ret (extracted ++ [set_concept_id concept concept_id])%list
  else ret extracted.

(** [_auto_extract_concepts]. *)
Definition _auto_extract_concepts (w : World) (doc_source : DocumentSource)
    (content : string) : M (list SCRConcept) :=
  foldM
    (fun extracted pattern =>
       foldM
         (fun extracted m =>
            match candidate_of content m with
            | Some c => foldM (emit_concept w doc_source c) (scr_modules doc_source) extracted
            | None => ret extracted
            end)
         (finditer (fst pattern) content) extracted)
    concept_patterns [].

(** *** Ingestion *)

(** Step 1 of [add_document_source]: the size check of a local file. *)
Definition check_size (w : World) (file_path_or_url : string) : M unit :=
  if negb (is_url file_path_or_url) then
    if path_exists w file_path_or_url then
      if PrimFloat.ltb MAX_FILE_SIZE_MB (size_mb w file_path_or_url)
      then emit WarnLargeFile else ret tt
    else ret tt
  else ret tt.

(** [metadata.get('title') or self._extract_title(...)]. *)
Definition choose_title (w : World) (metadata : Overrides) (content_data : ContentData)
    (file_path_or_url : string) : M string :=
  match o_title metadata with
  | Some t =>
      if negb (String.eqb t EmptyString) then ret t
      else emit (CallSignal SigTitle) ;;;
           lift (_extract_title w content_data file_path_or_url)
  | None => emit (CallSignal SigTitle) ;;;
            lift (_extract_title w content_data file_path_or_url)
  end.

(** The body of the [try] of [add_document_source]. *)
Definition ingest (w : World) (file_path_or_url : string) (doc_type : DocumentType)
    (scr_modules : list SCRModule) (metadata : Overrides) : M bool :=
  check_size w file_path_or_url ;;;
  parser <- lift (create_parser file_path_or_url) ;;
  emit (CallExtractContent parser) ;;;
  content_data <- lift (extract_content parser w file_path_or_url) ;;
  if String.eqb (text_content content_data) EmptyString then ret false
  else
    let text := text_content content_data in
    let content_hash := Md5.hexdigest text in
    emit (CallSignal SigArticles) ;;;
    let regulatory_articles := extract_regulatory_articles text in
    source_name <- lift (_extract_source_name w file_path_or_url) ;;
    let doc_id := document_id doc_type source_name content_hash in
    title <- choose_title w metadata content_data file_path_or_url ;;
    emit (CallSignal SigLanguage) ;;;
    let detected := _detect_language text in
    emit (CallSignal SigReliability) ;;;
    let computed := _calculate_reliability_score content_data doc_type in
    doc_source <- lift (DocumentSource_new doc_id title doc_type
                          (if startswith file_path_or_url "http"
                           then Some file_path_or_url else o_url metadata)
                          (if negb (startswith file_path_or_url "http")
                           then Some file_path_or_url else None)
                          (o_publication_date metadata)
                          regulatory_articles scr_modules
                          (match o_language metadata with Some l => l | None => detected end)
                          (match o_reliability_score metadata with
                           | Some r => r | None => computed end)
                          (now w) content_hash
                          (_extract_additional_metadata (now w) content_data)) ;;
    success <- kb_add_document w doc_source ;;
    if success then
      count_processed ;;;
      _auto_extract_concepts w doc_source text ;;;
      ret true
    else ret false.

(** [add_document_source]: every exception becomes [False]. *)
Definition add_document_source (w : World) (file_path_or_url : string)
    (doc_type : DocumentType) (scr_modules : list SCRModule) (metadata : Overrides)
    (s : State) : bool * State :=
  match try_except (ingest w file_path_or_url doc_type scr_modules metadata)
                   (fun _ => ret false) s with
  | (Ok b, s') => (b, s')
  | (Raise _, s') => (false, s')
  end.

Definition initial_state : State :=
  {| knowledge_base := empty_kb; documents_processed := 0; trace := [] |}.

End Main.

(* ================================================================== *)
(** ** The specification's wording, where it is compared with the code *)
(* ================================================================== *)

Module Spec.
Import PyStr Re Config Models Env Parsers Database Main.
Local Open Scope string_scope.

(** Clamping to the nearest bound of [[lo, hi]]. *)
Definition clamp_to_range (lo hi x : Z) : Z := Z.max lo (Z.min hi x).

(** The number of occurrences of [sub] in [s] ([str.count]).  [skip]
    counts the characters of an occurrence still to be passed over. *)
Fixpoint count_from (sub : string) (skip : nat) (s : string) : nat :=
  match s with
  | EmptyString => 0
  | String _ t =>
      match skip with
      | S k => count_from sub k t
      | O =>
          if startswith s sub
          then S (count_from sub (String.length sub - 1) t)
          else count_from sub 0 t
      end
  end.

Definition occurrences (sub s : string) : nat := count_from sub 0 s.

(** The reliability score as the specification words it: the bonus is
    decided on the occurrences of the substring in the raw text. *)
Definition claimed_reliability_score (content_data : ContentData)
    (doc_type : DocumentType) : float :=
  let text := text_content content_data in
  let score := type_scores doc_type in
  let score :=
    if (10 <? occurrences "article" (lower text))%nat then (score + 0.1)%float else score in
  let score :=
    if (5000 <? word_count text)%nat then (score + 0.05)%float
    else if (word_count text <? 500)%nat then (score - 0.1)%float
    else score in
  py_min (py_max score 0.1%float) 1.0%float.

(** The identifiers the patterns match in a text, before the filter. *)
Definition matched_identifiers (content : string) : list string :=
  flat_map (fun pattern =>
              map (fun m => strip (Re.group 1 content m)) (Re.finditer pattern content))
           Parsers.article_patterns.

(** The matches that pass the quality filter of the concept miner, over
    all patterns, in the order the loops meet them. *)
Definition accepted_candidates (content : string) : list Candidate :=
  flat_map (fun pattern =>
              flat_map (fun m => match candidate_of content m with
                                 | Some c => [c]
                                 | None => []
                                 end)
                       (Re.finditer (fst pattern) content))
           concept_patterns.

(** The number of rows of [documents] with a given primary key. *)
Definition rows_with_id (doc_id : string) (rows : list Database.DocRow) : nat :=
  List.length (filter (fun r => String.eqb (Database.row_id r) doc_id) rows).

(** [a] may stand before [b] in a list sorted by [lt]. *)
Definition not_after {A : Type} (lt : A -> A -> bool) (a b : A) : Prop := lt b a = false.

(** Is the identifier kept by the filter of the inner loop? *)
Definition kept (a : string) : Prop := a <> EmptyString /\ String.length a <= 10.

(** The string does not begin, resp. end, with a blank. *)
Definition head_ok (s : string) : Prop :=
  match s with
  | String c _ => is_space c = false
  | EmptyString => True
  end.

Fixpoint last_ok (s : string) : Prop :=
  match s with
  | EmptyString => True
  | String c EmptyString => is_space c = false
  | String _ t => last_ok t
  end.

(** The modules of [mods] whose write the store carries out, when the
    generator has asked for [k] writes before the first of them. *)
Fixpoint accepted_writes (w : World) (k : nat) (mods : list SCRModule)
    : list SCRModule :=
  match mods with
  | [] => []
  | m :: t =>
      if write_succeeds w k then m :: accepted_writes w (S k) t
      else accepted_writes w (S k) t
  end.

(** What a stretch of the miner's loops does: it asks for one write per
    entry of [mods], appends to the list one record for each write that
    is carried out, each for the document [doc_id], adds as many rows
    to [scr_concepts], and touches nothing else. *)
Definition grows (w : World) (doc_id : string) (mods : list SCRModule)
    (acc acc' : list SCRConcept) (s s' : State) : Prop :=
  (exists recs, acc' = (acc ++ recs)%list
                /\ map scr_module recs = accepted_writes w (store_calls (trace s)) mods
                /\ Forall (fun c => source_document_id c = Some doc_id) recs
                /\ List.length (scr_concepts (knowledge_base s'))
                   = List.length (scr_concepts (knowledge_base s)) + List.length recs)
  /\ documents (knowledge_base s') = documents (knowledge_base s)
  /\ documents_processed s' = documents_processed s
  /\ store_calls (trace s') = store_calls (trace s) + List.length mods.

(** The candidates among the matches of one pattern. *)
Definition candidates_of (content : string) (ms : list rmatch) : list Candidate :=
  flat_map (fun m => match candidate_of content m with
                     | Some c => [c]
                     | None => []
                     end) ms.

(** The text the selected parser extracts from a locator, if it does. *)
Definition extracted_text (w : World) (file_path_or_url : string) : option string :=
  match create_parser file_path_or_url with
  | Ok p =>
      match extract_content p w file_path_or_url with
      | Ok cd => Some (text_content cd)
      | Raise _ => None
      end
  | Raise _ => None
  end.

(** The lookup of [get_document_by_id]. *)
Definition find_row (doc_id : string) (rows : list DocRow) : option DocRow :=
  find (fun r => String.eqb (row_id r) doc_id) rows.

(** [n] copies of [s]. *)
Fixpoint repeat_string (n : nat) (s : string) : string :=
  match n with
  | O => EmptyString
  | S k => s ++ repeat_string k s
  end.

End Spec.

(* ================================================================== *)
(** ** One ingestion, written out *)
(* ================================================================== *)

Module Outcome.
Import PyStr Re Config Models Env Parsers Database Main Spec.
Local Open Scope string_scope.

(** The state with further calls recorded. *)
Definition with_events (s : State) (evs : list event) : State :=
  {| knowledge_base := knowledge_base s;
     documents_processed := documents_processed s;
     trace := (trace s ++ evs)%list |}.

(** What step 1 records: the warning for a large local file. *)
Definition size_events (w : World) (file_path_or_url : string) : list event :=
  if negb (is_url file_path_or_url) then
    if path_exists w file_path_or_url then
      if PrimFloat.ltb MAX_FILE_SIZE_MB (size_mb w file_path_or_url)
      then [WarnLargeFile] else []
    else []
  else [].

(** Is the title taken from the keyword arguments? *)
Definition title_given (metadata : Overrides) : bool :=
  match o_title metadata with
  | Some t => negb (String.eqb t EmptyString)
  | None => false
  end.

(** The title that goes into the document. *)
Definition chosen_title (w : World) (metadata : Overrides) (content_data : ContentData)
    (file_path_or_url : string) : res string :=
  match o_title metadata with
  | Some t =>
      if negb (String.eqb t EmptyString) then Ok t
      else _extract_title w content_data file_path_or_url
  | None => _extract_title w content_data file_path_or_url
  end.

(** The call of the title extractor, when it is made. *)
Definition title_events (metadata : Overrides) : list event :=
  if title_given metadata then [] else [CallSignal SigTitle].

(** The signal extractors called on a non-empty text, in order. *)
Definition signal_events (metadata : Overrides) : list event :=
  (CallSignal SigArticles :: title_events metadata)
  ++ [CallSignal SigLanguage; CallSignal SigReliability].

(** The [DocumentSource(...)] of step 7, with the source name and the
    title of steps 5 and 6. *)
Definition built_document (w : World) (file_path_or_url : string) (doc_type : DocumentType)
    (scr_modules : list SCRModule) (metadata : Overrides) (content_data : ContentData)
    : res DocumentSource :=
  let text := text_content content_data in
  res_bind (_extract_source_name w file_path_or_url) (fun source_name =>
  res_bind (chosen_title w metadata content_data file_path_or_url) (fun title =>
  DocumentSource_new
    (document_id doc_type source_name (Md5.hexdigest text))
    title
    doc_type
    (if startswith file_path_or_url "http" then Some file_path_or_url else o_url metadata)
    (if negb (startswith file_path_or_url "http") then Some file_path_or_url else None)
    (o_publication_date metadata)
    (extract_regulatory_articles text)
    scr_modules
    (match o_language metadata with Some l => l | None => _detect_language text end)
    (match o_reliability_score metadata with
     | Some r => r
     | None => _calculate_reliability_score content_data doc_type
     end)
    (now w) (Md5.hexdigest text)
    (_extract_additional_metadata (now w) content_data))).

(** The signal extractors that were called when steps 5 to 7 end, with
    a document or with an exception. *)
Definition signals_called (w : World) (file_path_or_url : string) (metadata : Overrides)
    (content_data : ContentData) : list event :=
  match _extract_source_name w file_path_or_url with
  | Raise _ => [CallSignal SigArticles]
  | Ok _ =>
      match chosen_title w metadata content_data file_path_or_url with
      | Raise _ => CallSignal SigArticles :: title_events metadata
      | Ok _ => signal_events metadata
      end
  end.

(** The state in which the concept miner starts: the document written,
    the counter advanced. *)
Definition written (s : State) (evs : list event) (d : DocumentSource) : State :=
  {| knowledge_base := snd (add_document true (knowledge_base s) d);
     documents_processed := S (documents_processed s);
     trace := (trace s ++ evs ++ [CallAddDocument (id d)])%list |}.

(** Is the call one to a signal extractor? *)
Definition is_signal_call (e : event) : bool :=
  match e with
  | CallSignal _ => true
  | _ => false
  end.

(** Does the store carry out every write the generator asks for? *)
Definition store_sound (w : World) : Prop := forall n, write_succeeds w n = true.

End Outcome.

(* ================================================================== *)
(** ** Sample inputs *)
(* ================================================================== *)

Module Samples.
Import PyStr Re Config Models Env Parsers Database Main Spec.
Local Open Scope string_scope.

Definition content_of (text : string) : ContentData :=
  {| text_content := text; meta_title := None; statistics := []; file_info := None |}.

(** One word that holds the substring eleven times. *)
Definition eleven_articles : string := repeat_string 11 "article".

(** Three hundred words, none of them holding the substring. *)
Definition three_hundred_words : string := repeat_string 300 "mot ".

(** A text with the three mentions of the specification. *)
Definition three_mentions : string :=
  "Voir Article 180 et Article 181, ainsi que Art. 45 du texte.".

(** A concept with no example yet. *)
Definition sample_concept : SCRConcept :=
  {| concept_name := "Facteur de stress"; scr_module := SPREAD;
     definition := "Facteur selon la notation"; concept_id := None;
     formula := None; regulatory_article := None; source_document_id := None;
     examples := []; tags := []; created_at := 0%Z; updated_at := 0%Z;
     confidence_score := 0.8%float |}.

(** A document tagged with the non-life module only, and the knowledge
    base that holds it and nothing else. *)
Definition non_life_document : DocumentSource :=
  {| id := "regulation_eu_non_vie_0a1b2c3d"; title := "SCR non-vie";
     doc_type := REGULATION_EU; url := None; file_path := Some "non_vie.pdf";
     publication_date := None; regulatory_articles := ["105"];
     scr_modules := [NON_LIFE]; language := "fr"; reliability_score := 1.0%float;
     last_updated := 0%Z; content_hash := "0a1b2c3d"; metadata := [] |}.

Definition non_life_kb : SCRKnowledgeBase :=
  snd (add_document true empty_kb non_life_document).

(** A formula, one match of the first pattern and of no other. *)
Definition one_formula : string := "SCR_spread = somme des chocs de spread sur obligations".

Definition spread_equity_document : DocumentSource :=
  {| id := "internal_doc_note_5f2a9c1e"; title := "Note interne";
     doc_type := INTERNAL_DOC; url := None; file_path := Some "note.pdf";
     publication_date := None; regulatory_articles := [];
     scr_modules := [SPREAD; EQUITY]; language := "fr"; reliability_score := 0.5%float;
     last_updated := 0%Z; content_hash := "5f2a9c1e"; metadata := [] |}.

(** What both report files hold. *)
Definition report_content : ContentData :=
  {| text_content := "Article 180 du reglement: calcul du SCR de spread";
     meta_title := None; statistics := []; file_info := None |}.

(** Three PDF files with the same content in two directories, read at
    the instant [t]; nothing else exists. *)
Definition report_files (t : datetime) : World :=
  {| path_exists := fun p => String.eqb p "a/report.pdf" || String.eqb p "b/report.pdf"
                            || String.eqb p "b/summary.pdf";
     size_mb := fun _ => 1%float;
     read_pdf := fun _ => Ok report_content;
     read_html_file := fun _ => Raise (OtherError "unreadable");
     fetch_url := fun _ => Raise (OtherError "unreachable");
     now := t;
     bracketed_host_ok := fun _ => true;
     write_succeeds := fun _ => true |}.

(** The same files with a store that refuses the second write asked of
    it and carries out every other. *)
Definition second_write_refused (t : datetime) : World :=
  {| path_exists := path_exists (report_files t);
     size_mb := size_mb (report_files t);
     read_pdf := read_pdf (report_files t);
     read_html_file := read_html_file (report_files t);
     fetch_url := fetch_url (report_files t);
     now := t;
     bracketed_host_ok := fun _ => true;
     write_succeeds := fun n => negb (n =? 1)%nat |}.

Definition after_first : State :=
  snd (add_document_source (report_files 10%Z) "a/report.pdf" INTERNAL_DOC [SPREAD]
         no_overrides initial_state).

Definition after_second : State :=
  snd (add_document_source (report_files 20%Z) "a/report.pdf" INTERNAL_DOC [SPREAD]
         no_overrides after_first).



End Samples.

Module MoreSamples.
Import PyStr Re Config Models Env Parsers Database Main Spec Samples.
Local Open Scope string_scope.

(** Keyword arguments with a reliability outside [[0, 1]]. *)
Definition too_reliable : Overrides :=
  {| o_title := None; o_url := None; o_publication_date := None;
     o_language := None; o_reliability_score := Some 1.5%float |}.

(** Keyword arguments with a title, a language the model does not
    support and a reliability. *)
Definition curated : Overrides :=
  {| o_title := Some "Reglement delegue 2015/35"; o_url := None;
     o_publication_date := Some 735000%Z;
     o_language := Some "pt"; o_reliability_score := Some 0.25%float |}.

(** A page that yields no text. *)
Definition blank_page : World :=
  {| path_exists := fun _ => false;
     size_mb := fun _ => 0%float;
     read_pdf := fun _ => Raise (OtherError "unreadable");
     read_html_file := fun _ => Raise (OtherError "unreadable");
     fetch_url := fun _ =>
       Ok {| text_content := EmptyString; meta_title := Some "Vide";
             statistics := []; file_info := None |};
     now := 40%Z;
     bracketed_host_ok := fun _ => true;
     write_succeeds := fun _ => true |}.

(** A note with two formulas, read from a URL. *)
Definition two_formulas : string :=
  "SCR_spread = somme des chocs de spread sur obligations. "
  ++ "Facteur de stress: 25 pour cent des actifs.".

Definition note_site (t : datetime) : World :=
  {| path_exists := fun _ => false;
     size_mb := fun _ => 0%float;
     read_pdf := fun _ => Raise (OtherError "unreadable");
     read_html_file := fun _ => Raise (OtherError "unreadable");
     fetch_url := fun _ =>
       Ok {| text_content := two_formulas; meta_title := None;
             statistics := []; file_info := None |};
     now := t;
     bracketed_host_ok := fun _ => true;
     write_succeeds := fun _ => true |}.

(** The report files of the samples with a store that refuses every
    write. *)
Definition refusing_store (t : datetime) : World :=
  {| path_exists := path_exists (report_files t);
     size_mb := size_mb (report_files t);
     read_pdf := read_pdf (report_files t);
     read_html_file := read_html_file (report_files t);
     fetch_url := fetch_url (report_files t);
     now := t;
     bracketed_host_ok := fun _ => true;
     write_succeeds := fun _ => false |}.

End MoreSamples.

(* ================================================================== *)
(** ** [src/knowledge/models.py]: the other methods of the entities *)
(* ================================================================== *)

Module ModelOps.
Import PyStr Config Models.
Local Open Scope string_scope.

Definition set_regulatory_articles (d : DocumentSource) (l : list string) : DocumentSource :=
  {| id := id d; title := title d; doc_type := doc_type d; url := url d;
     file_path := file_path d; publication_date := publication_date d;
     regulatory_articles := l; scr_modules := scr_modules d;
     language := language d; reliability_score := reliability_score d;
     last_updated := last_updated d; content_hash := content_hash d;
     metadata := metadata d |}.

Definition set_scr_modules (d : DocumentSource) (l : list SCRModule) : DocumentSource :=
  {| id := id d; title := title d; doc_type := doc_type d; url := url d;
     file_path := file_path d; publication_date := publication_date d;
     regulatory_articles := regulatory_articles d; scr_modules := l;
     language := language d; reliability_score := reliability_score d;
     last_updated := last_updated d; content_hash := content_hash d;
     metadata := metadata d |}.

Definition set_metadata (d : DocumentSource) (m : dict) : DocumentSource :=
  {| id := id d; title := title d; doc_type := doc_type d; url := url d;
     file_path := file_path d; publication_date := publication_date d;
     regulatory_articles := regulatory_articles d; scr_modules := scr_modules d;
     language := language d; reliability_score := reliability_score d;
     last_updated := last_updated d; content_hash := content_hash d;
     metadata := m |}.

(** [DocumentSource.add_regulatory_article]. *)
Definition add_regulatory_article (d : DocumentSource) (article : string)
    : DocumentSource :=
  if negb (mem_str article (regulatory_articles d))
  then set_regulatory_articles d (regulatory_articles d ++ [article])%list
  else d.

(** [DocumentSource.add_scr_module]. *)
Definition add_scr_module (d : DocumentSource) (module : SCRModule) : DocumentSource :=
  if negb (existsb (SCRModule_eqb module) (scr_modules d))
  then set_scr_modules d (scr_modules d ++ [module])%list
  else d.

Definition set_tags (c : SCRConcept) (l : list string) : SCRConcept :=
  {| concept_name := concept_name c; scr_module := scr_module c;
     definition := definition c; concept_id := concept_id c;
     formula := formula c; regulatory_article := regulatory_article c;
     source_document_id := source_document_id c;
     examples := examples c; tags := l;
     created_at := created_at c; updated_at := updated_at c;
     confidence_score := confidence_score c |}.

(** [SCRConcept.add_tag]: the membership test is on [tag] as given, the
    value appended is [tag.strip().lower()]. *)
Definition add_tag (c : SCRConcept) (tag : string) : SCRConcept :=
  if negb (String.eqb (strip tag) EmptyString) && negb (mem_str tag (tags c))
  then set_tags c (tags c ++ [lower (strip tag)])%list
  else c.

End ModelOps.

(* ================================================================== *)
(** ** [src/knowledge/database.py]: concepts and statistics *)
(* ================================================================== *)

Module DatabaseOps.
Import PyStr Config Models Parsers Database.
Local Open Scope string_scope.

(** [_row_to_scr_concept]; [now] is the clock at the call, which the
    constructor reads for [updated_at]. *)
Definition _row_to_scr_concept (now : datetime) (r : ConceptRow) : res SCRConcept :=
  SCRConcept_new (crow_concept_name r) (crow_scr_module r) (crow_definition r)
    (Some (crow_id r)) (crow_formula r) (crow_regulatory_article r)
    (crow_source_document_id r)
    (match crow_examples r with Some l => l | None => [] end)
    [] (crow_created_at r) now 0.8%float.

(** The rows selected by [WHERE scr_module = ?]. *)
Definition rows_of_module (kb : SCRKnowledgeBase) (scr_module : SCRModule)
    : list ConceptRow :=
  filter (fun r => SCRModule_eqb (crow_scr_module r) scr_module) (scr_concepts kb).

(** [ORDER BY concept_name]: the binary collation compares the UTF-8
    bytes, which is the order of the code points. *)
Definition name_before (a b : ConceptRow) : bool :=
  str_ltb (crow_concept_name a) (crow_concept_name b).

(** [get_concepts_by_module]. *)
Definition get_concepts_by_module (now : datetime) (kb : SCRKnowledgeBase)
    (scr_module : SCRModule) : res (list SCRConcept) :=
  res_map (_row_to_scr_concept now) (sorted_by name_before (rows_of_module kb scr_module)).

(** [module_counts[module] = module_counts.get(module, 0) + 1]. *)
Fixpoint count_up (k : string) (d : list (string * nat)) : list (string * nat) :=
  match d with
  | [] => [(k, 1)]
  | (k', n) :: t =>
      if String.eqb k k' then (k, S n) :: t else (k', n) :: count_up k t
  end.

(** [d.get(k)]. *)
Fixpoint dict_get (k : string) (d : list (string * nat)) : option nat :=
  match d with
  | [] => None
  | (k', n) :: t => if String.eqb k k' then Some n else dict_get k t
  end.

(** The part of [get_statistics] that is computed from the tables.  The
    two [GROUP BY] results become dictionaries, of which only the
    lookups are meaningful. *)
Record Statistics : Type := {
  stat_total_documents : nat;
  documents_by_type : list (string * nat);
  documents_by_module : list (string * nat);
  concepts_by_module : list (string * nat)
}.

(** [get_statistics]. *)
Definition get_statistics (kb : SCRKnowledgeBase) : Statistics :=
  {| stat_total_documents := List.length (documents kb);
     documents_by_type :=
       fold_left (fun d r => count_up (DocumentType_value (row_doc_type r)) d)
                 (documents kb) [];
     documents_by_module :=
       fold_left (fun d r =>
                    fold_left (fun d m => count_up (SCRModule_value m) d)
                              (row_scr_modules r) d)
                 (documents kb) [];
     concepts_by_module :=
       fold_left (fun d r => count_up (SCRModule_value (crow_scr_module r)) d)
                 (scr_concepts kb) [] |}.

End DatabaseOps.

(* ================================================================== *)
(** ** Predicates used in the statements about the store *)
(* ================================================================== *)

Module StoreSpec.
Import PyStr Config Models Parsers Database DatabaseOps.
Local Open Scope string_scope.

(** The document as the store gives it back: [metadata] is not a
    column, and a score that is a zero comes back as +0.0. *)
Definition as_stored (d : DocumentSource) : DocumentSource :=
  {| id := id d; title := title d; doc_type := doc_type d; url := url d;
     file_path := file_path d; publication_date := publication_date d;
     regulatory_articles := regulatory_articles d; scr_modules := scr_modules d;
     language := language d;
     reliability_score :=
       if PrimFloat.is_zero (reliability_score d) then 0%float else reliability_score d;
     last_updated := last_updated d; content_hash := content_hash d;
     metadata := [] |}.

(** The two exceptions a row can raise when it is made a document:
    the [ValueError] of the constructor for a number outside [[0, 1]],
    and the [TypeError] of its comparison for a NULL score. *)
Definition read_error (e : exc) : Prop :=
  e = ValueError msg_reliability \/ e = OtherError msg_none_score.

(** The pattern has no wildcard [%]. *)
Definition no_percent (p : string) : bool :=
  forallb (fun c => negb (Ascii.eqb c "%")) (list_ascii_of_string p).

(** The order of [get_documents_by_module] on documents. *)
Definition ranks_before (a b : DocumentSource) : bool :=
  PrimFloat.ltb (reliability_score b) (reliability_score a)
  || (PrimFloat.eqb (reliability_score a) (reliability_score b)
      && date_gtb (publication_date a) (publication_date b)).

(** Every concept id is one the sequence has given out, and no two rows
    share one. *)
Definition concept_ids_ok (kb : SCRKnowledgeBase) : Prop :=
  Forall (fun r => (0 < crow_id r <= Z.of_nat (concept_seq kb))%Z) (scr_concepts kb)
  /\ NoDup (map crow_id (scr_concepts kb)).

(** No two rows of [documents] share a primary key. *)
Definition document_ids_ok (kb : SCRKnowledgeBase) : Prop :=
  NoDup (map row_id (documents kb)).

(** The number of times a module is written in a list of tags. *)
Definition tag_count (m : SCRModule) (tags : list SCRModule) : nat :=
  List.length (filter (SCRModule_eqb m) tags).

(** The count a dictionary holds for a key, 0 when the key is absent. *)
Definition held (k : string) (d : list (string * nat)) : nat :=
  match dict_get k d with Some n => n | None => 0 end.

(** The concept as [get_concepts_by_module] gives it back at the instant
    [now] after it was stored under [cid]. *)
Definition as_read_back (now : datetime) (cid : Z) (c : SCRConcept) : SCRConcept :=
  {| concept_name := concept_name c; scr_module := scr_module c;
     definition := definition c; concept_id := Some cid;
     formula := formula c; regulatory_article := regulatory_article c;
     source_document_id := source_document_id c;
     examples := examples c; tags := [];
     created_at := created_at c; updated_at := now;
     confidence_score := 0.8%float |}.

End StoreSpec.

Module StoreSamples.
Import PyStr Re Config Models Env Parsers Database Main Spec Samples ModelOps DatabaseOps.
Local Open Scope string_scope.

(** A document with two articles and two modules. *)
Definition delegated_regulation : DocumentSource :=
  {| id := "regulation_eu_reglement_2015_35_9f8e7d6c"; title := "Reglement delegue 2015/35";
     doc_type := REGULATION_EU; url := None; file_path := Some "reglement_2015_35.pdf";
     publication_date := Some 735612%Z; regulatory_articles := ["180"; "181"];
     scr_modules := [SPREAD; CONCENTRATION]; language := "fr";
     reliability_score := 1.0%float; last_updated := 3%Z;
     content_hash := "9f8e7d6c"; metadata := [("word_count", MInt 1200)] |}.

(** The same document after its score was set to 2. *)
Definition overrated_regulation : DocumentSource :=
  {| id := "regulation_eu_reglement_2015_35_9f8e7d6c"; title := "Reglement delegue 2015/35";
     doc_type := REGULATION_EU; url := None; file_path := Some "reglement_2015_35.pdf";
     publication_date := Some 735612%Z; regulatory_articles := ["180"; "181"];
     scr_modules := [SPREAD; CONCENTRATION]; language := "fr";
     reliability_score := 2.0%float; last_updated := 3%Z;
     content_hash := "9f8e7d6c"; metadata := [] |}.

(** A concept with an example, a tag and a confidence of its own. *)
Definition stress_factor : SCRConcept :=
  {| concept_name := "Facteur de stress spread"; scr_module := SPREAD;
     definition := "Facteur selon la notation et la duration"; concept_id := None;
     formula := Some "Stress = Duration x Facteur"; regulatory_article := Some "180";
     source_document_id := Some "regulation_eu_reglement_2015_35_9f8e7d6c";
     examples := ["BBB 5 ans"]; tags := ["spread"]; created_at := 4%Z; updated_at := 4%Z;
     confidence_score := 0.5%float |}.

(** A knowledge base with the regulation, the non-life document and two
    concepts, every write carried out. *)
Definition small_kb : SCRKnowledgeBase :=
  snd (add_scr_concept true
         (snd (add_scr_concept true
                 (snd (add_document true (snd (add_document true empty_kb non_life_document))
                         delegated_regulation))
                 stress_factor))
         sample_concept).

(** A guideline on spread risk with a given id, title, score and date. *)
Definition guideline (i t : string) (score : float) (published : option date)
    : DocumentSource :=
  {| id := i; title := t; doc_type := EIOPA_GUIDELINES; url := None;
     file_path := Some (i ++ ".pdf"); publication_date := published;
     regulatory_articles := ["180"]; scr_modules := [SPREAD]; language := "fr";
     reliability_score := score; last_updated := 5%Z;
     content_hash := "00000000"; metadata := [] |}.

Definition working_note : DocumentSource :=
  guideline "note" "Note de travail" 0.5%float (Some 738000%Z).
Definition orientations_c : DocumentSource :=
  guideline "orientations_c" "Orientations C" 0.9%float None.
Definition orientations_b : DocumentSource :=
  guideline "orientations_b" "Orientations B" 0.9%float (Some 737000%Z).
Definition orientations_a : DocumentSource :=
  guideline "orientations_a" "Orientations A" 0.9%float (Some 736000%Z).

(** Five documents on spread risk, written in this order: the note, the
    three guidelines C, B and A, which share a score, and the
    regulation. *)
Definition spread_library : SCRKnowledgeBase :=
  fold_left (fun kb d => snd (add_document true kb d))
            [working_note; orientations_c; orientations_b; orientations_a;
             delegated_regulation]
            empty_kb.

(** A document whose score is the negative zero, and one whose score is
    not a number. *)
Definition negative_zero : DocumentSource :=
  guideline "zero" "Sans valeur" (-0)%float None.
Definition not_a_number : DocumentSource :=
  guideline "nan" "Sans note" PrimFloat.nan None.

End StoreSamples.

(* ================================================================== *)
(** ** [PromptConfig.get_complexity_score] *)
(* ================================================================== *)

Module Complexity.
Import PyStr Config Models Main.
Local Open Scope string_scope.
Local Open Scope float_scope.

(** An [int] as the exact number it is. *)
Definition Z2SF (n : Z) : spec_float :=
  match n with
  | Z0 => S754_zero false
  | Zpos p => S754_finite false p 0
  | Zneg p => S754_finite true p 0
  end.

(** [a / b] on two [int]s: the quotient rounded once to the nearest
    double; a zero divisor and a quotient beyond the doubles raise. *)
Definition int_truediv (a b : Z) : res float :=
  if (b =? 0)%Z then Raise (OtherError "ZeroDivisionError: division by zero")
  else
    let q := SF2Prim (SFdiv prec emax (Z2SF a) (Z2SF b)) in
    if PrimFloat.is_infinity q
    then Raise (OtherError "OverflowError: integer division result too large for a float")
    else Ok q.

(** [expertise_scores.get(self.expertise_level, 0.5)]. *)
Definition expertise_scores (e : ExpertiseLevel) : float :=
  match e with
  | JUNIOR => 0.2
  | CONFIRMED => 0.5
  | EXPERT => 0.8
  | REGULATION_SPECIALIST => 1.0
  end.

(** [context_scores.get(self.context_level, 0.5)]. *)
Definition context_scores (c : string) : float :=
  if String.eqb c "low" then 0.2
  else if String.eqb c "medium" then 0.5
  else if String.eqb c "high" then 0.8
  else 0.5.

(** [PromptConfig.get_complexity_score]. *)
Definition get_complexity_score (c : PromptConfig) : res float :=
  let score := 0.0 in
  let score := score + expertise_scores (expertise_level c) * 0.4 in
  res_bind (int_truediv (technical_depth c) 5) (fun depth =>
  let score := score + depth * 0.3 in
  let score := score + context_scores (context_level c) * 0.2 in
  let score := if include_formulas c then score + 0.05 else score in
  let score := if include_examples c then score + 0.03 else score in
  let score := match custom_requirements c with [] => score | _ => score + 0.02 end in
  Ok (py_min score 1.0)).

End Complexity.

(* ================================================================== *)
(** ** [src/config/settings.py]: the enumerations called on a value *)
(* ================================================================== *)

Module Enums.
Import PyStr Config.
Local Open Scope string_scope.

Definition AIProvider_value (p : AIProvider) : string :=
  match p with
  | CLAUDE_SONNET_4 => "claude-sonnet-4"
  | CLAUDE_OPUS_4 => "claude-opus-4"
  | GPT_4 => "gpt-4"
  | GPT_4_TURBO => "gpt-4-turbo"
  | GEMINI_PRO => "gemini-pro"
  end.

Definition ExpertiseLevel_value (e : ExpertiseLevel) : string :=
  match e with
  | JUNIOR => "junior"
  | CONFIRMED => "confirmed"
  | EXPERT => "expert"
  | REGULATION_SPECIALIST => "regulation_specialist"
  end.

Definition all_providers : list AIProvider :=
  [CLAUDE_SONNET_4; CLAUDE_OPUS_4; GPT_4; GPT_4_TURBO; GEMINI_PRO].

Definition all_levels : list ExpertiseLevel :=
  [JUNIOR; CONFIRMED; EXPERT; REGULATION_SPECIALIST].

Definition all_document_types : list DocumentType :=
  [REGULATION_EU; DIRECTIVE; EIOPA_GUIDELINES; TECHNICAL_STANDARDS;
   INDUSTRY_PAPER; INTERNAL_DOC; ACADEMIC_PAPER].

(** A string as the sequence of its code points; the upper case of a
    Latin-1 string need not be a Latin-1 string. *)
Definition codes (s : string) : list nat := map code (list_ascii_of_string s).

(** [c.upper()] for one character. *)
Definition upper_char (c : ascii) : list nat :=
  let n := code c in
  if in_range 97 122 c then [n - 32]
  else if (n =? 181)%nat then [924]
  else if (n =? 223)%nat then [83; 83]
  else if in_range 224 254 c && negb (n =? 247)%nat then [n - 32]
  else if (n =? 255)%nat then [376]
  else [n].

(** [s.upper()]. *)
Definition upper (s : string) : list nat := flat_map upper_char (list_ascii_of_string s).

Fixpoint codes_eqb (a b : list nat) : bool :=
  match a, b with
  | [], [] => true
  | x :: a', y :: b' => (x =? y)%nat && codes_eqb a' b'
  | _, _ => false
  end.

Definition msg_not_valid (enum : string) : string := "not a valid " ++ enum.

(** [Enum(value)]: the member with that value, [ValueError] when there
    is none. *)
Definition by_value {E : Type} (name : string) (members : list E) (value_of : E -> list nat)
    (v : list nat) : res E :=
  match find (fun m => codes_eqb (value_of m) v) members with
  | Some m => Ok m
  | None => Raise (ValueError (msg_not_valid name))
  end.

Definition AIProvider_of (v : list nat) : res AIProvider :=
  by_value "AIProvider" all_providers (fun p => codes (AIProvider_value p)) v.

Definition ExpertiseLevel_of (v : list nat) : res ExpertiseLevel :=
  by_value "ExpertiseLevel" all_levels (fun e => codes (ExpertiseLevel_value e)) v.

Definition SCRModule_of (v : list nat) : res SCRModule :=
  by_value "SCRModule" all_modules (fun m => codes (SCRModule_value m)) v.

Definition DocumentType_of (v : list nat) : res DocumentType :=
  by_value "DocumentType" all_document_types (fun t => codes (DocumentType_value t)) v.

End Enums.

(* ================================================================== *)
(** ** [src/main.py]: processing in batches and the module functions *)
(* ================================================================== *)

Module Batch.
Import PyStr Config Models Env Parsers Database Main Enums.
Local Open Scope string_scope.

(** The dictionary given as [metadata]: the keys [add_document_source]
    reads, and whether a key is the name of one of its parameters. *)
Record Kwargs : Type := {
  kw_overrides : Overrides;
  kw_names_parameter : bool
}.

(** One dictionary of [documents_config]; a key may be missing. *)
Record DocConfig : Type := {
  cfg_file_path : option string;
  cfg_doc_type : option string;
  cfg_scr_modules : option (list string);
  cfg_metadata : option Kwargs
}.

Definition KeyError (k : string) : exc := OtherError ("KeyError: " ++ k).

(** The arguments of the call of [add_document_source], evaluated from
    left to right inside the [try]. *)
Definition decode_entry (c : DocConfig) : res (DocumentType * list SCRModule * Overrides) :=
  res_bind (match cfg_doc_type c with
            | Some v => DocumentType_of (codes v)
            | None => Raise (KeyError "doc_type")
            end) (fun doc_type =>
  res_bind (match cfg_scr_modules c with
            | Some l => res_map (fun m => SCRModule_of (codes m)) l
            | None => Raise (KeyError "scr_modules")
            end) (fun scr_modules =>
  match cfg_metadata c with
  | None => Ok (doc_type, scr_modules, no_overrides)
  | Some k =>
      if kw_names_parameter k
      then Raise (OtherError "TypeError: got multiple values for keyword argument")
      else Ok (doc_type, scr_modules, kw_overrides k)
  end)).

(** [results[file_path] = success]. *)
Fixpoint results_set (d : list (string * bool)) (k : string) (v : bool)
    : list (string * bool) :=
  match d with
  | [] => [(k, v)]
  | (k', v') :: t =>
      if String.eqb k k' then (k', v) :: t else (k', v') :: results_set t k v
  end.

(** The body of the loop of [batch_process_documents]; [w] is the
    environment at the time the entry is processed. *)
Definition process_entry (results : list (string * bool)) (wc : World * DocConfig)
    : M (list (string * bool)) :=
  match cfg_file_path (snd wc) with
  | None => lift (Raise (KeyError "file_path"))
  | Some file_path =>
      match decode_entry (snd wc) with
      | Ok (doc_type, scr_modules, metadata) =>
          fun s =>
            let '(success, s') :=
              add_document_source (fst wc) file_path doc_type scr_modules metadata s in
            (Ok (results_set results file_path success), s')
      | Raise _ => ret (results_set results file_path false)
      end
  end.

(** [batch_process_documents]. *)
Definition batch_process_documents (documents_config : list (World * DocConfig))
    : M (list (string * bool)) :=
  foldM process_entry documents_config [].

Section Quick.

(** The generator the function creates, or the exception of its
    creation, and what [generate_optimized_prompt] gives as ['prompt']
    for a configuration. *)
Variable create_default_generator : res unit.
Variable generate_optimized_prompt : PromptConfig -> string.

(** [quick_generate_prompt]. *)
Definition quick_generate_prompt (scr_module ai_provider expertise_level : string)
    : res string :=
  res_bind create_default_generator (fun _ =>
  res_bind (AIProvider_of (upper (replace ai_provider "-" "_"))) (fun p =>
  res_bind (ExpertiseLevel_of (upper expertise_level)) (fun e =>
  res_bind (SCRModule_of (upper scr_module)) (fun m =>
  Ok (generate_optimized_prompt
        (PromptConfig_new p e m "fr" "technical_sheet" true true true 3000 [] "high" 3)))))).

End Quick.

End Batch.

Module BatchSpec.
Import PyStr Config Models Env Parsers Database Main Enums Batch.

(** The entry has a ['file_path']. *)
Definition has_path (wc : World * DocConfig) : Prop := cfg_file_path (snd wc) <> None.

(** The paths of the entries that have one. *)
Definition paths (l : list (World * DocConfig)) : list string :=
  flat_map (fun wc => match cfg_file_path (snd wc) with Some p => [p] | None => [] end) l.

End BatchSpec.

Module BatchSamples.
Import PyStr Config Models Env Parsers Database Main Enums Batch Samples.
Local Open Scope string_scope.

(** A well-formed entry for the report of the samples. *)
Definition report_entry : DocConfig :=
  {| cfg_file_path := Some "a/report.pdf"; cfg_doc_type := Some "internal_doc";
     cfg_scr_modules := Some ["spread"]; cfg_metadata := None |}.

(** The same entry with the type given by the name of the member. *)
Definition misnamed_entry : DocConfig :=
  {| cfg_file_path := Some "a/report.pdf"; cfg_doc_type := Some "INTERNAL_DOC";
     cfg_scr_modules := Some ["spread"]; cfg_metadata := None |}.

(** An entry without a path. *)
Definition pathless_entry : DocConfig :=
  {| cfg_file_path := None; cfg_doc_type := Some "internal_doc";
     cfg_scr_modules := Some ["spread"]; cfg_metadata := None |}.

End BatchSamples.

(* ================================================================== *)
(** ** [src/main.py]: [search_documents] *)
(* ================================================================== *)

Module Search.
Import PyStr Config Models Env Parsers Database Main.
Local Open Scope string_scope.

Definition DocumentType_eqb (a b : DocumentType) : bool :=
  String.eqb (DocumentType_value a) (DocumentType_value b).

Definition option_eqb {A : Type} (eqb : A -> A -> bool) (a b : option A) : bool :=
  match a, b with
  | Some x, Some y => eqb x y
  | None, None => true
  | _, _ => false
  end.

Fixpoint list_eqb {A : Type} (eqb : A -> A -> bool) (a b : list A) : bool :=
  match a, b with
  | [], [] => true
  | x :: a', y :: b' => eqb x y && list_eqb eqb a' b'
  | _, _ => false
  end.

Definition meta_val_eqb (a b : meta_val) : bool :=
  match a, b with
  | MInt x, MInt y => (x =? y)%Z
  | MStr x, MStr y => String.eqb x y
  | MTime x, MTime y => (x =? y)%Z
  | MFileInfo n s e, MFileInfo n' s' e' =>
      String.eqb n n' && PrimFloat.eqb s s' && String.eqb e e'
  | _, _ => false
  end.

Fixpoint dict_lookup (k : string) (d : dict) : option meta_val :=
  match d with
  | [] => None
  | (k', v) :: t => if String.eqb k k' then Some v else dict_lookup k t
  end.

(** [a == b] on two dictionaries: as many keys, and every key of the one
    bound to an equal value in the other. *)
Definition dict_eqb (a b : dict) : bool :=
  (List.length a =? List.length b)%nat
  && forallb (fun kv => match dict_lookup (fst kv) b with
                        | Some v => meta_val_eqb (snd kv) v
                        | None => false
                        end) a.

(** The [__eq__] the dataclass generates: the tuples of the fields are
    compared. *)
Definition doc_eqb (a b : DocumentSource) : bool :=
  String.eqb (id a) (id b)
  && String.eqb (title a) (title b)
  && DocumentType_eqb (doc_type a) (doc_type b)
  && option_eqb String.eqb (url a) (url b)
  && option_eqb String.eqb (file_path a) (file_path b)
  && option_eqb Z.eqb (publication_date a) (publication_date b)
  && list_eqb String.eqb (regulatory_articles a) (regulatory_articles b)
  && list_eqb SCRModule_eqb (scr_modules a) (scr_modules b)
  && String.eqb (language a) (language b)
  && PrimFloat.eqb (reliability_score a) (reliability_score b)
  && (last_updated a =? last_updated b)%Z
  && String.eqb (content_hash a) (content_hash b)
  && dict_eqb (metadata a) (metadata b).

(** [sep.join(l)]. *)
Fixpoint join (sep : string) (l : list string) : string :=
  match l with
  | [] => EmptyString
  | [x] => x
  | x :: t => x ++ sep ++ join sep t
  end.

(** The first loop: the documents of each module in turn, a document
    being added unless an equal one was collected for an earlier
    module. *)
Fixpoint collect_documents (kb : SCRKnowledgeBase) (modules : list SCRModule)
    (all_docs : list DocumentSource) : res (list DocumentSource) :=
  match modules with
  | [] => Ok all_docs
  | m :: rest =>
      res_bind (get_documents_by_module kb m None) (fun docs =>
      collect_documents kb rest
        (all_docs ++ filter (fun doc => negb (existsb (fun d => doc_eqb d doc) all_docs)) docs))
  end.

(** The three tests of the second loop. *)
Definition accepts (query : option string) (doc_types : option (list DocumentType))
    (min_reliability : float) (doc : DocumentSource) : bool :=
  match doc_types with
  | Some (t :: ts) => existsb (DocumentType_eqb (doc_type doc)) (t :: ts)
  | _ => true
  end
  && negb (PrimFloat.ltb (reliability_score doc) min_reliability)
  && match query with
     | Some (String c q) =>
         contains (lower (title doc ++ " " ++ join " " (regulatory_articles doc)))
                  (lower (String c q))
     | _ => true
     end.

(** The order of the keys [(-doc.reliability_score, doc.title)]. *)
Definition search_before (a b : DocumentSource) : bool :=
  let ka := PrimFloat.opp (reliability_score a) in
  let kb := PrimFloat.opp (reliability_score b) in
  if PrimFloat.eqb ka kb then str_ltb (title a) (title b) else PrimFloat.ltb ka kb.

(** [search_documents]. *)
Definition search_documents (kb : SCRKnowledgeBase) (query : option string)
    (scr_modules : option (list SCRModule)) (doc_types : option (list DocumentType))
    (min_reliability : float) : res (list DocumentSource) :=
  res_bind (collect_documents kb
              (match scr_modules with
               | Some (m :: ms) => m :: ms
               | _ => all_modules
               end) [])
           (fun all_docs =>
              Ok (sorted_by search_before (filter (accepts query doc_types min_reliability)
                                                  all_docs))).

End Search.

Module SearchSpec.
Import PyStr Config Models Env Parsers Database Main Search.

(** [a] may come before [b] in the result of a search: its score is not
    lower, and at equal scores its title does not come after. *)
Definition ranked (a b : DocumentSource) : Prop :=
  PrimFloat.ltb (reliability_score a) (reliability_score b) = false
  /\ (PrimFloat.eqb (reliability_score a) (reliability_score b) = true ->
      str_ltb (title b) (title a) = false).

(** The document is one of the store, as the store reads it. *)
Definition stored_in (kb : SCRKnowledgeBase) (d : DocumentSource) : Prop :=
  exists r, In r (documents kb) /\ _row_to_document_source r = Ok d.

End SearchSpec.

(* ================================================================== *)
(** ** [src/knowledge/models.py]: the utility functions *)
(* ================================================================== *)

Module Utilities.
Import PyStr Re Config Models.
Local Open Scope string_scope.

(** The argument of [validate_regulatory_article] is any [str]: it is
    taken here as the list of its code points, which need not be below
    256. *)
Definition codepoints : Type := list nat.

(** The elements of the three patterns. *)
Inductive element : Type :=
| OneOrMore (p : nat -> bool)
| AtMostOne (p : nat -> bool)
| Exactly (c : nat).

(** A greedy repetition of a class between [lo] and [hi] times, with
    backtracking into the continuation [k]; [cnt] counts the characters
    taken so far. *)
Fixpoint repeat_class (p : nat -> bool) (lo : nat) (hi : option nat) (cnt : nat)
    (rest : codepoints) (k : codepoints -> bool) : bool :=
  match rest with
  | c :: t =>
      if below hi cnt && p c
      then repeat_class p lo hi (S cnt) t k || ((lo <=? cnt)%nat && k rest)
      else (lo <=? cnt)%nat && k rest
  | [] => (lo <=? cnt)%nat && k []
  end.

(** The pattern matches a prefix of [rest] on whose remainder [k]
    holds. *)
Fixpoint match_elements (pattern : list element) (rest : codepoints)
    (k : codepoints -> bool) : bool :=
  match pattern with
  | [] => k rest
  | OneOrMore p :: more =>
      repeat_class p 1 None 0 rest (fun r => match_elements more r k)
  | AtMostOne p :: more =>
      repeat_class p 0 (Some 1) 0 rest (fun r => match_elements more r k)
  | Exactly c :: more =>
      match rest with
      | x :: t => (x =? c)%nat && match_elements more t k
      | [] => false
      end
  end.

(** [$] without [re.MULTILINE]: at the end of the string, or before a
    newline that ends it. *)
Definition at_end (rest : codepoints) : bool :=
  match rest with
  | [] => true
  | [c] => (c =? 10)%nat
  | _ => false
  end.

(** [re.match(r'^...$', s)] succeeds: the pattern matches from the start
    of [s] up to a position where [$] holds. *)
Definition matches_whole (pattern : list element) (s : codepoints) : bool :=
  match_elements pattern s at_end.

(** [[a-z]] without [re.IGNORECASE]. *)
Definition lower_case_letter (c : nat) : bool := (97 <=? c)%nat && (c <=? 122)%nat.

Section UnicodeDigits.

(** [\d] in a pattern on [str]: the characters of the Unicode category
    Nd, of which the ASCII digits are ten; the table of the category is
    that of the interpreter. *)
Variable decimal : nat -> bool.

(** The three patterns of [validate_regulatory_article], compiled
    without flags. *)
Definition valid_article_patterns : list (list element) :=
  [ (* ^\d+[a-z]?$ *)
    [OneOrMore decimal; AtMostOne lower_case_letter];
    (* ^\d+/\d+$ *)
    [OneOrMore decimal; Exactly 47; OneOrMore decimal];
    (* ^\d+/\d+/CE$ *)
    [OneOrMore decimal; Exactly 47; OneOrMore decimal; Exactly 47; Exactly 67; Exactly 69] ].

(** [validate_regulatory_article]. *)
Definition validate_regulatory_article (article : codepoints) : bool :=
  existsb (fun pattern => matches_whole pattern article) valid_article_patterns.

End UnicodeDigits.

(** [re.sub(r'[^\w\s-]', '', s)]. *)
Fixpoint drop_punctuation (s : string) : string :=
  match s with
  | EmptyString => EmptyString
  | String c t =>
      if is_word c || is_space c || Ascii.eqb c "-"
      then String c (drop_punctuation t)
      else drop_punctuation t
  end.

(** [re.sub(r'\s+', '_', s)]; [in_run] tells that the previous character
    was a blank. *)
Fixpoint underscore_from (in_run : bool) (s : string) : string :=
  match s with
  | EmptyString => EmptyString
  | String c t =>
      if is_space c then
        if in_run then underscore_from true t
        else String "_" (underscore_from true t)
      else String c (underscore_from false t)
  end.

(** The part of the identifier made from the title. *)
Definition clean_title (title : string) : string :=
  take 30 (underscore_from false (drop_punctuation (lower title))).

(** [create_document_id]. *)
Definition create_document_id (title content_hash : string) (doc_type : DocumentType)
    : string :=
  DocumentType_value doc_type ++ "_" ++ clean_title title ++ "_" ++ take 8 content_hash.

End Utilities.

Module UtilitiesSpec.
Import PyStr Re Config Models Utilities.
Local Open Scope string_scope.

(** Every character of the string is in the class. *)
Definition every (p : ascii -> bool) (s : string) : Prop :=
  forallb p (list_ascii_of_string s) = true.

(** Every code point of the list is in the class. *)
Definition every_code (p : nat -> bool) (s : codepoints) : Prop := forallb p s = true.

(** A count within the upper bound of a repetition. *)
Definition within (hi : option nat) (n : nat) : Prop :=
  match hi with Some h => n <= h | None => True end.

(** What may follow the article in a string that is accepted: nothing,
    or one newline. *)
Definition ending (tail : codepoints) : Prop := tail = [] \/ tail = [10].

Section Forms.

Variable decimal : nat -> bool.

(** One decimal digit or more. *)
Definition number (s : codepoints) : Prop := s <> [] /\ every_code decimal s.

(** The forms of an article number: [180], [180a], [2015/35] and
    [2009/138/CE], the digits being any decimal digits. *)
Inductive article_form : codepoints -> Prop :=
| form_number (n : codepoints) :
    number n -> article_form n
| form_lettered (n : codepoints) (c : nat) :
    number n -> lower_case_letter c = true -> article_form (n ++ [c])%list
| form_pair (a b : codepoints) :
    number a -> number b -> article_form (a ++ [47] ++ b)%list
| form_directive (a b : codepoints) :
    number a -> number b -> article_form (a ++ [47] ++ b ++ [47; 67; 69])%list.

End Forms.

(** Every character of the string is a word character or a hyphen. *)
Definition plain (s : string) : Prop :=
  every (fun c => is_word c || Ascii.eqb c "-") s.

(** The ASCII digits and the Arabic-Indic digits U+0660 to U+0669, two
    of the ranges of the category Nd. *)
Definition two_ranges_of_digits (c : nat) : bool :=
  ((48 <=? c)%nat && (c <=? 57)%nat) || ((1632 <=? c)%nat && (c <=? 1641)%nat).

End UtilitiesSpec.

(* ================================================================== *)
(** * Properties *)
(* ================================================================== *)

Import PyStr Re Config Models Env Parsers Database Main Spec Samples.

(** ** The digest agrees with the reference values of RFC 1321 *)

Example md5_empty : Md5.hexdigest EmptyString = "d41d8cd98f00b204e9800998ecf8427e".
Proof. vm_compute. reflexivity. Qed.

Example md5_abc : Md5.hexdigest "abc" = "900150983cd24fb0d6963f7d28e17f72".
Proof. vm_compute. reflexivity. Qed.

Example md5_accent :
  Md5.hexdigest ("Solvabilit" ++ PyStr.str1 233) = "d08bb3a0b0fd84630ea417b047b25d61".
Proof. vm_compute. reflexivity. Qed.

(** ** Comparisons of binary64 numbers *)

Module FloatFacts.

Lemma SFcompare_swap (x y : spec_float) :
  SFcompare y x = option_map CompOpp (SFcompare x y).
Proof.
  destruct x as [sx|sx| |sx mx ex], y as [sy|sy| |sy my ey]; simpl;
    try reflexivity;
    try (destruct sx; reflexivity);
    try (destruct sy; reflexivity);
    try (destruct sx, sy; reflexivity).
  change (Pcompare my mx Eq) with (Pos.compare my mx).
  change (Pcompare mx my Eq) with (Pos.compare mx my).
  destruct sx, sy; simpl; try reflexivity;
    rewrite (Z.compare_antisym ex ey), (Pos.compare_antisym mx my);
    destruct (ex ?= ey)%Z; simpl; try reflexivity;
    destruct (mx ?= my)%positive; reflexivity.
Qed.

(** A strict comparison excludes the large one in the other direction. *)
Lemma ltb_not_leb (x y : float) :
  PrimFloat.ltb x y = true -> PrimFloat.leb y x = false.
Proof.
  rewrite ltb_spec, leb_spec. unfold SFltb, SFleb.
  rewrite (SFcompare_swap (Prim2SF x) (Prim2SF y)).
  destruct (SFcompare (Prim2SF x) (Prim2SF y)) as [[| |]|]; simpl; congruence.
Qed.

End FloatFacts.

(** ** The order [(len(x), x)] and the stable sort *)

Module SortFacts.

Lemma code_inj (x y : ascii) : code x = code y -> x = y.
Proof.
  unfold code. intros H.
  rewrite <- (ascii_nat_embedding x), <- (ascii_nat_embedding y), H. reflexivity.
Qed.

Lemma str_ltb_irrefl (a : string) : str_ltb a a = false.
Proof.
  induction a as [|c a IH]; simpl; [reflexivity|].
  rewrite Nat.ltb_irrefl. exact IH.
Qed.

Lemma str_ltb_trans (a b c : string) :
  str_ltb a b = true -> str_ltb b c = true -> str_ltb a c = true.
Proof.
  revert b c. induction a as [|x a IH]; intros [|y b] [|z c]; simpl; try congruence.
  destruct (Nat.ltb_spec (code x) (code y)), (Nat.ltb_spec (code y) (code x)),
    (Nat.ltb_spec (code y) (code z)), (Nat.ltb_spec (code z) (code y)),
    (Nat.ltb_spec (code x) (code z)), (Nat.ltb_spec (code z) (code x));
    try congruence; try lia.
  apply IH.
Qed.

Lemma str_ltb_total (a b : string) :
  str_ltb a b = false -> str_ltb b a = false -> a = b.
Proof.
  revert b. induction a as [|x a IH]; intros [|y b]; simpl; try congruence.
  destruct (Nat.ltb_spec (code x) (code y)), (Nat.ltb_spec (code y) (code x));
    try congruence; try lia.
  intros H1 H2. f_equal.
  - apply code_inj. lia.
  - apply IH; assumption.
Qed.

Lemma key_ltb_irrefl (a : string) : key_ltb a a = false.
Proof.
  unfold key_ltb. rewrite Nat.ltb_irrefl, Nat.eqb_refl, str_ltb_irrefl. reflexivity.
Qed.

Lemma key_ltb_trans (a b c : string) :
  key_ltb a b = true -> key_ltb b c = true -> key_ltb a c = true.
Proof.
  unfold key_ltb. intros H1 H2.
  apply orb_true_iff in H1. apply orb_true_iff in H2. apply orb_true_iff.
  destruct H1 as [H1 | H1], H2 as [H2 | H2];
    try apply Nat.ltb_lt in H1; try apply Nat.ltb_lt in H2;
    try (apply andb_true_iff in H1; destruct H1 as [E1 L1]; apply Nat.eqb_eq in E1);
    try (apply andb_true_iff in H2; destruct H2 as [E2 L2]; apply Nat.eqb_eq in E2).
  - left. apply Nat.ltb_lt. lia.
  - left. apply Nat.ltb_lt. lia.
  - left. apply Nat.ltb_lt. lia.
  - right. apply andb_true_iff. split.
    + apply Nat.eqb_eq. lia.
    + exact (str_ltb_trans _ _ _ L1 L2).
Qed.

Lemma key_ltb_total (a b : string) :
  key_ltb a b = false -> key_ltb b a = false -> a = b.
Proof.
  unfold key_ltb. intros H1 H2.
  apply orb_false_iff in H1. apply orb_false_iff in H2.
  destruct H1 as [L1 E1], H2 as [L2 E2].
  apply Nat.ltb_ge in L1. apply Nat.ltb_ge in L2.
  assert (E : String.length a = String.length b) by lia.
  rewrite E, Nat.eqb_refl in E1. rewrite E, Nat.eqb_refl in E2.
  apply str_ltb_total; assumption.
Qed.

Section Insertion.
Context {A : Type} (lt : A -> A -> bool).
Hypothesis lt_irrefl : forall a, lt a a = false.
Hypothesis lt_trans : forall a b c, lt a b = true -> lt b c = true -> lt a c = true.

Lemma insert_by_perm (x : A) (l : list A) : Permutation (insert_by lt x l) (x :: l).
Proof.
  induction l as [|y t IH]; simpl; [apply Permutation_refl|].
  destruct (lt x y); [apply Permutation_refl|].
  apply Permutation_trans with (y :: x :: t); [apply perm_skip, IH | apply perm_swap].
Qed.

Lemma fold_insert_perm (l acc : list A) :
  Permutation (fold_left (fun a x => insert_by lt x a) l acc) (acc ++ l).
Proof.
  revert acc. induction l as [|x t IH]; intros acc; simpl.
  - rewrite app_nil_r. apply Permutation_refl.
  - eapply Permutation_trans; [apply IH|].
    eapply Permutation_trans; [apply Permutation_app_tail, insert_by_perm|].
    simpl. apply Permutation_middle.
Qed.

Lemma sorted_by_perm (l : list A) : Permutation (sorted_by lt l) l.
Proof. exact (fold_insert_perm l []). Qed.

Lemma insert_by_sorted (x : A) (l : list A) :
  StronglySorted (not_after lt) l -> StronglySorted (not_after lt) (insert_by lt x l).
Proof.
  induction 1 as [|y t Hs IH Hy]; simpl.
  - constructor; constructor.
  - destruct (lt x y) eqn:E.
    + constructor; [constructor; assumption|].
      constructor.
      * unfold not_after. destruct (lt y x) eqn:E'; [|reflexivity].
        rewrite <- (lt_irrefl x). symmetry. exact (lt_trans _ _ _ E E').
      * rewrite Forall_forall in *. intros z Hz. unfold not_after.
        destruct (lt z x) eqn:E'; [|reflexivity].
        rewrite <- (Hy z Hz). symmetry. exact (lt_trans _ _ _ E' E).
    + constructor; [exact IH|].
      rewrite Forall_forall in *. intros z Hz.
      apply (Permutation_in _ (insert_by_perm x t)) in Hz.
      destruct Hz as [<- | Hz]; [exact E | exact (Hy z Hz)].
Qed.

Lemma fold_insert_sorted (l acc : list A) :
  StronglySorted (not_after lt) acc ->
  StronglySorted (not_after lt) (fold_left (fun a x => insert_by lt x a) l acc).
Proof.
  revert acc. induction l as [|x t IH]; intros acc H; simpl; [exact H|].
  apply IH, insert_by_sorted, H.
Qed.

Lemma sorted_by_sorted (l : list A) : StronglySorted (not_after lt) (sorted_by lt l).
Proof. apply fold_insert_sorted. constructor. Qed.

(** Without repetition, and with a total order, the result ascends
    strictly. *)
Lemma sorted_strictly (l : list A) :
  (forall a b, lt a b = false -> lt b a = false -> a = b) ->
  NoDup l -> StronglySorted (not_after lt) l ->
  StronglySorted (fun a b => lt a b = true) l.
Proof.
  intros Htot Hnd Hs. induction Hs as [|y t Hs IH Hy]; [constructor|].
  inversion Hnd as [|? ? Hnotin Hnd']; subst.
  constructor; [apply IH, Hnd'|].
  rewrite Forall_forall in *. intros z Hz.
  destruct (lt y z) eqn:E; [reflexivity|].
  exfalso. apply Hnotin. rewrite (Htot y z E (Hy z Hz)). exact Hz.
Qed.
End Insertion.

End SortFacts.

(** ** The set of article identifiers *)

Module ArticleFacts.

Lemma mem_str_In (a : string) (l : list string) : mem_str a l = true <-> In a l.
Proof.
  unfold mem_str. rewrite existsb_exists. split.
  - intros [x [Hx E]]. apply String.eqb_eq in E. subst. exact Hx.
  - intros H. exists a. split; [exact H | apply String.eqb_refl].
Qed.

Lemma set_add_In (a x : string) (s : list string) :
  In x (set_add a s) <-> In x s \/ x = a.
Proof.
  unfold set_add. destruct (mem_str a s) eqn:E.
  - apply mem_str_In in E. split; [tauto|]. intros [H | ->]; assumption.
  - rewrite in_app_iff. simpl. split.
    + intros [H | [<- | []]]; auto.
    + intros [H | ->]; auto.
Qed.

Lemma set_add_NoDup (a : string) (s : list string) : NoDup s -> NoDup (set_add a s).
Proof.
  unfold set_add. intros H. destruct (mem_str a s) eqn:E; [exact H|].
  assert (Hn : ~ In a s).
  { intros Hin. apply mem_str_In in Hin. congruence. }
  clear E. induction H as [|y t Hy Ht IH]; simpl.
  - constructor; [intros []| constructor].
  - constructor.
    + rewrite in_app_iff. simpl. intros [H1 | [H1 | []]]; [tauto|].
      subst. apply Hn. left. reflexivity.
    + apply IH. intros H1. apply Hn. right. exact H1.
Qed.

Lemma add_match_In (content : string) (acc : list string) (m : rmatch) (x : string) :
  In x (add_match content acc m) <->
  In x acc \/ (x = strip (group 1 content m) /\ kept x).
Proof.
  unfold add_match, kept.
  destruct (String.eqb_spec (strip (group 1 content m)) EmptyString) as [E | E]; simpl.
  - split; [tauto|]. intros [H | [-> [H _]]]; [exact H | contradiction].
  - destruct (Nat.leb_spec (String.length (strip (group 1 content m))) 10) as [L | L].
    + rewrite set_add_In. split.
      * intros [H | ->]; auto.
      * intros [H | [-> _]]; auto.
    + split; [tauto|]. intros [H | [-> [_ H]]]; [exact H | lia].
Qed.

Lemma add_match_NoDup (content : string) (acc : list string) (m : rmatch) :
  NoDup acc -> NoDup (add_match content acc m).
Proof.
  unfold add_match. intros H.
  destruct (negb _ && _); [apply set_add_NoDup, H | exact H].
Qed.

Lemma fold_matches_In (content : string) (ms : list rmatch) (acc : list string) (x : string) :
  In x (fold_left (add_match content) ms acc) <->
  In x acc \/ (In x (map (fun m => strip (group 1 content m)) ms) /\ kept x).
Proof.
  revert acc. induction ms as [|m t IH]; intros acc; simpl.
  - tauto.
  - rewrite IH, add_match_In. intuition (subst; auto).
Qed.

Lemma fold_matches_NoDup (content : string) (ms : list rmatch) (acc : list string) :
  NoDup acc -> NoDup (fold_left (add_match content) ms acc).
Proof.
  revert acc. induction ms as [|m t IH]; intros acc H; simpl; [exact H|].
  apply IH, add_match_NoDup, H.
Qed.

Lemma fold_patterns_In (content : string) (ps : list re) (acc : list string) (x : string) :
  In x (fold_left (fun a p => fold_left (add_match content) (finditer p content) a) ps acc)
  <-> In x acc
      \/ (In x (flat_map (fun p => map (fun m => strip (group 1 content m))
                                       (finditer p content)) ps)
          /\ kept x).
Proof.
  revert acc. induction ps as [|p t IH]; intros acc; simpl.
  - tauto.
  - rewrite IH, fold_matches_In, in_app_iff. tauto.
Qed.

Lemma fold_patterns_NoDup (content : string) (ps : list re) (acc : list string) :
  NoDup acc ->
  NoDup (fold_left (fun a p => fold_left (add_match content) (finditer p content) a) ps acc).
Proof.
  revert acc. induction ps as [|p t IH]; intros acc H; simpl; [exact H|].
  apply IH, fold_matches_NoDup, H.
Qed.

Lemma collect_articles_In (content x : string) :
  In x (collect_articles content) <-> In x (matched_identifiers content) /\ kept x.
Proof.
  unfold collect_articles, matched_identifiers.
  rewrite fold_patterns_In. simpl. tauto.
Qed.

Lemma collect_articles_NoDup (content : string) : NoDup (collect_articles content).
Proof. apply fold_patterns_NoDup. constructor. Qed.

End ArticleFacts.

(** C4: on every text, the identifiers returned are exactly the matched
    ones that are not empty and at most 10 characters long, each once, in
    strictly ascending order of (length, text); a text with the mentions
    "Article 180", "Article 181" and "Art. 45" gives ["45"; "180"; "181"];
    a second run on the same text gives the same list. *)
Theorem extract_regulatory_articles_sorted_set :
  forall content : string,
    let articles := extract_regulatory_articles content in
    (forall a, In a articles <->
               In a (matched_identifiers content)
               /\ a <> EmptyString /\ String.length a <= 10)
    /\ NoDup articles
    /\ StronglySorted (fun a b => key_ltb a b = true) articles
    /\ extract_regulatory_articles content = articles
    /\ extract_regulatory_articles three_mentions = ["45"; "180"; "181"].
Proof.
  intros content articles. unfold articles, extract_regulatory_articles.
  assert (P := SortFacts.sorted_by_perm key_ltb (collect_articles content)).
  assert (N : NoDup (sorted_by key_ltb (collect_articles content))).
  { apply (Permutation_NoDup (Permutation_sym P)), ArticleFacts.collect_articles_NoDup. }
  split; [|split; [|split; [|split]]].
  - intros a. split.
    + intros H. apply (Permutation_in _ P) in H.
      apply ArticleFacts.collect_articles_In in H. exact H.
    + intros H. apply (Permutation_in _ (Permutation_sym P)).
      apply ArticleFacts.collect_articles_In. exact H.
  - exact N.
  - apply SortFacts.sorted_strictly.
    + exact SortFacts.key_ltb_total.
    + exact N.
    + apply SortFacts.sorted_by_sorted.
      * exact SortFacts.key_ltb_irrefl.
      * exact SortFacts.key_ltb_trans.
  - reflexivity.
  - vm_compute. reflexivity.
Qed.

(** ** Stripping and collapsing blanks *)

Module StripFacts.

Lemma last_ok_cons (c : ascii) (t : string) :
  t <> EmptyString -> (last_ok (String c t) <-> last_ok t).
Proof. destruct t; [congruence | simpl; tauto]. Qed.

Lemma append_empty_r (s : string) : (s ++ EmptyString)%string = s.
Proof. induction s as [|c s IH]; simpl; [reflexivity | rewrite IH; reflexivity]. Qed.

Lemma append_assoc (a b c : string) : ((a ++ b) ++ c)%string = (a ++ (b ++ c))%string.
Proof. induction a as [|x a IH]; simpl; [reflexivity | rewrite IH; reflexivity]. Qed.

Lemma rev_str_app (s acc : string) :
  rev_str acc s = (rev_str EmptyString s ++ acc)%string.
Proof.
  revert acc. induction s as [|c s IH]; intros acc; simpl; [reflexivity|].
  rewrite (IH (String c acc)), (IH (String c EmptyString)), append_assoc. reflexivity.
Qed.

Lemma rev_str_snoc (s : string) (c : ascii) :
  rev_str EmptyString (s ++ String c EmptyString) = String c (rev_str EmptyString s).
Proof.
  induction s as [|x s IH]; simpl; [reflexivity|].
  rewrite (rev_str_app (s ++ String c EmptyString) (String x EmptyString)), IH.
  simpl. rewrite <- rev_str_app. reflexivity.
Qed.

Lemma rev_str_involutive (s : string) :
  rev_str EmptyString (rev_str EmptyString s) = s.
Proof.
  induction s as [|c s IH]; simpl; [reflexivity|].
  rewrite (rev_str_app s (String c EmptyString)), rev_str_snoc, IH. reflexivity.
Qed.

Lemma lstrip_head_ok (s : string) : head_ok (lstrip s).
Proof.
  induction s as [|c s IH]; simpl; [exact I|].
  destruct (is_space c) eqn:E; [exact IH | exact E].
Qed.

Lemma lstrip_id (s : string) : head_ok s -> lstrip s = s.
Proof. destruct s as [|c s]; simpl; [reflexivity|]. intros ->. reflexivity. Qed.

Lemma lstrip_before (u v : string) (a : ascii) :
  is_space a = false ->
  lstrip (u ++ String a v) = (lstrip u ++ String a v)%string.
Proof.
  intros Ha. induction u as [|c u IH]; simpl.
  - rewrite Ha. reflexivity.
  - destruct (is_space c); [exact IH | reflexivity].
Qed.

(** The reverse of a string ends well when the string begins well. *)
Lemma rev_last_ok (u acc : string) :
  (acc <> EmptyString -> last_ok acc) -> (acc = EmptyString -> head_ok u) ->
  last_ok (rev_str acc u).
Proof.
  revert acc. induction u as [|c u IH]; intros acc Hacc Hu; simpl.
  - destruct acc; [exact I | apply Hacc; congruence].
  - apply IH; [|congruence]. intros _.
    destruct acc as [|a acc].
    + simpl. exact (Hu eq_refl).
    + apply last_ok_cons; [congruence | apply Hacc; congruence].
Qed.

Lemma rev_head_ok (s acc : string) :
  s <> EmptyString -> last_ok s -> head_ok (rev_str acc s).
Proof.
  revert acc. induction s as [|c s IH]; intros acc Hne Hl; [congruence|].
  destruct s as [|d s].
  - simpl. exact Hl.
  - change (head_ok (rev_str (String c acc) (String d s))).
    apply IH; [congruence | exact Hl].
Qed.

Lemma rstrip_last_ok (s : string) : last_ok (rstrip s).
Proof.
  unfold rstrip. apply rev_last_ok; [congruence|]. intros _. apply lstrip_head_ok.
Qed.

Lemma rstrip_id (s : string) : last_ok s -> rstrip s = s.
Proof.
  intros H. unfold rstrip. destruct s as [|c s]; [reflexivity|].
  rewrite lstrip_id; [apply rev_str_involutive|].
  apply rev_head_ok; [congruence | exact H].
Qed.

Lemma rstrip_head_ok (s : string) : head_ok s -> head_ok (rstrip s).
Proof.
  destruct s as [|a s]; [intros _; exact I|]. simpl. intros Ha.
  unfold rstrip. simpl.
  rewrite (rev_str_app s (String a EmptyString)), (lstrip_before _ _ _ Ha).
  rewrite rev_str_snoc. simpl. exact Ha.
Qed.

Lemma strip_ok (s : string) : head_ok (strip s) /\ last_ok (strip s).
Proof.
  unfold strip. split; [apply rstrip_head_ok, lstrip_head_ok | apply rstrip_last_ok].
Qed.

Lemma strip_id (s : string) : head_ok s -> last_ok s -> strip s = s.
Proof. intros Hh Hl. unfold strip. rewrite (lstrip_id s Hh). apply rstrip_id, Hl. Qed.

Lemma collapse_nonempty (t : string) (b : bool) :
  t <> EmptyString -> last_ok t -> collapse_from b t <> EmptyString.
Proof.
  revert b. induction t as [|c t IH]; intros b Hne Hl; [congruence|].
  simpl. destruct (is_space c) eqn:E.
  - assert (Ht : t <> EmptyString).
    { intros ->. simpl in Hl. congruence. }
    destruct b; [|congruence].
    apply IH; [exact Ht | apply (last_ok_cons c t Ht), Hl].
  - congruence.
Qed.

Lemma collapse_last_ok (t : string) (b : bool) :
  last_ok t -> last_ok (collapse_from b t).
Proof.
  revert b. induction t as [|c t IH]; intros b Hl; [exact I|].
  destruct t as [|d t].
  - simpl in Hl. simpl. rewrite Hl. simpl. exact Hl.
  - assert (Hl' : last_ok (String d t)) by exact Hl.
    assert (Hn : forall b', collapse_from b' (String d t) <> EmptyString).
    { intros b'. apply collapse_nonempty; [congruence | exact Hl']. }
    change (last_ok (if is_space c
                     then if b then collapse_from true (String d t)
                          else String " " (collapse_from true (String d t))
                     else String c (collapse_from false (String d t)))).
    destruct (is_space c), b;
      try (apply last_ok_cons; [apply Hn|]); apply IH; exact Hl'.
Qed.

Lemma collapse_length (s : string) :
  head_ok s -> last_ok s -> 3 <= String.length s ->
  3 <= String.length (collapse_ws s).
Proof.
  destruct s as [|a [|x [|y t]]]; simpl; try lia.
  intros Ha Hl _. unfold collapse_ws.
  change (3 <= String.length (if is_space a
                              then String " " (collapse_from true (String x (String y t)))
                              else String a (collapse_from false (String x (String y t))))).
  rewrite Ha.
  assert (Hl' : last_ok (String y t)) by exact Hl.
  assert (Hn : forall b', collapse_from b' (String y t) <> EmptyString).
  { intros b'. apply collapse_nonempty; [congruence | exact Hl']. }
  change (3 <= S (String.length
                    (if is_space x
                     then String " " (collapse_from true (String y t))
                     else String x (collapse_from false (String y t))))).
  destruct (is_space x).
  - specialize (Hn true). destruct (collapse_from true (String y t)); [congruence|].
    simpl. lia.
  - specialize (Hn false). destruct (collapse_from false (String y t)); [congruence|].
    simpl. lia.
Qed.

Lemma collapse_head_ok (s : string) : head_ok s -> head_ok (collapse_ws s).
Proof.
  destruct s as [|a s]; [intros _; exact I|]. unfold collapse_ws. simpl.
  intros Ha. rewrite Ha. simpl. exact Ha.
Qed.

(** The name of a candidate survives the second stripping, that of
    [SCRConcept.__post_init__], with its three characters. *)
Lemma cleaned_name_length (g : string) :
  3 <= String.length (strip g) ->
  3 <= String.length (strip (collapse_ws (strip g))).
Proof.
  intros H. destruct (strip_ok g) as [Hh Hl].
  rewrite strip_id.
  - apply collapse_length; assumption.
  - apply collapse_head_ok, Hh.
  - apply collapse_last_ok, Hl.
Qed.

End StripFacts.

(** ** The concept miner *)

Module MinerFacts.

Lemma store_calls_app (a b : list event) :
  store_calls (a ++ b) = store_calls a + store_calls b.
Proof. unfold store_calls. rewrite filter_app, length_app. reflexivity. Qed.

Lemma accepted_writes_app (w : World) (m1 m2 : list SCRModule) :
  forall k,
    accepted_writes w k (m1 ++ m2)
    = accepted_writes w k m1 ++ accepted_writes w (k + List.length m1) m2.
Proof.
  induction m1 as [|m t IH]; intros k; simpl.
  - rewrite Nat.add_0_r. reflexivity.
  - rewrite IH. replace (S k + List.length t) with (k + S (List.length t)) by lia.
    destruct (write_succeeds w k); reflexivity.
Qed.

(** A store that carries out every write refuses no module. *)
Lemma accepted_writes_all (w : World) (mods : list SCRModule) :
  (forall n, write_succeeds w n = true) ->
  forall k, accepted_writes w k mods = mods.
Proof.
  intros H. induction mods as [|m t IH]; intros k; simpl; [reflexivity|].
  rewrite H, IH. reflexivity.
Qed.

Lemma grows_refl w doc_id acc s : grows w doc_id [] acc acc s s.
Proof.
  split; [|repeat split; simpl; lia].
  exists []. rewrite app_nil_r. simpl. repeat split; [constructor | lia].
Qed.

Lemma grows_trans w doc_id m1 m2 a b c s1 s2 s3 :
  grows w doc_id m1 a b s1 s2 -> grows w doc_id m2 b c s2 s3 ->
  grows w doc_id (m1 ++ m2) a c s1 s3.
Proof.
  intros [[r1 [E1 [M1 [F1 L1]]]] [D1 [P1 C1]]] [[r2 [E2 [M2 [F2 L2]]]] [D2 [P2 C2]]].
  split; [|split; [congruence | split; [congruence | rewrite length_app; lia]]].
  exists (r1 ++ r2). subst b c. rewrite app_assoc, map_app, accepted_writes_app.
  rewrite M1, M2, C1. split; [reflexivity|]. split; [reflexivity|].
  split; [apply Forall_app; split; assumption|].
  rewrite length_app. lia.
Qed.

(** The quality filter leaves names that [SCRConcept] accepts. *)
Lemma candidate_name_ok (content : string) (m : rmatch) (c : Candidate) :
  candidate_of content m = Some c ->
  (String.length (strip (cand_name c)) <? 3)%nat = false.
Proof.
  unfold candidate_of.
  destruct (3 <=? String.length (strip (group 1 content m)))%nat eqn:E; simpl; [|discriminate].
  destruct (_ && _); [|discriminate].
  intros H. inversion H; subst; clear H. simpl.
  apply Nat.ltb_ge, StripFacts.cleaned_name_length, Nat.leb_le, E.
Qed.

(** One turn of the innermost loop: the record is kept when the store
    carries the write out and dropped when it returns -1. *)
Lemma emit_concept_ok w doc c acc m s :
  (String.length (strip (cand_name c)) <? 3)%nat = false ->
  exists acc' s', emit_concept w doc c acc m s = (Ok acc', s')
                  /\ grows w (id doc) [m] acc acc' s s'.
Proof.
  intros Hname. unfold emit_concept, bind, lift, SCRConcept_new.
  change (in_unit_interval 0.8%float) with true. simpl negb. cbv iota.
  rewrite Hname. unfold kb_add_scr_concept, add_scr_concept.
  unfold grows. simpl accepted_writes.
  destruct (write_succeeds w (store_calls (trace s))) eqn:W; cbv beta iota zeta.
  - replace (0 <? Z.of_nat (S (concept_seq (knowledge_base s))))%Z with true
      by (symmetry; apply Z.ltb_lt; lia).
    unfold ret. eexists. eexists. split; [reflexivity|]. simpl.
    split; [|split; [reflexivity | split; [reflexivity|]]].
    + eexists. split; [reflexivity|]. split; [reflexivity|].
      split; [constructor; [reflexivity | constructor]|].
      rewrite length_app. reflexivity.
    + rewrite store_calls_app. reflexivity.
  - change (0 <? -1)%Z with false. cbv iota.
    unfold ret. eexists. eexists. split; [reflexivity|]. simpl.
    split; [|split; [reflexivity | split; [reflexivity|]]].
    + exists []. rewrite app_nil_r. simpl. repeat split; [constructor | lia].
    + rewrite store_calls_app. reflexivity.
Qed.

Lemma module_loop w doc c :
  (String.length (strip (cand_name c)) <? 3)%nat = false ->
  forall mods acc s,
  exists acc' s', foldM (emit_concept w doc c) mods acc s = (Ok acc', s')
                  /\ grows w (id doc) mods acc acc' s s'.
Proof.
  intros Hname. induction mods as [|m t IH]; intros acc s; simpl.
  - exists acc, s. split; [reflexivity | apply grows_refl].
  - destruct (emit_concept_ok w doc c acc m s Hname) as [a1 [s1 [E1 G1]]].
    destruct (IH a1 s1) as [a2 [s2 [E2 G2]]].
    exists a2, s2. unfold bind. rewrite E1. split; [exact E2|].
    exact (grows_trans _ _ [m] t _ _ _ _ _ _ G1 G2).
Qed.

Lemma match_loop w doc content :
  forall ms acc s,
  exists acc' s',
    foldM (fun extracted m =>
             match candidate_of content m with
             | Some c => foldM (emit_concept w doc c) (scr_modules doc) extracted
             | None => ret extracted
             end) ms acc s = (Ok acc', s')
    /\ grows w (id doc) (flat_map (fun _ => scr_modules doc) (candidates_of content ms))
             acc acc' s s'.
Proof.
  induction ms as [|m t IH]; intros acc s; simpl.
  - exists acc, s. split; [reflexivity | apply grows_refl].
  - unfold bind. destruct (candidate_of content m) as [c|] eqn:E.
    + destruct (module_loop w doc c (candidate_name_ok _ _ _ E) (scr_modules doc) acc s)
        as [a1 [s1 [E1 G1]]].
      destruct (IH a1 s1) as [a2 [s2 [E2 G2]]].
      exists a2, s2. rewrite E1. split; [exact E2|].
      exact (grows_trans _ _ _ _ _ _ _ _ _ _ G1 G2).
    + destruct (IH acc s) as [a2 [s2 [E2 G2]]].
      exists a2, s2. unfold ret. split; [exact E2 | exact G2].
Qed.

Lemma pattern_loop w doc content :
  forall (ps : list (re * string)) acc s,
  exists acc' s',
    foldM (fun extracted pattern =>
             foldM (fun extracted m =>
                      match candidate_of content m with
                      | Some c => foldM (emit_concept w doc c) (scr_modules doc) extracted
                      | None => ret extracted
                      end)
                   (finditer (fst pattern) content) extracted) ps acc s = (Ok acc', s')
    /\ grows w (id doc)
             (flat_map (fun _ => scr_modules doc)
                (flat_map (fun p => candidates_of content (finditer (fst p) content)) ps))
             acc acc' s s'.
Proof.
  induction ps as [|p t IH]; intros acc s; simpl.
  - exists acc, s. split; [reflexivity | apply grows_refl].
  - unfold bind.
    destruct (match_loop w doc content (finditer (fst p) content) acc s)
      as [a1 [s1 [E1 G1]]].
    destruct (IH a1 s1) as [a2 [s2 [E2 G2]]].
    exists a2, s2. rewrite E1. split; [exact E2|].
    rewrite flat_map_app. exact (grows_trans _ _ _ _ _ _ _ _ _ _ G1 G2).
Qed.

(** The miner never raises, and fans every accepted candidate out over
    the modules of the document, one write each. *)
Lemma auto_extract_concepts_fan_out w doc content s :
  exists concepts s',
    _auto_extract_concepts w doc content s = (Ok concepts, s')
    /\ grows w (id doc) (flat_map (fun _ => scr_modules doc) (accepted_candidates content))
             [] concepts s s'.
Proof. exact (pattern_loop w doc content concept_patterns [] s). Qed.

End MinerFacts.

(** C6 as stated fails when the store refuses a write: for the document
    tagged SPREAD and EQUITY and the text with one formula, a store that
    refuses the second write asked of it makes the miner return one
    record, that of SPREAD, and one row is added. *)
Lemma refused_write_drops_record :
  List.length (accepted_candidates one_formula) = 1
  /\ Models.scr_modules spread_equity_document = [SPREAD; EQUITY]
  /\ map scr_module
       (match fst (_auto_extract_concepts (second_write_refused 7%Z) spread_equity_document
                     one_formula initial_state) with
        | Ok concepts => concepts
        | Raise _ => []
        end) = [SPREAD]
  /\ List.length
       (scr_concepts
          (knowledge_base
             (snd (_auto_extract_concepts (second_write_refused 7%Z) spread_equity_document
                     one_formula initial_state)))) = 1.
Proof. repeat split; vm_compute; reflexivity. Qed.

(** C6, amended: when exactly one match of the concept patterns passes
    the quality filter, the miner asks the store for one write per
    module the document is tagged with, in the order of the tags, and
    returns one record for each write the store carries out, each with
    the id of the document as [source_document_id]; the store gains as
    many concept rows as records are returned.  With a store that
    carries out every write these are exactly the modules of the
    document: N records for N modules. *)
Theorem one_candidate_one_concept_per_module :
  forall (w : World) (doc : DocumentSource) (content : string) (s : State),
    List.length (accepted_candidates content) = 1 ->
    exists concepts s',
      _auto_extract_concepts w doc content s = (Ok concepts, s')
      /\ map scr_module concepts
         = accepted_writes w (store_calls (trace s)) (scr_modules doc)
      /\ Forall (fun c => source_document_id c = Some (id doc)) concepts
      /\ List.length (scr_concepts (knowledge_base s'))
         = List.length (scr_concepts (knowledge_base s)) + List.length concepts
      /\ store_calls (trace s') = store_calls (trace s) + List.length (scr_modules doc)
      /\ ((forall n, write_succeeds w n = true) ->
          List.length concepts = List.length (scr_modules doc)
          /\ map scr_module concepts = scr_modules doc
          /\ List.length (scr_concepts (knowledge_base s'))
             = List.length (scr_concepts (knowledge_base s))
               + List.length (scr_modules doc)).
Proof.
  intros w doc content s H1.
  destruct (MinerFacts.auto_extract_concepts_fan_out w doc content s)
    as [concepts [s' [E [[recs [Eacc [Emods [Fsrc Erows]]]] [_ [_ Ecalls]]]]]].
  destruct (accepted_candidates content) as [|c [|c' t]]; try discriminate H1.
  simpl in Emods, Ecalls. rewrite app_nil_r in Emods, Ecalls.
  simpl in Eacc. subst concepts.
  exists recs, s'. split; [exact E|]. split; [exact Emods|].
  split; [exact Fsrc|]. split; [exact Erows|]. split; [exact Ecalls|].
  intros Hall. rewrite (MinerFacts.accepted_writes_all w _ Hall) in Emods.
  assert (Hlen : List.length recs = List.length (scr_modules doc))
    by (rewrite <- Emods; symmetry; apply length_map).
  split; [exact Hlen|]. split; [exact Emods|]. rewrite Erows, Hlen. reflexivity.
Qed.

Lemma one_candidate_one_concept_per_module_witness :
  exists concepts s',
    _auto_extract_concepts (report_files 7%Z) spread_equity_document one_formula
      initial_state = (Ok concepts, s')
    /\ map scr_module concepts
       = accepted_writes (report_files 7%Z) (store_calls (trace initial_state))
           (Models.scr_modules spread_equity_document)
    /\ Forall (fun c => source_document_id c = Some (id spread_equity_document)) concepts
    /\ List.length (scr_concepts (knowledge_base s'))
       = List.length (scr_concepts (knowledge_base initial_state)) + List.length concepts
    /\ store_calls (trace s')
       = store_calls (trace initial_state)
         + List.length (Models.scr_modules spread_equity_document)
    /\ ((forall n, write_succeeds (report_files 7%Z) n = true) ->
        List.length concepts = List.length (Models.scr_modules spread_equity_document)
        /\ map scr_module concepts = Models.scr_modules spread_equity_document
        /\ List.length (scr_concepts (knowledge_base s'))
           = List.length (scr_concepts (knowledge_base initial_state))
             + List.length (Models.scr_modules spread_equity_document)).
Proof.
  apply (one_candidate_one_concept_per_module (report_files 7%Z) spread_equity_document
           one_formula initial_state).
  vm_compute. reflexivity.
Defined.

(** ** The table [documents] under [INSERT OR REPLACE] *)

Module StoreFacts.

Lemma rows_with_id_app i l1 l2 :
  rows_with_id i (l1 ++ l2) = rows_with_id i l1 + rows_with_id i l2.
Proof. unfold rows_with_id. rewrite filter_app, length_app. reflexivity. Qed.

Lemma rows_with_id_removed (i : string) (rows : list DocRow) :
  rows_with_id i (filter (fun x => negb (String.eqb (row_id x) i)) rows) = 0.
Proof.
  unfold rows_with_id. induction rows as [|r t IH]; simpl; [reflexivity|].
  destruct (String.eqb (row_id r) i) eqn:E; simpl; [exact IH|].
  rewrite E. exact IH.
Qed.


(** After the write there is exactly one row with the key written. *)
Lemma insert_or_replace_one (r : DocRow) (rows : list DocRow) :
  rows_with_id (row_id r) (insert_or_replace r rows) = 1.
Proof.
  unfold insert_or_replace. rewrite rows_with_id_app, rows_with_id_removed.
  unfold rows_with_id. simpl. rewrite String.eqb_refl. reflexivity.
Qed.


Lemma length_partition (i : string) (rows : list DocRow) :
  List.length rows
  = List.length (filter (fun x => negb (String.eqb (row_id x) i)) rows)
    + rows_with_id i rows.
Proof.
  unfold rows_with_id. induction rows as [|r t IH]; simpl; [reflexivity|].
  destruct (String.eqb (row_id r) i); simpl; lia.
Qed.

(** Writing over a key that has one row does not change the count. *)
Lemma insert_or_replace_length (r : DocRow) (rows : list DocRow) :
  rows_with_id (row_id r) rows = 1 ->
  List.length (insert_or_replace r rows) = List.length rows.
Proof.
  intros H. unfold insert_or_replace. rewrite length_app. simpl.
  rewrite (length_partition (row_id r) rows), H. reflexivity.
Qed.

Lemma find_row_written (r : DocRow) (rows : list DocRow) :
  find_row (row_id r) (insert_or_replace r rows) = Some r.
Proof.
  unfold find_row, insert_or_replace. induction rows as [|x t IH]; simpl.
  - rewrite String.eqb_refl. reflexivity.
  - destruct (String.eqb (row_id x) (row_id r)) eqn:E; simpl; [exact IH|].
    rewrite E. exact IH.
Qed.

Lemma find_row_other (i : string) (r : DocRow) (rows : list DocRow) :
  i <> row_id r ->
  find_row i (insert_or_replace r rows) = find_row i rows.
Proof.
  intros Hi. unfold find_row, insert_or_replace. induction rows as [|x t IH]; simpl.
  - destruct (String.eqb_spec (row_id r) i); [congruence | reflexivity].
  - destruct (String.eqb_spec (row_id x) (row_id r)) as [E | E]; simpl.
    + destruct (String.eqb_spec (row_id x) i); [congruence | exact IH].
    + destruct (String.eqb (row_id x) i); [reflexivity | exact IH].
Qed.

End StoreFacts.

(** ** Strings: cancellation under concatenation *)

Module AppendFacts.

Lemma length_append (a b : string) :
  String.length (a ++ b) = String.length a + String.length b.
Proof. induction a as [|c a IH]; simpl; [reflexivity | rewrite IH; reflexivity]. Qed.




End AppendFacts.

(** ** One ingestion, step by step *)

Module OutcomeFacts.
Import Outcome.

Lemma with_events_nil s : with_events s [] = s.
Proof. destruct s. unfold with_events. simpl. rewrite app_nil_r. reflexivity. Qed.

Lemma with_events_app s a b : with_events (with_events s a) b = with_events s (a ++ b).
Proof. unfold with_events. simpl. rewrite app_assoc. reflexivity. Qed.

Lemma check_size_events w loc s :
  check_size w loc s = (Ok tt, with_events s (size_events w loc)).
Proof.
  unfold check_size, size_events.
  destruct (negb (is_url loc)); [|unfold ret; rewrite with_events_nil; reflexivity].
  destruct (path_exists w loc); [|unfold ret; rewrite with_events_nil; reflexivity].
  destruct (PrimFloat.ltb _ _); [reflexivity|].
  unfold ret. rewrite with_events_nil. reflexivity.
Qed.

Lemma choose_title_events w md cd loc s :
  choose_title w md cd loc s
  = (chosen_title w md cd loc, with_events s (title_events md)).
Proof.
  unfold choose_title, chosen_title, title_events, title_given.
  destruct (o_title md) as [t|]; [destruct (negb (String.eqb t EmptyString))|];
    unfold bind, emit, ret, lift; simpl; try reflexivity.
  rewrite with_events_nil. reflexivity.
Qed.

(** The calls made before the document is written are no calls to the
    store. *)
Lemma size_events_quiet w loc : store_calls (size_events w loc) = 0.
Proof.
  unfold size_events. destruct (negb (is_url loc)); [|reflexivity].
  destruct (path_exists w loc); [|reflexivity].
  destruct (PrimFloat.ltb _ _); reflexivity.
Qed.

Lemma signal_events_quiet md : store_calls (signal_events md) = 0.
Proof. unfold signal_events, title_events. destruct (title_given md); reflexivity. Qed.

Lemma calls_before_write w loc p md tr :
  store_calls (tr ++ size_events w loc ++ [CallExtractContent p] ++ signal_events md)
  = store_calls tr.
Proof.
  rewrite !MinerFacts.store_calls_app, size_events_quiet, signal_events_quiet.
  simpl. lia.
Qed.

(** The miner's run from a given state, as a state. *)
Lemma miner_total w d text s :
  exists cs,
    _auto_extract_concepts w d text s
    = (Ok cs, snd (_auto_extract_concepts w d text s)).
Proof.
  destruct (MinerFacts.auto_extract_concepts_fan_out w d text s) as [cs [s' [E _]]].
  exists cs. rewrite E. reflexivity.
Qed.

(** [add_document_source], path by path. *)
Lemma add_document_source_outcome w loc ty mods md s :
  add_document_source w loc ty mods md s =
  match create_parser loc with
  | Raise _ => (false, with_events s (size_events w loc))
  | Ok p =>
      match extract_content p w loc with
      | Raise _ => (false, with_events s (size_events w loc ++ [CallExtractContent p]))
      | Ok cd =>
          if String.eqb (text_content cd) EmptyString
          then (false, with_events s (size_events w loc ++ [CallExtractContent p]))
          else
            match built_document w loc ty mods md cd with
            | Raise _ =>
                (false, with_events s (size_events w loc ++ [CallExtractContent p]
                                       ++ signals_called w loc md cd))
            | Ok d =>
                if write_succeeds w (store_calls (trace s)) then
                  (true,
                   snd (_auto_extract_concepts w d (text_content cd)
                          (written s (size_events w loc ++ [CallExtractContent p]
                                      ++ signal_events md) d)))
                else
                  (false, with_events s (size_events w loc ++ [CallExtractContent p]
                                         ++ signal_events md ++ [CallAddDocument (id d)]))
            end
      end
  end.
Proof.
  unfold add_document_source, try_except, ingest.
  unfold bind at 1. rewrite check_size_events.
  unfold bind at 1. unfold lift at 1.
  destruct (create_parser loc) as [p|e]; [|reflexivity].
  unfold bind at 1. unfold emit at 1. cbv beta iota.
  unfold bind at 1. unfold lift at 1.
  destruct (extract_content p w loc) as [cd|e].
  2:{ unfold ret, with_events. simpl. rewrite <- app_assoc. reflexivity. }
  destruct (String.eqb (text_content cd) EmptyString).
  { unfold ret, with_events. simpl. rewrite <- app_assoc. reflexivity. }
  unfold bind at 1. unfold emit at 1. cbv beta iota.
  unfold bind at 1. unfold lift at 1.
  unfold built_document, signals_called.
  destruct (_extract_source_name w loc) as [name|e].
  2:{ unfold ret, with_events. simpl. repeat rewrite <- app_assoc. reflexivity. }
  unfold bind at 1. rewrite choose_title_events.
  destruct (chosen_title w md cd loc) as [ttl|e].
  2:{ unfold ret, with_events. simpl. repeat rewrite <- app_assoc. reflexivity. }
  unfold bind at 1. unfold emit at 1. cbv beta iota.
  unfold bind at 1. unfold emit at 1. cbv beta iota.
  unfold bind at 1. unfold lift at 1.
  cbv beta iota delta [res_bind].
  assert (Etr : forall tr,
            (((((tr ++ size_events w loc) ++ [CallExtractContent p])
                 ++ [CallSignal SigArticles])
                ++ title_events md)
               ++ [CallSignal SigLanguage]) ++ [CallSignal SigReliability]
            = tr ++ size_events w loc ++ [CallExtractContent p] ++ signal_events md).
  { intros tr. unfold signal_events. repeat rewrite <- app_assoc. simpl.
    repeat rewrite <- app_assoc. reflexivity. }
  match goal with
  | |- context [DocumentSource_new ?a1 ?a2 ?a3 ?a4 ?a5 ?a6 ?a7 ?a8 ?a9 ?a10 ?a11 ?a12 ?a13] =>
      destruct (DocumentSource_new a1 a2 a3 a4 a5 a6 a7 a8 a9 a10 a11 a12 a13) as [d|e]
  end.
  2:{ unfold ret, with_events. simpl. rewrite Etr. reflexivity. }
  unfold bind at 1. unfold kb_add_document at 1. unfold with_events at 1. simpl trace.
  rewrite Etr, calls_before_write.
  unfold add_document.
  destruct (write_succeeds w (store_calls (trace s))).
  - cbv beta iota zeta.
    unfold bind at 1. unfold count_processed at 1. cbv beta iota.
    unfold bind at 1.
    match goal with
    | |- context [_auto_extract_concepts w d (text_content cd) ?st] =>
        replace st with (written s (size_events w loc ++ [CallExtractContent p]
                                    ++ signal_events md) d)
    end.
    + destruct (miner_total w d (text_content cd)
                  (written s (size_events w loc ++ [CallExtractContent p]
                              ++ signal_events md) d)) as [cs E].
      rewrite E. reflexivity.
    + unfold written, with_events, add_document. simpl. f_equal.
      repeat rewrite <- app_assoc. reflexivity.
  - cbv beta iota zeta. unfold ret, with_events, signal_events. simpl.
    repeat (rewrite <- app_assoc; simpl). reflexivity.
Qed.

End OutcomeFacts.

Module IngestFacts.
Import Outcome.

(** The source name does not depend on the surroundings, when it is
    derived. *)
Lemma source_name_stable w1 w2 loc n1 n2 :
  _extract_source_name w1 loc = Ok n1 -> _extract_source_name w2 loc = Ok n2 -> n1 = n2.
Proof.
  unfold _extract_source_name, PyPath.netloc.
  destruct (startswith loc "http://").
  { destruct (xorb _ _); [discriminate|].
    destruct (_ && negb (bracketed_host_ok w1 _)); [discriminate|].
    destruct (_ && negb (bracketed_host_ok w2 _)); [discriminate|].
    simpl. congruence. }
  destruct (startswith loc "https://").
  { destruct (xorb _ _); [discriminate|].
    destruct (_ && negb (bracketed_host_ok w1 _)); [discriminate|].
    destruct (_ && negb (bracketed_host_ok w2 _)); [discriminate|].
    simpl. congruence. }
  congruence.
Qed.

Lemma built_document_row w loc ty mods md cd d :
  built_document w loc ty mods md cd = Ok d ->
  exists name,
    _extract_source_name w loc = Ok name
    /\ row_id (row_of_document d) = document_id ty name (Md5.hexdigest (text_content cd))
    /\ row_last_updated (row_of_document d) = now w
    /\ row_scr_modules (row_of_document d) = mods.
Proof.
  unfold built_document.
  destruct (_extract_source_name w loc) as [name|e]; [|discriminate].
  destruct (chosen_title w md cd loc) as [ttl|e]; [|discriminate].
  simpl. unfold DocumentSource_new.
  destruct (negb (in_unit_interval _)); [discriminate|].
  intros H. inversion H; subst; clear H. exists name. repeat split.
Qed.

(** A successful ingestion has gone through every step: the parser gave
    a non-empty text, the source name was derived, the store carried the
    write out, and one row was written under the derived id; the rows of
    [documents] are otherwise as before. *)
Lemma success_inversion w loc ty mods md s s' :
  add_document_source w loc ty mods md s = (true, s') ->
  exists text name r,
    extracted_text w loc = Some text
    /\ _extract_source_name w loc = Ok name
    /\ row_id r = document_id ty name (Md5.hexdigest text)
    /\ row_last_updated r = now w
    /\ row_scr_modules r = mods
    /\ documents (knowledge_base s')
       = insert_or_replace r (documents (knowledge_base s)).
Proof.
  rewrite OutcomeFacts.add_document_source_outcome. unfold extracted_text.
  destruct (create_parser loc) as [p|e]; [|discriminate].
  destruct (extract_content p w loc) as [cd|e]; [|discriminate].
  destruct (String.eqb (text_content cd) EmptyString); [discriminate|].
  destruct (built_document w loc ty mods md cd) as [d|e] eqn:Ed; [|discriminate].
  destruct (write_succeeds w (store_calls (trace s))); [|discriminate].
  intros H. injection H as Hs. subst s'.
  destruct (built_document_row _ _ _ _ _ _ _ Ed) as [name [En [Eid [Elu Emods]]]].
  exists (text_content cd), name, (row_of_document d).
  split; [reflexivity|]. split; [exact En|]. split; [exact Eid|].
  split; [exact Elu|]. split; [exact Emods|].
  match goal with
  | |- context [_auto_extract_concepts w d ?c ?st] =>
      destruct (MinerFacts.auto_extract_concepts_fan_out w d c st)
        as [cs [s3 [E3 [_ [D3 _]]]]]; rewrite E3
  end.
  simpl. rewrite D3. reflexivity.
Qed.

End IngestFacts.

(** ** Construction of the entities *)

(** C8: [DocumentSource] construction succeeds for every reliability
    score in the closed interval [[0, 1]] and keeps the score, and raises
    [ValueError] (the specification's ValidationError) for every score
    strictly below 0 or strictly above 1, whatever the other fields. *)
Theorem document_source_score_validated :
  forall (doc_id ttl : string) (ty : DocumentType) (u fp : option string)
         (pd : option date) (arts : list string) (mods : list SCRModule)
         (lang : string) (r : float) (lu : datetime) (h : string) (md : dict),
    ((PrimFloat.leb 0 r = true /\ PrimFloat.leb r 1 = true) ->
       exists d, DocumentSource_new doc_id ttl ty u fp pd arts mods lang r lu h md = Ok d
                 /\ reliability_score d = r /\ id d = doc_id)
    /\ ((PrimFloat.ltb r 0 = true \/ PrimFloat.ltb 1 r = true) ->
          DocumentSource_new doc_id ttl ty u fp pd arts mods lang r lu h md
          = Raise (ValueError msg_reliability)).
Proof.
  intros. unfold DocumentSource_new, in_unit_interval. split.
  - intros [H0 H1]. rewrite H0, H1. simpl. eexists. split; [reflexivity|]. split; reflexivity.
  - intros [H | H]; apply FloatFacts.ltb_not_leb in H; rewrite H.
    + reflexivity.
    + rewrite andb_false_r. reflexivity.
Qed.

Lemma document_source_score_validated_witness :
  (exists d, DocumentSource_new "doc" "Titre" INTERNAL_DOC None None None [] [SPREAD]
               "fr" 0.5%float 0%Z EmptyString [] = Ok d
             /\ reliability_score d = 0.5%float /\ id d = "doc")
  /\ DocumentSource_new "doc" "Titre" INTERNAL_DOC None None None [] [SPREAD]
       "fr" 1.5%float 0%Z EmptyString [] = Raise (ValueError msg_reliability).
Proof.
  split.
  - apply (proj1 (document_source_score_validated "doc" "Titre" INTERNAL_DOC None None None
                    [] [SPREAD] "fr" 0.5%float 0%Z EmptyString [])).
    split; reflexivity.
  - apply (proj2 (document_source_score_validated "doc" "Titre" INTERNAL_DOC None None None
                    [] [SPREAD] "fr" 1.5%float 0%Z EmptyString [])).
    right. reflexivity.
Defined.

(** C9 as stated fails: a technical depth of 9 is not clamped to the
    nearest bound 5, it becomes 3. *)
Lemma prompt_config_depth_not_clamped :
  technical_depth (PromptConfig_new CLAUDE_SONNET_4 EXPERT SPREAD "fr" "technical_sheet"
                     true true true 3000 [] "high" 9)
  <> clamp_to_range 1 5 9.
Proof. vm_compute. discriminate. Qed.

(** C9, amended: [PromptConfig] construction never fails; [max_length] is
    clamped to the nearest bound of [[500, 10000]]; a [technical_depth]
    outside [[1, 5]] is reset to the default 3, one inside is kept. *)
Theorem prompt_config_normalised :
  forall (ai : AIProvider) (lvl : ExpertiseLevel) (m : SCRModule) (lang fmt : string)
         (ex fo refs : bool) (ml : Z) (reqs : list string) (ctx : string) (td : Z),
    let cfg := PromptConfig_new ai lvl m lang fmt ex fo refs ml reqs ctx td in
    max_length cfg = clamp_to_range 500 10000 ml
    /\ ((td < 1 \/ 5 < td)%Z -> technical_depth cfg = 3%Z)
    /\ ((1 <= td <= 5)%Z -> technical_depth cfg = td).
Proof.
  intros. unfold cfg, PromptConfig_new, clamp_to_range. simpl. repeat split.
  - destruct (Z.ltb_spec ml 500); [lia|].
    destruct (Z.gtb_spec ml 10000); lia.
  - intros Hout.
    destruct (Z.leb_spec 1 td); destruct (Z.leb_spec td 5); simpl; try reflexivity; lia.
  - intros Hin.
    destruct (Z.leb_spec 1 td); destruct (Z.leb_spec td 5); simpl; try reflexivity; lia.
Qed.

Lemma prompt_config_normalised_witness :
  max_length (PromptConfig_new GPT_4 JUNIOR LIFE "fr" "technical_sheet"
                true true true 20000 [] "high" 9) = clamp_to_range 500 10000 20000
  /\ technical_depth (PromptConfig_new GPT_4 JUNIOR LIFE "fr" "technical_sheet"
                        true true true 20000 [] "high" 9) = 3%Z
  /\ technical_depth (PromptConfig_new GPT_4 JUNIOR LIFE "fr" "technical_sheet"
                        true true true 100 [] "high" 4) = 4%Z.
Proof.
  split; [|split].
  - apply (prompt_config_normalised GPT_4 JUNIOR LIFE "fr" "technical_sheet"
             true true true 20000 [] "high" 9).
  - apply (prompt_config_normalised GPT_4 JUNIOR LIFE "fr" "technical_sheet"
             true true true 20000 [] "high" 9). right. lia.
  - apply (prompt_config_normalised GPT_4 JUNIOR LIFE "fr" "technical_sheet"
             true true true 100 [] "high" 4). lia.
Defined.

(** C10 at its failing input: the example [" a "], with blanks around it,
    added twice, is stored twice, where adding it once stores it once. *)
Theorem add_example_padded_twice :
  examples (add_example 1%Z sample_concept " a ") = ["a"]
  /\ examples (add_example 2%Z (add_example 1%Z sample_concept " a ") " a ") = ["a"; "a"].
Proof. split; vm_compute; reflexivity. Qed.

(** C5 as stated fails: eleven occurrences of the substring inside one
    word earn no bonus, so the code scores 0.5 where the claim counts
    eleven occurrences and does not. *)
Lemma reliability_bonus_counts_words :
  occurrences "article" (lower eleven_articles) = 11
  /\ article_count eleven_articles = 1
  /\ _calculate_reliability_score (content_of eleven_articles) INTERNAL_DOC = 0.5%float
  /\ _calculate_reliability_score (content_of eleven_articles) INTERNAL_DOC
     <> claimed_reliability_score (content_of eleven_articles) INTERNAL_DOC.
Proof.
  repeat split; try (vm_compute; reflexivity).
  intros H. apply (f_equal (fun v => PrimFloat.ltb v 0.55%float)) in H.
  vm_compute in H. discriminate H.
Qed.

(** C5, amended: the score is the base score of the document type, plus
    0.1 when more than 10 blank-separated words of the text contain
    "article" (case-insensitively), plus 0.05 above 5000 words and minus
    0.1 below 500 words, clamped to [[0.1, 1.0]]; it always lies in
    [[0.1, 1.0]]; an internal document of 300 words with at most 10 such
    words scores 0.5. *)
Theorem reliability_score_formula :
  forall (cd : ContentData) (ty : DocumentType),
    let text := text_content cd in
    let bonus (s : float) := if (10 <? article_count text)%nat then (s + 0.1)%float else s in
    let size (s : float) :=
      if (5000 <? word_count text)%nat then (s + 0.05)%float
      else if (word_count text <? 500)%nat then (s - 0.1)%float else s in
    _calculate_reliability_score cd ty
      = py_min (py_max (size (bonus (type_scores ty))) 0.1%float) 1.0%float
    /\ PrimFloat.leb 0.1 (_calculate_reliability_score cd ty) = true
    /\ PrimFloat.leb (_calculate_reliability_score cd ty) 1.0 = true
    /\ (ty = INTERNAL_DOC -> word_count text = 300 -> article_count text <= 10 ->
        _calculate_reliability_score cd ty = 0.5%float).
Proof.
  intros cd ty text bonus size. unfold bonus, size, _calculate_reliability_score.
  fold text. repeat split.
  - destruct (10 <? article_count text)%nat, (5000 <? word_count text)%nat,
      (word_count text <? 500)%nat, ty; vm_compute; reflexivity.
  - destruct (10 <? article_count text)%nat, (5000 <? word_count text)%nat,
      (word_count text <? 500)%nat, ty; vm_compute; reflexivity.
  - intros -> Hw Ha. rewrite Hw.
    replace (10 <? article_count text)%nat with false
      by (symmetry; apply Nat.ltb_ge; exact Ha).
    vm_compute. reflexivity.
Qed.

Lemma reliability_score_formula_witness :
  _calculate_reliability_score (content_of three_hundred_words) INTERNAL_DOC = 0.5%float.
Proof.
  apply (reliability_score_formula (content_of three_hundred_words) INTERNAL_DOC).
  - reflexivity.
  - vm_compute. reflexivity.
  - vm_compute. lia.
Defined.

(** ** The query by module *)

Module QueryFacts.

(** On a document with a single tag, the [LIKE] test agrees with
    membership for every pair of modules but one: the pattern of [life]
    also matches the tag [non_life]. *)
Lemma single_tag_like (m tag : SCRModule) :
  like ("%" ++ SCRModule_value m ++ "%") (json_dumps_modules [tag])
  = SCRModule_eqb m tag
    || (SCRModule_eqb m LIFE && SCRModule_eqb tag NON_LIFE).
Proof. destruct m, tag; vm_compute; reflexivity. Qed.

End QueryFacts.

(** C3 at its failing input: the query for module [life] returns the
    document that is tagged with [non_life] only, because the text
    ["non_life"] of its module list contains [life]; the membership test
    of the model class says the document is not relevant for [life]. *)
Theorem life_query_returns_non_life_document :
  Models.scr_modules non_life_document = [NON_LIFE]
  /\ is_relevant_for_module non_life_document LIFE = false
  /\ json_dumps_modules [NON_LIFE] = ("[" ++ quoted "non_life" ++ "]")%string
  /\ get_documents_by_module non_life_kb LIFE None = Ok [non_life_document]
  /\ get_documents_by_module non_life_kb SPREAD None = Ok [].
Proof. repeat split. Qed.

(** ** Ingestion and identity *)

(** C1: when the same locator is ingested twice with the same document
    type and the two extractions give the same text, both calls derive
    the same id; after each call the row under that id is the one just
    written, its [last_updated] the instant of that call, so it advances
    when the clock does; after the second call there is exactly one row
    under the id and the number of documents is what it was after the
    first. *)
Theorem reingestion_replaces_document :
  forall (w1 w2 : World) (loc : string) (ty : DocumentType)
         (mods1 mods2 : list SCRModule) (md1 md2 : Overrides) (s0 s1 s2 : State),
    extracted_text w1 loc = extracted_text w2 loc ->
    add_document_source w1 loc ty mods1 md1 s0 = (true, s1) ->
    add_document_source w2 loc ty mods2 md2 s1 = (true, s2) ->
    exists text name r1 r2,
      extracted_text w1 loc = Some text
      /\ _extract_source_name w1 loc = Ok name
      /\ _extract_source_name w2 loc = Ok name
      /\ row_id r1 = document_id ty name (Md5.hexdigest text)
      /\ row_id r2 = document_id ty name (Md5.hexdigest text)
      /\ find_row (document_id ty name (Md5.hexdigest text))
                  (documents (knowledge_base s1)) = Some r1
      /\ row_last_updated r1 = now w1
      /\ find_row (document_id ty name (Md5.hexdigest text))
                  (documents (knowledge_base s2)) = Some r2
      /\ row_last_updated r2 = now w2
      /\ ((now w1 < now w2)%Z -> (row_last_updated r1 < row_last_updated r2)%Z)
      /\ rows_with_id (document_id ty name (Md5.hexdigest text))
                      (documents (knowledge_base s2)) = 1
      /\ total_documents (knowledge_base s2) = total_documents (knowledge_base s1).
Proof.
  intros w1 w2 loc ty mods1 mods2 md1 md2 s0 s1 s2 Htext H1 H2.
  apply IngestFacts.success_inversion in H1.
  apply IngestFacts.success_inversion in H2.
  destruct H1 as [t1 [n1 [r1 [T1 [N1 [I1 [L1 [_ D1]]]]]]]].
  destruct H2 as [t2 [n2 [r2 [T2 [N2 [I2 [L2 [_ D2]]]]]]]].
  assert (t2 = t1) by congruence. subst t2.
  assert (n2 = n1) by (symmetry; exact (IngestFacts.source_name_stable _ _ _ _ _ N1 N2)).
  subst n2.
  exists t1, n1, r1, r2.
  split; [exact T1|]. split; [exact N1|]. split; [exact N2|].
  split; [exact I1|]. split; [exact I2|].
  split; [rewrite D1, <- I1; apply StoreFacts.find_row_written|].
  split; [exact L1|].
  split; [rewrite D2, <- I2; apply StoreFacts.find_row_written|].
  split; [exact L2|].
  split; [rewrite L1, L2; tauto|].
  split; [rewrite D2, <- I2; apply StoreFacts.insert_or_replace_one|].
  unfold total_documents. rewrite D2.
  apply StoreFacts.insert_or_replace_length.
  rewrite D1, I2, <- I1. apply StoreFacts.insert_or_replace_one.
Qed.

Lemma reingestion_replaces_document_witness :
  exists text name r1 r2,
    extracted_text (report_files 10%Z) "a/report.pdf" = Some text
    /\ _extract_source_name (report_files 10%Z) "a/report.pdf" = Ok name
    /\ _extract_source_name (report_files 20%Z) "a/report.pdf" = Ok name
    /\ row_id r1 = document_id INTERNAL_DOC name (Md5.hexdigest text)
    /\ row_id r2 = document_id INTERNAL_DOC name (Md5.hexdigest text)
    /\ find_row (document_id INTERNAL_DOC name (Md5.hexdigest text))
                (documents (knowledge_base after_first)) = Some r1
    /\ row_last_updated r1 = 10%Z
    /\ find_row (document_id INTERNAL_DOC name (Md5.hexdigest text))
                (documents (knowledge_base after_second)) = Some r2
    /\ row_last_updated r2 = 20%Z
    /\ ((10 < 20)%Z -> (row_last_updated r1 < row_last_updated r2)%Z)
    /\ rows_with_id (document_id INTERNAL_DOC name (Md5.hexdigest text))
                    (documents (knowledge_base after_second)) = 1
    /\ total_documents (knowledge_base after_second)
       = total_documents (knowledge_base after_first).
Proof.
  apply (reingestion_replaces_document (report_files 10%Z) (report_files 20%Z) "a/report.pdf"
           INTERNAL_DOC [SPREAD] [SPREAD] no_overrides no_overrides
           initial_state after_first after_second).
  - vm_compute. reflexivity.
  - vm_compute. reflexivity.
  - vm_compute. reflexivity.
Defined.




(** ** A missing local file *)

(** C7: for a local path that does not exist, [add_document_source]
    returns [False]; the knowledge base (documents and concepts) and the
    counter of processed documents are as before; the only call that can
    have been made is the one to the parser: no signal is extracted and
    nothing is written to the store. *)
Theorem missing_file_fails_untouched :
  forall (w : World) (loc : string) (ty : DocumentType) (mods : list SCRModule)
         (md : Overrides) (s : State),
    is_url loc = false ->
    path_exists w loc = false ->
    exists s',
      add_document_source w loc ty mods md s = (false, s')
      /\ knowledge_base s' = knowledge_base s
      /\ documents_processed s' = documents_processed s
      /\ (trace s' = trace s \/ exists p, trace s' = trace s ++ [CallExtractContent p]).
Proof.
  intros w loc ty mods md s Hurl Hmiss.
  unfold add_document_source, try_except, ingest.
  unfold bind at 1. unfold check_size. rewrite Hurl, Hmiss. simpl negb. cbv iota.
  unfold ret at 1. cbv beta iota.
  unfold bind at 1. unfold lift at 1. unfold create_parser. rewrite Hurl.
  destruct (endswith (lower loc) ".pdf").
  - unfold bind at 1. unfold emit at 1. cbv beta iota.
    unfold bind at 1. unfold lift at 1.
    unfold extract_content, pdf_extract_content. rewrite Hmiss. simpl negb. cbv iota.
    unfold ret. eexists. split; [reflexivity|]. simpl.
    split; [reflexivity|]. split; [reflexivity|]. right. eexists. reflexivity.
  - destruct (endswith (lower loc) ".html" || endswith (lower loc) ".htm").
    + unfold bind at 1. unfold emit at 1. cbv beta iota.
      unfold bind at 1. unfold lift at 1.
      unfold extract_content, html_extract_content, html_extract_from_file.
      rewrite Hurl, Hmiss. simpl negb. cbv iota.
      unfold ret. eexists. split; [reflexivity|]. simpl.
      split; [reflexivity|]. split; [reflexivity|]. right. eexists. reflexivity.
    + unfold ret. eexists. split; [reflexivity|].
      split; [reflexivity|]. split; [reflexivity|]. left. reflexivity.
Qed.

Lemma missing_file_fails_untouched_witness :
  exists s',
    add_document_source (report_files 30%Z) "c/missing.pdf" REGULATION_EU [SPREAD]
      no_overrides after_first = (false, s')
    /\ knowledge_base s' = knowledge_base after_first
    /\ documents_processed s' = documents_processed after_first
    /\ (trace s' = trace after_first
        \/ exists p, trace s' = trace after_first ++ [CallExtractContent p]).
Proof.
  apply (missing_file_fails_untouched (report_files 30%Z) "c/missing.pdf" REGULATION_EU
           [SPREAD] no_overrides after_first).
  - reflexivity.
  - reflexivity.
Defined.

(* ================================================================== *)
(** * Further properties of the code *)
(* ================================================================== *)

Import Outcome MoreSamples.

Module FloatMore.

Lemma SFcompare_refl (v : spec_float) : v <> S754_nan -> SFcompare v v = Some Eq.
Proof.
  destruct v as [[|]|[|]| |[|] m e]; simpl; intros H;
    try reflexivity; try contradiction;
    rewrite Z.compare_refl;
    change (Pcompare m m Eq) with (Pos.compare m m);
    rewrite Pos.compare_refl; reflexivity.
Qed.

Lemma eqb_sym (x y : float) : PrimFloat.eqb x y = PrimFloat.eqb y x.
Proof.
  rewrite !eqb_spec. unfold SFeqb.
  rewrite (FloatFacts.SFcompare_swap (Prim2SF x) (Prim2SF y)).
  destruct (SFcompare (Prim2SF x) (Prim2SF y)) as [[| |]|]; reflexivity.
Qed.

(** A number that compares with another is no NaN. *)
Lemma leb_not_nan_r (x y : float) : PrimFloat.leb x y = true -> PrimFloat.is_nan y = false.
Proof.
  unfold PrimFloat.is_nan. rewrite leb_spec, eqb_spec. unfold SFleb, SFeqb.
  intros H. rewrite SFcompare_refl; [reflexivity|].
  intros E. rewrite E in H. destruct (Prim2SF x) as [?|?| |? ? ?]; discriminate.
Qed.

Lemma unit_interval_not_nan (x : float) :
  in_unit_interval x = true -> PrimFloat.is_nan x = false.
Proof.
  unfold in_unit_interval. intros H. apply andb_prop in H. destruct H as [H _].
  exact (leb_not_nan_r _ _ H).
Qed.

(** What the [REAL] column keeps of a valid score: a number equal to
    it. *)
Lemma sql_real_valid (x : float) :
  in_unit_interval x = true ->
  exists y, sql_real x = Some y /\ PrimFloat.eqb y x = true
            /\ in_unit_interval y = true.
Proof.
  intros H. unfold sql_real. rewrite (unit_interval_not_nan x H).
  destruct (PrimFloat.is_zero x) eqn:Z.
  - exists 0%float. split; [reflexivity|]. split.
    + rewrite eqb_sym. exact Z.
    + reflexivity.
  - exists x. split; [reflexivity|]. split; [|exact H].
    generalize (unit_interval_not_nan x H). unfold PrimFloat.is_nan.
    destruct (PrimFloat.eqb x x); [reflexivity | discriminate].
Qed.

End FloatMore.

Module IngestMore.

Lemma size_events_no_store w loc : existsb is_store_call (size_events w loc) = false.
Proof.
  unfold size_events.
  destruct (negb (is_url loc)), (path_exists w loc),
    (PrimFloat.ltb MAX_FILE_SIZE_MB (size_mb w loc)); reflexivity.
Qed.

Lemma size_events_no_signal w loc : existsb is_signal_call (size_events w loc) = false.
Proof.
  unfold size_events.
  destruct (negb (is_url loc)), (path_exists w loc),
    (PrimFloat.ltb MAX_FILE_SIZE_MB (size_mb w loc)); reflexivity.
Qed.

Lemma signal_events_no_store md : existsb is_store_call (signal_events md) = false.
Proof. unfold signal_events, title_events. destruct (title_given md); reflexivity. Qed.

Lemma signals_called_no_store w loc md cd :
  existsb is_store_call (signals_called w loc md cd) = false.
Proof.
  unfold signals_called, signal_events, title_events.
  destruct (_extract_source_name w loc); [|reflexivity].
  destruct (chosen_title w md cd loc); destruct (title_given md); reflexivity.
Qed.

(** The computed score always passes the validation of the document. *)
Lemma computed_score_valid cd ty :
  in_unit_interval (_calculate_reliability_score cd ty) = true.
Proof.
  unfold _calculate_reliability_score.
  destruct (10 <? article_count (text_content cd))%nat,
    (5000 <? word_count (text_content cd))%nat,
    (word_count (text_content cd) <? 500)%nat, ty; vm_compute; reflexivity.
Qed.

(** Once the source name is derived, a title is found. *)
Lemma chosen_title_ok w md cd loc name :
  _extract_source_name w loc = Ok name -> exists t, chosen_title w md cd loc = Ok t.
Proof.
  intros Hn.
  assert (Ht : exists t, _extract_title w cd loc = Ok t).
  { unfold _extract_title. rewrite Hn. simpl.
    destruct (meta_title cd) as [t|];
      [destruct (negb (String.eqb t EmptyString) && (5 <? String.length (strip t))%nat);
       [eexists; reflexivity|]|];
      destruct (title_line _); try (eexists; reflexivity);
      destruct (is_url loc); eexists; reflexivity. }
  unfold chosen_title. destruct (o_title md) as [t|]; [|exact Ht].
  destruct (negb (String.eqb t EmptyString)); [eexists; reflexivity | exact Ht].
Qed.

Lemma built_document_ok w loc ty mods md cd name :
  _extract_source_name w loc = Ok name ->
  (forall r, o_reliability_score md = Some r -> in_unit_interval r = true) ->
  exists d, built_document w loc ty mods md cd = Ok d.
Proof.
  intros Hn Hr. unfold built_document. rewrite Hn.
  destruct (chosen_title_ok w md cd loc name Hn) as [t Ht]. rewrite Ht.
  cbn [res_bind]. unfold DocumentSource_new.
  destruct (o_reliability_score md) as [r|].
  - rewrite (Hr r eq_refl). simpl. eexists. reflexivity.
  - rewrite computed_score_valid. simpl. eexists. reflexivity.
Qed.

Lemma built_document_fields w loc ty mods md cd d :
  built_document w loc ty mods md cd = Ok d ->
  exists name,
    _extract_source_name w loc = Ok name
    /\ id d = document_id ty name (Md5.hexdigest (text_content cd))
    /\ chosen_title w md cd loc = Ok (title d)
    /\ doc_type d = ty
    /\ regulatory_articles d = extract_regulatory_articles (text_content cd)
    /\ Models.scr_modules d = mods
    /\ content_hash d = Md5.hexdigest (text_content cd)
    /\ last_updated d = now w
    /\ publication_date d = o_publication_date md
    /\ in_unit_interval (reliability_score d) = true
    /\ reliability_score d
       = match o_reliability_score md with
         | Some r => r
         | None => _calculate_reliability_score cd ty
         end
    /\ language d
       = (let l := match o_language md with
                   | Some l => l
                   | None => _detect_language (text_content cd)
                   end in
          if mem_str l supported_languages then l else "fr")
    /\ url d = (if startswith loc "http" then Some loc else o_url md)
    /\ file_path d = (if startswith loc "http" then None else Some loc).
Proof.
  unfold built_document.
  destruct (_extract_source_name w loc) as [name|e]; [|discriminate].
  destruct (chosen_title w md cd loc) as [ttl|e]; [|discriminate].
  cbn [res_bind]. unfold DocumentSource_new.
  destruct (in_unit_interval _) eqn:E; cbn [negb]; [|discriminate].
  intros H. injection H as <-. exists name.
  cbn -[mem_str supported_languages startswith in_unit_interval document_id].
  rewrite E. repeat split.
  - generalize (match o_language md with
                | Some l => l
                | None => _detect_language (text_content cd)
                end).
    intros l. unfold mem_str, supported_languages. simpl.
    destruct (String.eqb l "fr"), (String.eqb l "en"), (String.eqb l "de"),
      (String.eqb l "es"), (String.eqb l "it"); reflexivity.
  - destruct (startswith loc "http"); reflexivity.
Qed.

Lemma length_flat_map_const {A B : Type} (l : list A) (m : list B) :
  List.length (flat_map (fun _ => m) l) = List.length l * List.length m.
Proof.
  induction l as [|c t IH]; simpl; [reflexivity|].
  rewrite length_app, IH. reflexivity.
Qed.

(** The state after the miner, seen from the store: one concept row
    for each of its writes that the store carries out. *)
Lemma mined_state w d text s :
  documents (knowledge_base (snd (_auto_extract_concepts w d text s)))
  = documents (knowledge_base s)
  /\ documents_processed (snd (_auto_extract_concepts w d text s)) = documents_processed s
  /\ List.length (scr_concepts (knowledge_base (snd (_auto_extract_concepts w d text s))))
     = List.length (scr_concepts (knowledge_base s))
       + List.length
           (accepted_writes w (store_calls (trace s))
              (flat_map (fun _ => Models.scr_modules d) (accepted_candidates text))).
Proof.
  destruct (MinerFacts.auto_extract_concepts_fan_out w d text s)
    as [cs [s' [E [[recs [_ [Em [_ L]]]] [D [P _]]]]]].
  rewrite E. simpl. split; [exact D|]. split; [exact P|].
  rewrite L, <- Em, length_map. reflexivity.
Qed.

Lemma written_store_calls s evs d :
  store_calls evs = 0 -> store_calls (trace (written s evs d)) = S (store_calls (trace s)).
Proof.
  intros H. unfold written. simpl.
  rewrite !MinerFacts.store_calls_app, H. unfold store_calls. simpl. lia.
Qed.

Lemma calls_quiet w loc p md :
  store_calls (size_events w loc ++ [CallExtractContent p] ++ signal_events md) = 0.
Proof. exact (OutcomeFacts.calls_before_write w loc p md []). Qed.

Lemma extracted_text_cases w loc :
  match create_parser loc with
  | Raise _ => extracted_text w loc = None
  | Ok p =>
      match extract_content p w loc with
      | Raise _ => extracted_text w loc = None
      | Ok cd => extracted_text w loc = Some (text_content cd)
      end
  end.
Proof.
  unfold extracted_text. destruct (create_parser loc) as [p|]; [|reflexivity].
  destruct (extract_content p w loc); reflexivity.
Qed.

End IngestMore.

(** ** Failure and success of an ingestion *)

(** X1: an ingestion that returns [False] has changed nothing: the
    knowledge base and the counter of processed documents are as
    before.  Of the calls it made, none is a call to the store, or
    exactly one is: the last, which asks for the write of the document
    and which the store has refused.  No concept write is asked for. *)
Theorem failed_ingestion_writes_nothing :
  forall (w : World) (loc : string) (ty : DocumentType) (mods : list SCRModule)
         (md : Overrides) (s s' : State),
    add_document_source w loc ty mods md s = (false, s') ->
    knowledge_base s' = knowledge_base s
    /\ documents_processed s' = documents_processed s
    /\ exists evs,
         trace s' = trace s ++ evs
         /\ (existsb is_store_call evs = false
             \/ exists before doc_id,
                  evs = before ++ [CallAddDocument doc_id]
                  /\ existsb is_store_call before = false
                  /\ write_succeeds w (store_calls (trace s)) = false).
Proof.
  intros w loc ty mods md s s' H.
  rewrite OutcomeFacts.add_document_source_outcome in H.
  assert (Hq := IngestMore.size_events_no_store w loc).
  destruct (create_parser loc) as [p|e].
  - destruct (extract_content p w loc) as [cd|e].
    + destruct (String.eqb (text_content cd) EmptyString).
      * injection H as <-. repeat split. eexists. split; [reflexivity|].
        left. rewrite existsb_app, Hq. reflexivity.
      * destruct (built_document w loc ty mods md cd) as [d|e].
        -- destruct (write_succeeds w (store_calls (trace s))) eqn:W; [discriminate|].
           injection H as <-. repeat split.
           exists ((size_events w loc ++ [CallExtractContent p] ++ signal_events md)
                   ++ [CallAddDocument (id d)]).
           split.
           { unfold with_events. simpl. repeat (rewrite <- app_assoc; simpl). reflexivity. }
           right. eexists. eexists. split; [reflexivity|]. split; [|reflexivity].
           rewrite existsb_app, Hq. simpl. apply IngestMore.signal_events_no_store.
        -- injection H as <-. repeat split. eexists. split; [reflexivity|].
           left. rewrite existsb_app, Hq. simpl. apply IngestMore.signals_called_no_store.
    + injection H as <-. repeat split. eexists. split; [reflexivity|].
      left. rewrite existsb_app, Hq. reflexivity.
  - injection H as <-. repeat split. eexists. split; [reflexivity|]. left. exact Hq.
Qed.

Lemma failed_ingestion_writes_nothing_witness :
  (knowledge_base (snd (add_document_source (refusing_store 30%Z) "b/summary.pdf"
                          INTERNAL_DOC [SPREAD] no_overrides after_first))
   = knowledge_base after_first
   /\ documents_processed (snd (add_document_source (refusing_store 30%Z) "b/summary.pdf"
                                  INTERNAL_DOC [SPREAD] no_overrides after_first))
      = documents_processed after_first
   /\ exists evs,
        trace (snd (add_document_source (refusing_store 30%Z) "b/summary.pdf" INTERNAL_DOC
                      [SPREAD] no_overrides after_first))
        = trace after_first ++ evs
        /\ (existsb is_store_call evs = false
            \/ exists before doc_id,
                 evs = before ++ [CallAddDocument doc_id]
                 /\ existsb is_store_call before = false
                 /\ write_succeeds (refusing_store 30%Z) (store_calls (trace after_first))
                    = false))
  /\ (knowledge_base (snd (add_document_source (report_files 30%Z) "a/report.pdf"
                             INTERNAL_DOC [SPREAD] too_reliable after_first))
      = knowledge_base after_first
      /\ documents_processed (snd (add_document_source (report_files 30%Z) "a/report.pdf"
                                     INTERNAL_DOC [SPREAD] too_reliable after_first))
         = documents_processed after_first
      /\ exists evs,
           trace (snd (add_document_source (report_files 30%Z) "a/report.pdf" INTERNAL_DOC
                         [SPREAD] too_reliable after_first))
           = trace after_first ++ evs
           /\ (existsb is_store_call evs = false
               \/ exists before doc_id,
                    evs = before ++ [CallAddDocument doc_id]
                    /\ existsb is_store_call before = false
                    /\ write_succeeds (report_files 30%Z) (store_calls (trace after_first))
                       = false)).
Proof.
  split.
  - apply (failed_ingestion_writes_nothing (refusing_store 30%Z) "b/summary.pdf"
             INTERNAL_DOC [SPREAD] no_overrides after_first).
    vm_compute. reflexivity.
  - apply (failed_ingestion_writes_nothing (report_files 30%Z) "a/report.pdf" INTERNAL_DOC
             [SPREAD] too_reliable after_first).
    vm_compute. reflexivity.
Defined.

(** X2: an ingestion succeeds exactly when the selected parser returns a
    non-empty text, a source name is derived from the locator
    ([urlparse] does not raise), the reliability passed by the caller,
    if any, lies in [[0, 1]], and the store carries out the write of the
    document; the computed reliability never makes it fail. *)
Theorem ingestion_succeeds_iff :
  forall (w : World) (loc : string) (ty : DocumentType) (mods : list SCRModule)
         (md : Overrides) (s : State),
    fst (add_document_source w loc ty mods md s) = true
    <-> (exists text, extracted_text w loc = Some text /\ text <> EmptyString)
        /\ (exists name, _extract_source_name w loc = Ok name)
        /\ (forall r, o_reliability_score md = Some r -> in_unit_interval r = true)
        /\ write_succeeds w (store_calls (trace s)) = true.
Proof.
  intros w loc ty mods md s.
  rewrite OutcomeFacts.add_document_source_outcome.
  assert (Hx := IngestMore.extracted_text_cases w loc).
  destruct (create_parser loc) as [p|e].
  2:{ simpl. split; [discriminate|]. intros [[t [Ht _]] _]. congruence. }
  destruct (extract_content p w loc) as [cd|e].
  2:{ simpl. split; [discriminate|]. intros [[t [Ht _]] _]. congruence. }
  destruct (String.eqb_spec (text_content cd) EmptyString) as [Ee | Ee].
  { simpl. split; [discriminate|]. intros [[t [Ht Hn]] _]. congruence. }
  destruct (built_document w loc ty mods md cd) as [d|e] eqn:Eb.
  - apply IngestMore.built_document_fields in Eb.
    destruct Eb as [name [Hname [_ [_ [_ [_ [_ [_ [_ [_ [Hv [Hs _]]]]]]]]]]]].
    destruct (write_succeeds w (store_calls (trace s))); simpl.
    + split; [|reflexivity]. intros _. split.
      { exists (text_content cd). split; assumption. }
      split; [exists name; exact Hname|]. split; [|reflexivity].
      intros r Hr. rewrite Hr in Hs. rewrite <- Hs. exact Hv.
    + split; [discriminate|]. intros [_ [_ [_ F]]]. discriminate F.
  - simpl. split; [discriminate|]. intros [_ [[name Hname] [Hr _]]].
    destruct (IngestMore.built_document_ok w loc ty mods md cd name Hname Hr) as [d Hd].
    congruence.
Qed.

(** X3: whenever the parser raises, returns no text, or the locator has
    no parser, the ingestion returns [False] without calling any signal
    extractor or the store, and the knowledge base is as before. *)
Theorem no_text_no_signal_no_write :
  forall (w : World) (loc : string) (ty : DocumentType) (mods : list SCRModule)
         (md : Overrides) (s : State),
    extracted_text w loc = None \/ extracted_text w loc = Some EmptyString ->
    exists s' evs,
      add_document_source w loc ty mods md s = (false, s')
      /\ knowledge_base s' = knowledge_base s
      /\ trace s' = trace s ++ evs
      /\ existsb is_signal_call evs = false
      /\ existsb is_store_call evs = false.
Proof.
  intros w loc ty mods md s H.
  rewrite OutcomeFacts.add_document_source_outcome.
  assert (Hx := IngestMore.extracted_text_cases w loc).
  assert (Hq := IngestMore.size_events_no_store w loc).
  assert (Hg := IngestMore.size_events_no_signal w loc).
  destruct (create_parser loc) as [p|e].
  - destruct (extract_content p w loc) as [cd|e].
    + assert (Ht : text_content cd = EmptyString).
      { destruct H as [H | H]; rewrite Hx in H; [discriminate | congruence]. }
      rewrite Ht. simpl. eexists. eexists. split; [reflexivity|].
      split; [reflexivity|]. split; [reflexivity|].
      rewrite !existsb_app, Hq, Hg. split; reflexivity.
    + eexists. eexists. split; [reflexivity|].
      split; [reflexivity|]. split; [reflexivity|].
      rewrite !existsb_app, Hq, Hg. split; reflexivity.
  - eexists. eexists. split; [reflexivity|].
    split; [reflexivity|]. split; [reflexivity|]. split; assumption.
Qed.

Lemma no_text_no_signal_no_write_witness :
  exists s' evs,
    add_document_source blank_page "https://www.eiopa.europa.eu/note" EIOPA_GUIDELINES
      [SPREAD] curated after_first = (false, s')
    /\ knowledge_base s' = knowledge_base after_first
    /\ trace s' = trace after_first ++ evs
    /\ existsb is_signal_call evs = false
    /\ existsb is_store_call evs = false.
Proof.
  apply (no_text_no_signal_no_write blank_page "https://www.eiopa.europa.eu/note"
           EIOPA_GUIDELINES [SPREAD] curated after_first).
  right. reflexivity.
Defined.

(** X4: after a successful ingestion the row found under the derived id
    carries the document type and the module list of the call, the MD5 of
    the text, the articles extracted from it and the clock of the call;
    the locator is stored as [url] when it starts with "http" and as
    [file_path] otherwise; the counter of processed documents has
    advanced by one. *)
Theorem successful_ingestion_stores_row :
  forall (w : World) (loc : string) (ty : DocumentType) (mods : list SCRModule)
         (md : Overrides) (s s' : State),
    add_document_source w loc ty mods md s = (true, s') ->
    exists text name r,
      extracted_text w loc = Some text
      /\ _extract_source_name w loc = Ok name
      /\ find_row (document_id ty name (Md5.hexdigest text))
                  (documents (knowledge_base s')) = Some r
      /\ row_id r = document_id ty name (Md5.hexdigest text)
      /\ row_doc_type r = ty
      /\ row_scr_modules r = mods
      /\ row_content_hash r = Md5.hexdigest text
      /\ row_regulatory_articles r = extract_regulatory_articles text
      /\ row_last_updated r = now w
      /\ row_url r = (if startswith loc "http" then Some loc else o_url md)
      /\ row_file_path r = (if startswith loc "http" then None else Some loc)
      /\ documents_processed s' = S (documents_processed s).
Proof.
  intros w loc ty mods md s s' H.
  rewrite OutcomeFacts.add_document_source_outcome in H.
  assert (Hx := IngestMore.extracted_text_cases w loc).
  destruct (create_parser loc) as [p|e]; [|discriminate].
  destruct (extract_content p w loc) as [cd|e]; [|discriminate].
  destruct (String.eqb (text_content cd) EmptyString); [discriminate|].
  destruct (built_document w loc ty mods md cd) as [d|e] eqn:Eb; [|discriminate].
  destruct (write_succeeds w (store_calls (trace s))); [|discriminate].
  injection H as <-.
  match goal with
  | |- context [_auto_extract_concepts ?n ?dd ?c ?st] =>
      destruct (IngestMore.mined_state n dd c st) as [Hd [Hp _]]
  end.
  apply IngestMore.built_document_fields in Eb.
  destruct Eb as [name [Hname [Fid [_ [Fty [Far [Fmo [Fha [Flu [_ [_ [_ [_ [Furl Ffp]]]]]]]]]]]]]].
  exists (text_content cd), name, (row_of_document d).
  split; [exact Hx|]. split; [exact Hname|]. split.
  { rewrite Hd. unfold written, add_document. simpl. rewrite <- Fid.
    apply (StoreFacts.find_row_written (row_of_document d)). }
  simpl. repeat split; assumption.
Qed.

Lemma successful_ingestion_stores_row_witness :
  exists text name r,
    extracted_text (report_files 10%Z) "a/report.pdf" = Some text
    /\ _extract_source_name (report_files 10%Z) "a/report.pdf" = Ok name
    /\ find_row (document_id INTERNAL_DOC name (Md5.hexdigest text))
                (documents (knowledge_base after_first)) = Some r
    /\ row_id r = document_id INTERNAL_DOC name (Md5.hexdigest text)
    /\ row_doc_type r = INTERNAL_DOC
    /\ row_scr_modules r = [SPREAD]
    /\ row_content_hash r = Md5.hexdigest text
    /\ row_regulatory_articles r = extract_regulatory_articles text
    /\ row_last_updated r = 10%Z
    /\ row_url r = None
    /\ row_file_path r = Some "a/report.pdf"
    /\ documents_processed after_first = 1.
Proof.
  apply (successful_ingestion_stores_row (report_files 10%Z) "a/report.pdf" INTERNAL_DOC
           [SPREAD] no_overrides initial_state after_first).
  vm_compute. reflexivity.
Defined.

(** X5: the keyword arguments win over the heuristics: after a successful
    ingestion the stored title is the non-empty title passed, the stored
    reliability is what the [REAL] column keeps of the one passed, a
    number equal to it, the stored publication date is the one passed,
    and the stored language is the one passed when it is one of fr, en,
    de, es, it and "fr" when it is any other. *)
Theorem overrides_are_stored :
  forall (w : World) (loc : string) (ty : DocumentType) (mods : list SCRModule)
         (md : Overrides) (s s' : State),
    add_document_source w loc ty mods md s = (true, s') ->
    exists text name r,
      extracted_text w loc = Some text
      /\ _extract_source_name w loc = Ok name
      /\ find_row (document_id ty name (Md5.hexdigest text))
                  (documents (knowledge_base s')) = Some r
      /\ (forall t, o_title md = Some t -> t <> EmptyString -> row_title r = t)
      /\ (forall x, o_reliability_score md = Some x ->
                    row_reliability_score r = sql_real x
                    /\ exists y, row_reliability_score r = Some y
                                 /\ PrimFloat.eqb y x = true)
      /\ (forall l, o_language md = Some l ->
                    row_language r = if mem_str l supported_languages then l else "fr")
      /\ row_publication_date r = o_publication_date md.
Proof.
  intros w loc ty mods md s s' H.
  rewrite OutcomeFacts.add_document_source_outcome in H.
  assert (Hx := IngestMore.extracted_text_cases w loc).
  destruct (create_parser loc) as [p|e]; [|discriminate].
  destruct (extract_content p w loc) as [cd|e]; [|discriminate].
  destruct (String.eqb (text_content cd) EmptyString); [discriminate|].
  destruct (built_document w loc ty mods md cd) as [d|e] eqn:Eb; [|discriminate].
  destruct (write_succeeds w (store_calls (trace s))); [|discriminate].
  injection H as <-.
  match goal with
  | |- context [_auto_extract_concepts ?n ?dd ?c ?st] =>
      destruct (IngestMore.mined_state n dd c st) as [Hd _]
  end.
  apply IngestMore.built_document_fields in Eb.
  destruct Eb as [name [Hname [Fid [Fti [_ [_ [_ [_ [_ [Fpd [Fv [Fsc [Fla _]]]]]]]]]]]]].
  exists (text_content cd), name, (row_of_document d).
  split; [exact Hx|]. split; [exact Hname|]. split.
  { rewrite Hd. unfold written, add_document. simpl. rewrite <- Fid.
    apply (StoreFacts.find_row_written (row_of_document d)). }
  simpl. split; [|split; [|split]].
  - intros t Ht Hne. unfold chosen_title in Fti. rewrite Ht in Fti.
    destruct (String.eqb_spec t EmptyString); [contradiction|].
    simpl in Fti. congruence.
  - intros x Hxr. rewrite Hxr in Fsc. rewrite Fsc in *. split; [reflexivity|].
    destruct (FloatMore.sql_real_valid x Fv) as [y [Ey [Eq _]]].
    exists y. split; assumption.
  - intros l Hl. rewrite Fla, Hl. reflexivity.
  - exact Fpd.
Qed.

Lemma overrides_are_stored_witness :
  exists text name r,
    extracted_text (note_site 5%Z) "https://www.eiopa.europa.eu/note" = Some text
    /\ _extract_source_name (note_site 5%Z) "https://www.eiopa.europa.eu/note" = Ok name
    /\ find_row (document_id EIOPA_GUIDELINES name (Md5.hexdigest text))
                (documents
                   (knowledge_base
                      (snd (add_document_source (note_site 5%Z)
                              "https://www.eiopa.europa.eu/note" EIOPA_GUIDELINES
                              [SPREAD; EQUITY] curated initial_state)))) = Some r
    /\ (forall t, o_title curated = Some t -> t <> EmptyString -> row_title r = t)
    /\ (forall x, o_reliability_score curated = Some x ->
                  row_reliability_score r = sql_real x
                  /\ exists y, row_reliability_score r = Some y
                               /\ PrimFloat.eqb y x = true)
    /\ (forall l, o_language curated = Some l ->
                  row_language r = if mem_str l supported_languages then l else "fr")
    /\ row_publication_date r = o_publication_date curated.
Proof.
  apply (overrides_are_stored (note_site 5%Z) "https://www.eiopa.europa.eu/note"
           EIOPA_GUIDELINES [SPREAD; EQUITY] curated initial_state).
  vm_compute. reflexivity.
Defined.

(** X6: every successful ingestion asks the store for one concept write
    per accepted candidate and per module, after the write of the
    document, and the store gains one concept row for each of them that
    it carries out; nothing is merged.  So, with a store that carries
    out every write, ingesting the same locator again with the same
    text and modules adds the same number of concept rows a second
    time: candidates times modules. *)
Theorem reingestion_repeats_concepts :
  forall (w1 w2 : World) (loc : string) (ty : DocumentType) (mods : list SCRModule)
         (md1 md2 : Overrides) (s0 s1 s2 : State),
    extracted_text w1 loc = extracted_text w2 loc ->
    add_document_source w1 loc ty mods md1 s0 = (true, s1) ->
    add_document_source w2 loc ty mods md2 s1 = (true, s2) ->
    exists text,
      extracted_text w1 loc = Some text
      /\ List.length (scr_concepts (knowledge_base s1))
         = List.length (scr_concepts (knowledge_base s0))
           + List.length
               (accepted_writes w1 (S (store_calls (trace s0)))
                  (flat_map (fun _ => mods) (accepted_candidates text)))
      /\ List.length (scr_concepts (knowledge_base s2))
         = List.length (scr_concepts (knowledge_base s1))
           + List.length
               (accepted_writes w2 (S (store_calls (trace s1)))
                  (flat_map (fun _ => mods) (accepted_candidates text)))
      /\ (store_sound w1 ->
          List.length (scr_concepts (knowledge_base s1))
          = List.length (scr_concepts (knowledge_base s0))
            + List.length (accepted_candidates text) * List.length mods)
      /\ (store_sound w2 ->
          List.length (scr_concepts (knowledge_base s2))
          = List.length (scr_concepts (knowledge_base s1))
            + List.length (accepted_candidates text) * List.length mods).
Proof.
  assert (One : forall w loc ty mods md s s',
             add_document_source w loc ty mods md s = (true, s') ->
             exists text,
               extracted_text w loc = Some text
               /\ List.length (scr_concepts (knowledge_base s'))
                  = List.length (scr_concepts (knowledge_base s))
                    + List.length
                        (accepted_writes w (S (store_calls (trace s)))
                           (flat_map (fun _ => mods) (accepted_candidates text)))).
  { intros w loc ty mods md s s' H.
    rewrite OutcomeFacts.add_document_source_outcome in H.
    assert (Hx := IngestMore.extracted_text_cases w loc).
    destruct (create_parser loc) as [p|e]; [|discriminate].
    destruct (extract_content p w loc) as [cd|e]; [|discriminate].
    destruct (String.eqb (text_content cd) EmptyString); [discriminate|].
    destruct (built_document w loc ty mods md cd) as [d|e] eqn:Eb; [|discriminate].
    destruct (write_succeeds w (store_calls (trace s))); [|discriminate].
    injection H as <-.
    match goal with
    | |- context [_auto_extract_concepts ?n ?dd ?c ?st] =>
        destruct (IngestMore.mined_state n dd c st) as [_ [_ Hl]]
    end.
    apply IngestMore.built_document_fields in Eb.
    destruct Eb as [name [_ [_ [_ [_ [_ [Fmo _]]]]]]].
    exists (text_content cd). split; [exact Hx|].
    rewrite Hl, Fmo, IngestMore.written_store_calls; [reflexivity|].
    apply IngestMore.calls_quiet. }
  intros w1 w2 loc ty mods md1 md2 s0 s1 s2 Ht H1 H2.
  destruct (One _ _ _ _ _ _ _ H1) as [t1 [T1 L1]].
  destruct (One _ _ _ _ _ _ _ H2) as [t2 [T2 L2]].
  assert (t2 = t1) by congruence. subst t2.
  exists t1. split; [exact T1|]. split; [exact L1|]. split; [exact L2|].
  split; intros Hs.
  - rewrite L1, (MinerFacts.accepted_writes_all _ _ Hs),
      IngestMore.length_flat_map_const. reflexivity.
  - rewrite L2, (MinerFacts.accepted_writes_all _ _ Hs),
      IngestMore.length_flat_map_const. reflexivity.
Qed.

Lemma reingestion_repeats_concepts_witness :
  exists text,
    extracted_text (note_site 5%Z) "https://www.eiopa.europa.eu/note" = Some text
    /\ List.length
         (scr_concepts
            (knowledge_base
               (snd (add_document_source (note_site 5%Z) "https://www.eiopa.europa.eu/note"
                       EIOPA_GUIDELINES [SPREAD; EQUITY] curated initial_state))))
       = List.length (scr_concepts (knowledge_base initial_state))
         + List.length
             (accepted_writes (note_site 5%Z) (S (store_calls (trace initial_state)))
                (flat_map (fun _ => [SPREAD; EQUITY]) (accepted_candidates text)))
    /\ List.length
         (scr_concepts
            (knowledge_base
               (snd (add_document_source (note_site 9%Z) "https://www.eiopa.europa.eu/note"
                       EIOPA_GUIDELINES [SPREAD; EQUITY] no_overrides
                       (snd (add_document_source (note_site 5%Z)
                               "https://www.eiopa.europa.eu/note" EIOPA_GUIDELINES
                               [SPREAD; EQUITY] curated initial_state))))))
       = List.length
           (scr_concepts
              (knowledge_base
                 (snd (add_document_source (note_site 5%Z)
                         "https://www.eiopa.europa.eu/note" EIOPA_GUIDELINES
                         [SPREAD; EQUITY] curated initial_state))))
         + List.length
             (accepted_writes (note_site 9%Z)
                (S (store_calls
                      (trace (snd (add_document_source (note_site 5%Z)
                                     "https://www.eiopa.europa.eu/note" EIOPA_GUIDELINES
                                     [SPREAD; EQUITY] curated initial_state)))))
                (flat_map (fun _ => [SPREAD; EQUITY]) (accepted_candidates text)))
    /\ (store_sound (note_site 5%Z) ->
        List.length
          (scr_concepts
             (knowledge_base
                (snd (add_document_source (note_site 5%Z) "https://www.eiopa.europa.eu/note"
                        EIOPA_GUIDELINES [SPREAD; EQUITY] curated initial_state))))
        = List.length (scr_concepts (knowledge_base initial_state))
          + List.length (accepted_candidates text) * List.length [SPREAD; EQUITY])
    /\ (store_sound (note_site 9%Z) ->
        List.length
          (scr_concepts
             (knowledge_base
                (snd (add_document_source (note_site 9%Z) "https://www.eiopa.europa.eu/note"
                        EIOPA_GUIDELINES [SPREAD; EQUITY] no_overrides
                        (snd (add_document_source (note_site 5%Z)
                                "https://www.eiopa.europa.eu/note" EIOPA_GUIDELINES
                                [SPREAD; EQUITY] curated initial_state))))))
        = List.length
            (scr_concepts
               (knowledge_base
                  (snd (add_document_source (note_site 5%Z)
                          "https://www.eiopa.europa.eu/note" EIOPA_GUIDELINES
                          [SPREAD; EQUITY] curated initial_state))))
          + List.length (accepted_candidates text) * List.length [SPREAD; EQUITY]).
Proof.
  apply (reingestion_repeats_concepts (note_site 5%Z) (note_site 9%Z)
           "https://www.eiopa.europa.eu/note" EIOPA_GUIDELINES [SPREAD; EQUITY]
           curated no_overrides initial_state).
  - vm_compute. reflexivity.
  - vm_compute. reflexivity.
  - vm_compute. reflexivity.
Defined.

Import ModelOps DatabaseOps StoreSpec StoreSamples.

(** ** The collections of the entities *)

Module CollectionFacts.

Lemma SCRModule_eqb_eq (a b : SCRModule) : SCRModule_eqb a b = true <-> a = b.
Proof. destruct a, b; vm_compute; split; congruence. Qed.

Lemma existsb_module_In (m : SCRModule) (l : list SCRModule) :
  existsb (SCRModule_eqb m) l = true <-> In m l.
Proof.
  rewrite existsb_exists. split.
  - intros [x [Hx E]]. apply SCRModule_eqb_eq in E. subst. exact Hx.
  - intros H. exists m. split; [exact H | apply SCRModule_eqb_eq; reflexivity].
Qed.

Lemma NoDup_snoc {A : Type} (l : list A) (a : A) : NoDup l -> ~ In a l -> NoDup (l ++ [a]).
Proof.
  intros H Hn. induction H as [|y t Hy Ht IH]; simpl.
  - constructor; [intros [] | constructor].
  - constructor.
    + rewrite in_app_iff. simpl. intros [H1 | [H1 | []]]; [tauto|].
      subst. apply Hn. left. reflexivity.
    + apply IH. intros H1. apply Hn. right. exact H1.
Qed.

Lemma mem_str_false (a : string) (l : list string) : mem_str a l = false <-> ~ In a l.
Proof.
  rewrite <- ArticleFacts.mem_str_In. destruct (mem_str a l); split; congruence.
Qed.

End CollectionFacts.

(** X7: [add_regulatory_article] and [add_scr_module] keep the lists of
    a document free of repetition: the value is a member afterwards, a
    list without repetition stays so, and a second call with the same
    value changes nothing. *)
Theorem document_lists_stay_sets :
  forall (d : DocumentSource) (a : string) (m : SCRModule),
    NoDup (regulatory_articles d) ->
    NoDup (Models.scr_modules d) ->
    In a (regulatory_articles (add_regulatory_article d a))
    /\ NoDup (regulatory_articles (add_regulatory_article d a))
    /\ add_regulatory_article (add_regulatory_article d a) a = add_regulatory_article d a
    /\ In m (Models.scr_modules (add_scr_module d m))
    /\ NoDup (Models.scr_modules (add_scr_module d m))
    /\ add_scr_module (add_scr_module d m) m = add_scr_module d m.
Proof.
  intros d a m Ha Hm.
  assert (A : In a (regulatory_articles (add_regulatory_article d a))
              /\ NoDup (regulatory_articles (add_regulatory_article d a))).
  { unfold add_regulatory_article.
    destruct (mem_str a (regulatory_articles d)) eqn:E; simpl.
    - split; [apply ArticleFacts.mem_str_In, E | exact Ha].
    - split; [apply in_app_iff; right; left; reflexivity|].
      apply CollectionFacts.NoDup_snoc; [exact Ha | apply CollectionFacts.mem_str_false, E]. }
  assert (M : In m (Models.scr_modules (add_scr_module d m))
              /\ NoDup (Models.scr_modules (add_scr_module d m))).
  { unfold add_scr_module.
    destruct (existsb (SCRModule_eqb m) (Models.scr_modules d)) eqn:E; simpl.
    - split; [apply CollectionFacts.existsb_module_In, E | exact Hm].
    - split; [apply in_app_iff; right; left; reflexivity|].
      apply CollectionFacts.NoDup_snoc; [exact Hm|].
      intros Hin. apply CollectionFacts.existsb_module_In in Hin. congruence. }
  destruct A as [A1 A2], M as [M1 M2].
  repeat split; try assumption.
  - unfold add_regulatory_article at 1.
    apply ArticleFacts.mem_str_In in A1. rewrite A1. reflexivity.
  - unfold add_scr_module at 1.
    apply CollectionFacts.existsb_module_In in M1. rewrite M1. reflexivity.
Qed.

Lemma document_lists_stay_sets_witness :
  In "182" (regulatory_articles (add_regulatory_article delegated_regulation "182"))
  /\ NoDup (regulatory_articles (add_regulatory_article delegated_regulation "182"))
  /\ add_regulatory_article (add_regulatory_article delegated_regulation "182") "182"
     = add_regulatory_article delegated_regulation "182"
  /\ In SPREAD (Models.scr_modules (add_scr_module delegated_regulation SPREAD))
  /\ NoDup (Models.scr_modules (add_scr_module delegated_regulation SPREAD))
  /\ add_scr_module (add_scr_module delegated_regulation SPREAD) SPREAD
     = add_scr_module delegated_regulation SPREAD.
Proof.
  apply (document_lists_stay_sets delegated_regulation "182" SPREAD).
  - simpl. repeat constructor; simpl; intuition discriminate.
  - simpl. repeat constructor; simpl; intuition discriminate.
Defined.

(** X8: for an example that is not blank and has no blank at either end,
    [add_example] behaves as a set insertion: the example is a member
    afterwards, a list without repetition stays so, and adding it again
    changes nothing; a blank example is ignored. *)
Theorem add_example_stripped_is_set_insert :
  forall (t1 t2 : datetime) (c : SCRConcept) (e : string),
    strip e = e -> e <> EmptyString -> NoDup (examples c) ->
    In e (examples (add_example t1 c e))
    /\ NoDup (examples (add_example t1 c e))
    /\ add_example t2 (add_example t1 c e) e = add_example t1 c e
    /\ (forall blank, strip blank = EmptyString -> add_example t1 c blank = c).
Proof.
  intros t1 t2 c e Hs Hne Hnd.
  assert (Hb : negb (String.eqb (strip e) EmptyString) = true).
  { rewrite Hs. apply negb_true_iff, String.eqb_neq, Hne. }
  assert (A : In e (examples (add_example t1 c e))
              /\ NoDup (examples (add_example t1 c e))).
  { unfold add_example. rewrite Hb, Hs.
    destruct (mem_str e (examples c)) eqn:E; simpl.
    - split; [apply ArticleFacts.mem_str_In, E | exact Hnd].
    - split; [apply in_app_iff; right; left; reflexivity|].
      apply CollectionFacts.NoDup_snoc; [exact Hnd | apply CollectionFacts.mem_str_false, E]. }
  destruct A as [A1 A2]. repeat split; try assumption.
  - unfold add_example at 1. apply ArticleFacts.mem_str_In in A1.
    rewrite A1, andb_false_r. reflexivity.
  - intros blank Hbl. unfold add_example. rewrite Hbl. reflexivity.
Qed.

Lemma add_example_stripped_is_set_insert_witness :
  In "AAA 10 ans" (examples (add_example 5%Z stress_factor "AAA 10 ans"))
  /\ NoDup (examples (add_example 5%Z stress_factor "AAA 10 ans"))
  /\ add_example 6%Z (add_example 5%Z stress_factor "AAA 10 ans") "AAA 10 ans"
     = add_example 5%Z stress_factor "AAA 10 ans"
  /\ (forall blank, strip blank = EmptyString -> add_example 5%Z stress_factor blank
                                                 = stress_factor).
Proof.
  apply (add_example_stripped_is_set_insert 5%Z 6%Z stress_factor "AAA 10 ans").
  - reflexivity.
  - discriminate.
  - simpl. repeat constructor; simpl; intuition discriminate.
Defined.

(** X9: for a tag already in stored form (stripped and lower-case, not
    empty), [add_tag] behaves as a set insertion: the tag is a member
    afterwards, a list without repetition stays so, and adding it again
    changes nothing. *)
Theorem add_tag_normalised_is_set_insert :
  forall (c : SCRConcept) (t : string),
    lower (strip t) = t -> t <> EmptyString -> NoDup (tags c) ->
    In t (tags (add_tag c t))
    /\ NoDup (tags (add_tag c t))
    /\ add_tag (add_tag c t) t = add_tag c t.
Proof.
  intros c t Hn Hne Hnd.
  assert (Hb : negb (String.eqb (strip t) EmptyString) = true).
  { apply negb_true_iff, String.eqb_neq. intros E. rewrite E in Hn. simpl in Hn. congruence. }
  assert (A : In t (tags (add_tag c t)) /\ NoDup (tags (add_tag c t))).
  { unfold add_tag. rewrite Hb, Hn.
    destruct (mem_str t (tags c)) eqn:E; simpl.
    - split; [apply ArticleFacts.mem_str_In, E | exact Hnd].
    - split; [apply in_app_iff; right; left; reflexivity|].
      apply CollectionFacts.NoDup_snoc; [exact Hnd | apply CollectionFacts.mem_str_false, E]. }
  destruct A as [A1 A2]. repeat split; try assumption.
  unfold add_tag at 1. apply ArticleFacts.mem_str_In in A1.
  rewrite A1, andb_false_r. reflexivity.
Qed.

Lemma add_tag_normalised_is_set_insert_witness :
  In "duration" (tags (add_tag stress_factor "duration"))
  /\ NoDup (tags (add_tag stress_factor "duration"))
  /\ add_tag (add_tag stress_factor "duration") "duration" = add_tag stress_factor "duration".
Proof.
  apply (add_tag_normalised_is_set_insert stress_factor "duration").
  - reflexivity.
  - discriminate.
  - simpl. repeat constructor; simpl; intuition discriminate.
Defined.

(** ** The order of binary64 numbers *)

Module FloatOrder.

Ltac split_compare :=
  repeat match goal with
  | |- context [(?a ?= ?b)%Z] => destruct (Z.compare_spec a b); subst
  | H : context [(?a ?= ?b)%Z] |- _ => destruct (Z.compare_spec a b); subst
  | |- context [(?a ?= ?b)%positive] => destruct (Pos.compare_spec a b); subst
  | H : context [(?a ?= ?b)%positive] |- _ => destruct (Pos.compare_spec a b); subst
  end.

Ltac order_cases x y z :=
  destruct x as [[|]|[|]| |[|] ? ?], y as [[|]|[|]| |[|] ? ?], z as [[|]|[|]| |[|] ? ?];
  simpl; try congruence;
  repeat match goal with
         | |- context [Pos.compare_cont Eq ?a ?b] =>
             change (Pos.compare_cont Eq a b) with (Pos.compare a b)
         end;
  intros; split_compare; simpl in *; try congruence; try lia.

Lemma SFcompare_Lt_trans (x y z : spec_float) :
  SFcompare x y = Some Lt -> SFcompare y z = Some Lt -> SFcompare x z = Some Lt.
Proof. order_cases x y z. Qed.

Lemma SFcompare_Lt_Eq (x y z : spec_float) :
  SFcompare x y = Some Lt -> SFcompare y z = Some Eq -> SFcompare x z = Some Lt.
Proof. order_cases x y z. Qed.

Lemma SFcompare_Eq_Lt (x y z : spec_float) :
  SFcompare x y = Some Eq -> SFcompare y z = Some Lt -> SFcompare x z = Some Lt.
Proof. order_cases x y z. Qed.

Lemma SFcompare_Eq_trans (x y z : spec_float) :
  SFcompare x y = Some Eq -> SFcompare y z = Some Eq -> SFcompare x z = Some Eq.
Proof. order_cases x y z. Qed.

Lemma SFcompare_not_Lt_refl (x : spec_float) : SFcompare x x <> Some Lt.
Proof.
  destruct x as [[|]|[|]| |[|] m e]; simpl; try congruence;
    rewrite Z.compare_refl;
    change (Pos.compare_cont Eq m m) with (Pos.compare m m);
    rewrite Pos.compare_refl; simpl; congruence.
Qed.

Lemma ltb_Lt (x y : float) :
  PrimFloat.ltb x y = true <-> SFcompare (Prim2SF x) (Prim2SF y) = Some Lt.
Proof.
  rewrite ltb_spec. unfold SFltb.
  destruct (SFcompare (Prim2SF x) (Prim2SF y)) as [[| |]|]; split; congruence.
Qed.

Lemma eqb_Eq (x y : float) :
  PrimFloat.eqb x y = true <-> SFcompare (Prim2SF x) (Prim2SF y) = Some Eq.
Proof.
  rewrite eqb_spec. unfold SFeqb.
  destruct (SFcompare (Prim2SF x) (Prim2SF y)) as [[| |]|]; split; congruence.
Qed.

Lemma ltb_irrefl (x : float) : PrimFloat.ltb x x = false.
Proof.
  destruct (PrimFloat.ltb x x) eqn:E; [|reflexivity].
  apply ltb_Lt in E. exfalso. exact (SFcompare_not_Lt_refl _ E).
Qed.

Lemma ltb_trans (x y z : float) :
  PrimFloat.ltb x y = true -> PrimFloat.ltb y z = true -> PrimFloat.ltb x z = true.
Proof. rewrite !ltb_Lt. apply SFcompare_Lt_trans. Qed.

Lemma ltb_eqb (x y z : float) :
  PrimFloat.ltb x y = true -> PrimFloat.eqb y z = true -> PrimFloat.ltb x z = true.
Proof. rewrite !ltb_Lt, eqb_Eq. apply SFcompare_Lt_Eq. Qed.

Lemma eqb_ltb (x y z : float) :
  PrimFloat.eqb x y = true -> PrimFloat.ltb y z = true -> PrimFloat.ltb x z = true.
Proof. rewrite !ltb_Lt, eqb_Eq. apply SFcompare_Eq_Lt. Qed.

Lemma eqb_trans (x y z : float) :
  PrimFloat.eqb x y = true -> PrimFloat.eqb y z = true -> PrimFloat.eqb x z = true.
Proof. rewrite !eqb_Eq. apply SFcompare_Eq_trans. Qed.

End FloatOrder.

(** ** Reading documents back *)

Module ReadFacts.

Lemma row_to_document_invalid (r : DocRow) (x : float) :
  row_reliability_score r = Some x ->
  in_unit_interval x = false ->
  _row_to_document_source r = Raise (ValueError msg_reliability).
Proof.
  intros E H. unfold _row_to_document_source, DocumentSource_new. rewrite E, H. reflexivity.
Qed.

Lemma row_to_document_null (r : DocRow) :
  row_reliability_score r = None ->
  _row_to_document_source r = Raise (OtherError msg_none_score).
Proof. intros E. unfold _row_to_document_source. rewrite E. reflexivity. Qed.

Lemma row_to_document_error (r : DocRow) (e : exc) :
  _row_to_document_source r = Raise e -> read_error e.
Proof.
  unfold _row_to_document_source, DocumentSource_new, read_error.
  destruct (row_reliability_score r) as [x|]; [|intros H; right; congruence].
  destruct (negb (in_unit_interval x)); [intros H; left; congruence | discriminate].
Qed.

Lemma row_to_document_fields (r : DocRow) (d : DocumentSource) :
  _row_to_document_source r = Ok d ->
  id d = row_id r
  /\ row_reliability_score r = Some (reliability_score d)
  /\ publication_date d = row_publication_date r
  /\ Models.scr_modules d = row_scr_modules r.
Proof.
  unfold _row_to_document_source, DocumentSource_new.
  destruct (row_reliability_score r) as [x|]; [|discriminate].
  destruct (negb (in_unit_interval x)); [discriminate|].
  intros H. injection H as <-. repeat split.
Qed.

Lemma res_map_Forall2 {A B : Type} (f : A -> res B) (l : list A) (ys : list B) :
  res_map f l = Ok ys -> Forall2 (fun x y => f x = Ok y) l ys.
Proof.
  revert ys. induction l as [|x t IH]; intros ys; simpl.
  - intros H. injection H as <-. constructor.
  - destruct (f x) as [y|e] eqn:E; simpl; [|discriminate].
    destruct (res_map f t) as [ys'|e]; simpl; [|discriminate].
    intros H. injection H as <-. constructor; [exact E | apply IH; reflexivity].
Qed.

Lemma res_map_firstn {A B : Type} (f : A -> res B) (n : nat) (l : list A) (ys : list B) :
  res_map f l = Ok ys -> res_map f (firstn n l) = Ok (firstn n ys).
Proof.
  revert l ys. induction n as [|n IH]; intros l ys; [reflexivity|].
  destruct l as [|x t]; simpl.
  - intros H. injection H as <-. reflexivity.
  - destruct (f x) as [y|e]; simpl; [|discriminate].
    destruct (res_map f t) as [ys'|e] eqn:E; simpl; [|discriminate].
    intros H. injection H as <-. simpl. rewrite (IH t ys' E). reflexivity.
Qed.

Lemma res_map_raise {A B : Type} (f : A -> res B) (P : exc -> Prop) (l : list A) (x : A)
    (e0 : exc) :
  (forall y e, f y = Raise e -> P e) ->
  In x l -> f x = Raise e0 -> exists e, res_map f l = Raise e /\ P e.
Proof.
  intros Hall. induction l as [|y t IH]; intros Hin Hx; [destruct Hin|].
  simpl. destruct (f y) as [v|e] eqn:E; simpl.
  - destruct Hin as [-> | Hin]; [congruence|].
    destruct (IH Hin Hx) as [e [He Pe]]. rewrite He. exists e. split; [reflexivity | exact Pe].
  - exists e. split; [reflexivity | exact (Hall y e E)].
Qed.

(** *** [LIKE] with a pattern between two [%] *)

Lemma like_all (t : string) : like "%" t = true.
Proof.
  induction t as [|c t IH]; [reflexivity|].
  simpl in *. exact IH.
Qed.

Lemma like_literal (v post : string) :
  no_percent v = true -> like (v ++ "%") (v ++ post) = true.
Proof.
  unfold no_percent. induction v as [|p v IH]; intros H.
  - apply like_all.
  - simpl in H. apply andb_true_iff in H. destruct H as [Hp Hv].
    apply negb_true_iff in Hp.
    change (like (String p (v ++ "%")) (String p (v ++ post)) = true).
    simpl. rewrite Hp, Ascii.eqb_refl, orb_true_r. simpl. apply IH, Hv.
Qed.

Lemma like_inside (q pre t : string) :
  like q t = true -> like (String "%" q) (pre ++ t) = true.
Proof.
  intros H. induction pre as [|c pre IH].
  - simpl. destruct t; simpl; rewrite H; reflexivity.
  - change (like (String "%" q) (String c (pre ++ t)) = true).
    simpl. simpl in IH. rewrite IH. apply orb_true_r.
Qed.

Lemma like_contains (v pre post : string) :
  no_percent v = true ->
  like ("%" ++ v ++ "%") (pre ++ v ++ post) = true.
Proof. intros H. apply like_inside, like_literal, H. Qed.

Lemma json_items_contains (v : string) (l : list string) :
  In v l -> exists pre post, json_items l = (pre ++ v ++ post)%string.
Proof.
  induction l as [|x t IH]; intros H; [destruct H|].
  destruct H as [-> | H].
  - destruct t as [|y t].
    + exists (str1 34), (str1 34). reflexivity.
    + exists (str1 34), (str1 34 ++ ", " ++ json_items (y :: t))%string.
      change (json_items (v :: y :: t))
        with (quoted v ++ ", " ++ json_items (y :: t))%string.
      unfold quoted. rewrite !StripFacts.append_assoc. reflexivity.
  - destruct (IH H) as [pre [post E]].
    destruct t as [|y t]; [destruct H|].
    exists (quoted x ++ ", " ++ pre)%string, post.
    change (json_items (x :: y :: t))
      with (quoted x ++ ", " ++ json_items (y :: t))%string.
    rewrite E, !StripFacts.append_assoc. reflexivity.
Qed.

Lemma module_value_no_percent (m : SCRModule) : no_percent (SCRModule_value m) = true.
Proof. destruct m; reflexivity. Qed.

(** The [LIKE] test never misses a module that is in the list. *)
Lemma like_module_complete (m : SCRModule) (mods : list SCRModule) :
  In m mods ->
  like ("%" ++ SCRModule_value m ++ "%") (json_dumps_modules mods) = true.
Proof.
  intros H. unfold json_dumps_modules.
  destruct (json_items_contains (SCRModule_value m) (map SCRModule_value mods)
              (in_map _ _ _ H)) as [pre [post E]].
  rewrite E.
  replace ("[" ++ (pre ++ SCRModule_value m ++ post) ++ "]")%string
    with (("[" ++ pre) ++ SCRModule_value m ++ (post ++ "]"))%string
    by (rewrite !StripFacts.append_assoc; reflexivity).
  apply like_contains, module_value_no_percent.
Qed.

(** *** The order of the rows *)

Lemma date_gtb_irrefl (a : option date) : date_gtb a a = false.
Proof. destruct a; simpl; [apply Z.ltb_irrefl | reflexivity]. Qed.

Lemma date_gtb_trans (a b c : option date) :
  date_gtb a b = true -> date_gtb b c = true -> date_gtb a c = true.
Proof.
  destruct a, b, c; simpl; try congruence.
  rewrite !Z.ltb_lt. lia.
Qed.

Lemma real_ltb_irrefl (a : option float) : real_ltb a a = false.
Proof. destruct a; simpl; [apply FloatOrder.ltb_irrefl | reflexivity]. Qed.

Lemma real_ltb_trans (a b c : option float) :
  real_ltb a b = true -> real_ltb b c = true -> real_ltb a c = true.
Proof.
  destruct a, b, c; simpl; try congruence. apply FloatOrder.ltb_trans.
Qed.

Lemma real_eqb_sym (a b : option float) : real_eqb a b = true -> real_eqb b a = true.
Proof.
  destruct a, b; simpl; try congruence. rewrite FloatMore.eqb_sym. tauto.
Qed.

Lemma real_ltb_eqb (a b c : option float) :
  real_ltb a b = true -> real_eqb b c = true -> real_ltb a c = true.
Proof.
  destruct a, b, c; simpl; try congruence. apply FloatOrder.ltb_eqb.
Qed.

Lemma real_eqb_ltb (a b c : option float) :
  real_eqb a b = true -> real_ltb b c = true -> real_ltb a c = true.
Proof.
  destruct a, b, c; simpl; try congruence. apply FloatOrder.eqb_ltb.
Qed.

Lemma real_eqb_trans (a b c : option float) :
  real_eqb a b = true -> real_eqb b c = true -> real_eqb a c = true.
Proof.
  destruct a, b, c; simpl; try congruence. apply FloatOrder.eqb_trans.
Qed.

Lemma row_before_irrefl (a : DocRow) : row_before a a = false.
Proof.
  unfold row_before. rewrite real_ltb_irrefl, date_gtb_irrefl, andb_false_r.
  reflexivity.
Qed.

Lemma row_before_trans (a b c : DocRow) :
  row_before a b = true -> row_before b c = true -> row_before a c = true.
Proof.
  unfold row_before. intros H1 H2.
  apply orb_true_iff in H1. apply orb_true_iff in H2. apply orb_true_iff.
  destruct H1 as [L1 | E1], H2 as [L2 | E2].
  - left. exact (real_ltb_trans _ _ _ L2 L1).
  - apply andb_true_iff in E2. destruct E2 as [E2 _].
    left. exact (real_eqb_ltb _ _ _ (real_eqb_sym _ _ E2) L1).
  - apply andb_true_iff in E1. destruct E1 as [E1 _].
    left. exact (real_ltb_eqb _ _ _ L2 (real_eqb_sym _ _ E1)).
  - apply andb_true_iff in E1. apply andb_true_iff in E2.
    destruct E1 as [E1 D1], E2 as [E2 D2]. right. apply andb_true_iff. split.
    + exact (real_eqb_trans _ _ _ E1 E2).
    + exact (date_gtb_trans _ _ _ D1 D2).
Qed.

Lemma In_firstn {A : Type} (n : nat) (l : list A) (y : A) :
  In y (firstn n l) -> In y l.
Proof.
  revert l. induction n as [|n IH]; intros l H; [destruct H|].
  destruct l as [|x t]; [destruct H|].
  destruct H as [H | H]; [left; exact H | right; apply IH, H].
Qed.

Lemma StronglySorted_firstn {A : Type} (R : A -> A -> Prop) (n : nat) (l : list A) :
  StronglySorted R l -> StronglySorted R (firstn n l).
Proof.
  revert l. induction n as [|n IH]; intros l H; [constructor|].
  destruct l as [|x t]; [constructor|].
  inversion H; subst. simpl. constructor; [apply IH; assumption|].
  rewrite Forall_forall in *. intros y Hy. apply H3.
  exact (In_firstn _ _ _ Hy).
Qed.

Lemma StronglySorted_Forall2 {A B : Type} (R : A -> A -> Prop) (S : B -> B -> Prop)
    (P : A -> B -> Prop) (l : list A) (l' : list B) :
  (forall a a' b b', P a b -> P a' b' -> R a a' -> S b b') ->
  Forall2 P l l' -> StronglySorted R l -> StronglySorted S l'.
Proof.
  intros HP HF. induction HF as [|a b l l' Hab HF IH]; intros Hs; [constructor|].
  inversion Hs; subst. constructor; [apply IH; assumption|].
  clear IH Hs H1. induction HF as [|a' b' l l' Hab' HF IH']; [constructor|].
  inversion H2; subst. constructor; [exact (HP _ _ _ _ Hab Hab' H1) | apply IH'; assumption].
Qed.

End ReadFacts.

(** ** The table of documents *)

Module KeyFacts.

Lemma ids_of_filter (i : string) (rows : list DocRow) :
  ~ In i (map row_id (filter (fun x => negb (String.eqb (row_id x) i)) rows)).
Proof.
  induction rows as [|r t IH]; simpl; [tauto|].
  destruct (String.eqb_spec (row_id r) i) as [E | E]; simpl; [exact IH|].
  intros [H | H]; [contradiction | exact (IH H)].
Qed.

Lemma NoDup_ids_filter (f : DocRow -> bool) (rows : list DocRow) :
  NoDup (map row_id rows) -> NoDup (map row_id (filter f rows)).
Proof.
  induction rows as [|r t IH]; simpl; intros H; [constructor|].
  inversion H as [|? ? Hn Hd]; subst.
  destruct (f r); simpl; [|apply IH, Hd].
  constructor; [|apply IH, Hd].
  intros Hin. apply Hn. apply in_map_iff in Hin. destruct Hin as [x [Ex Hx]].
  apply filter_In in Hx. apply in_map_iff. exists x. tauto.
Qed.

Lemma insert_or_replace_NoDup (r : DocRow) (rows : list DocRow) :
  NoDup (map row_id rows) -> NoDup (map row_id (insert_or_replace r rows)).
Proof.
  intros H. unfold insert_or_replace. rewrite map_app. simpl.
  apply CollectionFacts.NoDup_snoc; [apply NoDup_ids_filter, H | apply ids_of_filter].
Qed.

Lemma rows_with_id_le_one (i : string) (rows : list DocRow) :
  NoDup (map row_id rows) -> rows_with_id i rows <= 1.
Proof.
  unfold rows_with_id. induction rows as [|r t IH]; simpl; intros H; [lia|].
  inversion H as [|? ? Hn Hd]; subst.
  destruct (String.eqb_spec (row_id r) i) as [E | E]; simpl; [|apply IH, Hd].
  assert (Z0 : List.length (filter (fun r0 => String.eqb (row_id r0) i) t) = 0).
  { destruct (filter (fun r0 => String.eqb (row_id r0) i) t) as [|x l] eqn:F; [reflexivity|].
    exfalso. apply Hn. assert (Hx : In x (filter (fun r0 => String.eqb (row_id r0) i) t))
      by (rewrite F; left; reflexivity).
    apply filter_In in Hx. destruct Hx as [Hx1 Hx2]. apply String.eqb_eq in Hx2.
    apply in_map_iff. exists x. split; [congruence | exact Hx1]. }
  rewrite Z0. lia.
Qed.

End KeyFacts.

(** X10: when [add_document] returns [True] for a document with a
    valid score and a supported language, [get_document_by_id] reads it
    back under its id with every field but two: [metadata], which is not
    stored, comes back empty, and a score that is a zero comes back as
    +0.0, whatever its sign was. *)
Theorem document_round_trip :
  forall (written : bool) (kb : SCRKnowledgeBase) (d : DocumentSource),
    in_unit_interval (reliability_score d) = true ->
    mem_str (language d) supported_languages = true ->
    fst (add_document written kb d) = true ->
    get_document_by_id (snd (add_document written kb d)) (id d) = Ok (Some (as_stored d)).
Proof.
  intros written kb d Hs Hl Hw.
  destruct written; [|discriminate Hw].
  unfold get_document_by_id, add_document. simpl.
  change (find (fun r => String.eqb (row_id r) (id d))
               (insert_or_replace (row_of_document d) (documents kb)))
    with (find_row (row_id (row_of_document d))
                   (insert_or_replace (row_of_document d) (documents kb))).
  rewrite StoreFacts.find_row_written.
  unfold _row_to_document_source, row_of_document, sql_real, as_stored.
  cbn [row_reliability_score].
  rewrite (FloatMore.unit_interval_not_nan _ Hs).
  assert (Hv : in_unit_interval
                 (if PrimFloat.is_zero (reliability_score d) then 0%float
                  else reliability_score d) = true).
  { destruct (PrimFloat.is_zero (reliability_score d)); [reflexivity | exact Hs]. }
  destruct (PrimFloat.is_zero (reliability_score d));
    unfold DocumentSource_new; cbn -[in_unit_interval mem_str supported_languages];
    rewrite Hv, Hl; reflexivity.
Qed.

Lemma document_round_trip_witness :
  get_document_by_id (snd (add_document true small_kb negative_zero)) (id negative_zero)
  = Ok (Some (as_stored negative_zero)).
Proof.
  apply (document_round_trip true small_kb negative_zero); reflexivity.
Defined.

(** X11: [add_document] touches one key only, and nothing when the
    write is not carried out: lookups under any other id and the table
    of concepts are as before; the ids of the table stay pairwise
    distinct; when it returns [True] the number of documents grows by
    one if the id was absent and is unchanged if it was present; when it
    returns [False] the knowledge base is as before. *)
Theorem add_document_touches_one_key :
  forall (written : bool) (kb : SCRKnowledgeBase) (d : DocumentSource) (other : string),
    document_ids_ok kb ->
    other <> id d ->
    get_document_by_id (snd (add_document written kb d)) other = get_document_by_id kb other
    /\ scr_concepts (snd (add_document written kb d)) = scr_concepts kb
    /\ document_ids_ok (snd (add_document written kb d))
    /\ (fst (add_document written kb d) = true ->
        total_documents (snd (add_document written kb d))
        = match find_row (id d) (documents kb) with
          | Some _ => total_documents kb
          | None => S (total_documents kb)
          end)
    /\ (fst (add_document written kb d) = false -> snd (add_document written kb d) = kb).
Proof.
  intros written kb d other Hok Hne.
  destruct written.
  2:{ unfold add_document. simpl. repeat split; try assumption; try reflexivity.
      discriminate. }
  unfold add_document, document_ids_ok in *. simpl.
  split; [|split; [reflexivity | split; [|split; [|discriminate]]]].
  - unfold get_document_by_id. simpl.
    change (find (fun r => String.eqb (row_id r) other)
                 (insert_or_replace (row_of_document d) (documents kb)))
      with (find_row other (insert_or_replace (row_of_document d) (documents kb))).
    rewrite StoreFacts.find_row_other by exact Hne. reflexivity.
  - apply KeyFacts.insert_or_replace_NoDup, Hok.
  - intros _.
    unfold total_documents, insert_or_replace. simpl. rewrite length_app. simpl.
    assert (P := StoreFacts.length_partition (id d) (documents kb)).
    assert (L := KeyFacts.rows_with_id_le_one (id d) (documents kb) Hok).
    unfold find_row. unfold rows_with_id in *.
    destruct (find (fun r => String.eqb (row_id r) (id d)) (documents kb)) as [r|] eqn:F.
    + apply find_some in F.
      assert (Hin : In r (filter (fun r0 => String.eqb (row_id r0) (id d)) (documents kb)))
        by (apply filter_In; exact F).
      destruct (filter (fun r0 => String.eqb (row_id r0) (id d)) (documents kb));
        [destruct Hin | simpl in *; lia].
    + destruct (filter (fun r0 => String.eqb (row_id r0) (id d)) (documents kb))
        as [|x l] eqn:G; [simpl in *; lia|].
      exfalso. assert (Hx : In x (filter (fun r0 => String.eqb (row_id r0) (id d))
                                         (documents kb))) by (rewrite G; left; reflexivity).
      apply filter_In in Hx. destruct Hx as [Hx1 Hx2].
      rewrite (find_none _ _ F x Hx1) in Hx2. discriminate.
Qed.

Lemma add_document_touches_one_key_witness :
  (get_document_by_id (snd (add_document true small_kb orientations_a))
     "regulation_eu_non_vie_0a1b2c3d"
   = get_document_by_id small_kb "regulation_eu_non_vie_0a1b2c3d"
   /\ scr_concepts (snd (add_document true small_kb orientations_a)) = scr_concepts small_kb
   /\ document_ids_ok (snd (add_document true small_kb orientations_a))
   /\ (fst (add_document true small_kb orientations_a) = true ->
       total_documents (snd (add_document true small_kb orientations_a))
       = match find_row (id orientations_a) (documents small_kb) with
         | Some _ => total_documents small_kb
         | None => S (total_documents small_kb)
         end)
   /\ (fst (add_document true small_kb orientations_a) = false ->
       snd (add_document true small_kb orientations_a) = small_kb))
  /\ (get_document_by_id (snd (add_document false small_kb delegated_regulation))
        "regulation_eu_non_vie_0a1b2c3d"
      = get_document_by_id small_kb "regulation_eu_non_vie_0a1b2c3d"
      /\ scr_concepts (snd (add_document false small_kb delegated_regulation))
         = scr_concepts small_kb
      /\ document_ids_ok (snd (add_document false small_kb delegated_regulation))
      /\ (fst (add_document false small_kb delegated_regulation) = true ->
          total_documents (snd (add_document false small_kb delegated_regulation))
          = match find_row (id delegated_regulation) (documents small_kb) with
            | Some _ => total_documents small_kb
            | None => S (total_documents small_kb)
            end)
      /\ (fst (add_document false small_kb delegated_regulation) = false ->
          snd (add_document false small_kb delegated_regulation) = small_kb)).
Proof.
  split.
  - apply (add_document_touches_one_key true small_kb orientations_a
             "regulation_eu_non_vie_0a1b2c3d").
    + unfold document_ids_ok. simpl. repeat constructor; simpl; intuition discriminate.
    + discriminate.
  - apply (add_document_touches_one_key false small_kb delegated_regulation
             "regulation_eu_non_vie_0a1b2c3d").
    + unfold document_ids_ok. simpl. repeat constructor; simpl; intuition discriminate.
    + discriminate.
Defined.

(** X12: the store does not validate what it writes.  When
    [add_document] returns [True] for a document whose score has left
    [[0, 1]], the reads that meet its row raise: [get_document_by_id]
    under its id raises the [ValueError] of the constructor when the
    score is a number, and a [TypeError] when it is NaN, which the
    column keeps as NULL; the unlimited [get_documents_by_module] for
    each of its modules raises one of these two. *)
Theorem invalid_score_breaks_reads :
  forall (written : bool) (kb : SCRKnowledgeBase) (d : DocumentSource) (m : SCRModule),
    in_unit_interval (reliability_score d) = false ->
    In m (Models.scr_modules d) ->
    fst (add_document written kb d) = true ->
    get_document_by_id (snd (add_document written kb d)) (id d)
    = Raise (if PrimFloat.is_nan (reliability_score d)
             then OtherError msg_none_score
             else ValueError msg_reliability)
    /\ exists e,
         get_documents_by_module (snd (add_document written kb d)) m None = Raise e
         /\ read_error e.
Proof.
  intros written kb d m Hs Hm Hw. destruct written; [|discriminate Hw].
  assert (Hrow : _row_to_document_source (row_of_document d)
                 = Raise (if PrimFloat.is_nan (reliability_score d)
                          then OtherError msg_none_score
                          else ValueError msg_reliability)).
  { destruct (PrimFloat.is_nan (reliability_score d)) eqn:N.
    - apply ReadFacts.row_to_document_null. unfold row_of_document, sql_real. simpl.
      rewrite N. reflexivity.
    - destruct (PrimFloat.is_zero (reliability_score d)) eqn:Z.
      + exfalso. unfold in_unit_interval in Hs.
        apply andb_false_iff in Hs.
        unfold PrimFloat.is_zero in Z. apply FloatOrder.eqb_Eq in Z.
        destruct Hs as [Hs | Hs]; rewrite leb_spec in Hs; unfold SFleb in Hs.
        * rewrite FloatFacts.SFcompare_swap in Hs.
          change (Prim2SF PrimFloat.zero) with (Prim2SF 0%float) in Z.
          rewrite Z in Hs. discriminate Hs.
        * assert (L : SFcompare (Prim2SF (reliability_score d)) (Prim2SF 1%float)
                      = Some Lt).
          { apply (FloatOrder.SFcompare_Eq_Lt _ _ _ Z). vm_compute. reflexivity. }
          rewrite L in Hs. discriminate Hs.
      + apply (ReadFacts.row_to_document_invalid _ (reliability_score d)); [|exact Hs].
        unfold row_of_document, sql_real. simpl. rewrite N, Z. reflexivity. }
  split.
  - unfold get_document_by_id, add_document. simpl.
    change (find (fun r => String.eqb (row_id r) (id d))
                 (insert_or_replace (row_of_document d) (documents kb)))
      with (find_row (row_id (row_of_document d))
                     (insert_or_replace (row_of_document d) (documents kb))).
    rewrite StoreFacts.find_row_written, Hrow. reflexivity.
  - unfold get_documents_by_module.
    refine (ReadFacts.res_map_raise _ read_error _ (row_of_document d) _
              ReadFacts.row_to_document_error _ Hrow).
    apply (Permutation_in _ (Permutation_sym (SortFacts.sorted_by_perm row_before _))).
    unfold rows_like_module.
    apply filter_In. split.
    + unfold add_document, insert_or_replace. simpl.
      apply in_app_iff. right. left. reflexivity.
    + apply ReadFacts.like_module_complete. exact Hm.
Qed.

Lemma invalid_score_breaks_reads_witness :
  (get_document_by_id (snd (add_document true small_kb overrated_regulation))
     (id overrated_regulation)
   = Raise (if PrimFloat.is_nan (reliability_score overrated_regulation)
            then OtherError msg_none_score
            else ValueError msg_reliability)
   /\ exists e,
        get_documents_by_module (snd (add_document true small_kb overrated_regulation))
          SPREAD None = Raise e
        /\ read_error e)
  /\ (get_document_by_id (snd (add_document true small_kb not_a_number)) (id not_a_number)
      = Raise (if PrimFloat.is_nan (reliability_score not_a_number)
               then OtherError msg_none_score
               else ValueError msg_reliability)
      /\ exists e,
           get_documents_by_module (snd (add_document true small_kb not_a_number))
             SPREAD None = Raise e
           /\ read_error e).
Proof.
  split.
  - apply (invalid_score_breaks_reads true small_kb overrated_regulation SPREAD).
    + reflexivity.
    + left. reflexivity.
    + reflexivity.
  - apply (invalid_score_breaks_reads true small_kb not_a_number SPREAD).
    + reflexivity.
    + left. reflexivity.
    + reflexivity.
Defined.

(** X13: the query by module never misses: when the unlimited
    [get_documents_by_module] returns, every stored document that is
    tagged with the module is in the result. *)
Theorem module_query_is_complete :
  forall (kb : SCRKnowledgeBase) (m : SCRModule) (docs : list DocumentSource) (r : DocRow),
    get_documents_by_module kb m None = Ok docs ->
    In r (documents kb) ->
    In m (row_scr_modules r) ->
    exists d, In d docs /\ _row_to_document_source r = Ok d /\ id d = row_id r.
Proof.
  intros kb m docs r Hq Hr Hm. unfold get_documents_by_module in Hq.
  apply ReadFacts.res_map_Forall2 in Hq.
  assert (Hin : In r (sorted_by row_before (rows_like_module kb m))).
  { apply (Permutation_in _ (Permutation_sym (SortFacts.sorted_by_perm row_before _))).
    unfold rows_like_module. apply filter_In. split; [exact Hr|].
    apply ReadFacts.like_module_complete. exact Hm. }
  revert Hin. induction Hq as [|x y l l' Hxy HF IH]; intros Hin; [destruct Hin|].
  destruct Hin as [-> | Hin].
  - exists y. split; [left; reflexivity|]. split; [exact Hxy|].
    apply ReadFacts.row_to_document_fields in Hxy. apply Hxy.
  - destruct (IH Hin) as [d [Hd1 Hd2]]. exists d. split; [right; exact Hd1 | exact Hd2].
Qed.

Lemma module_query_is_complete_witness :
  exists d,
    In d (map as_stored [delegated_regulation; orientations_b; orientations_a;
                         orientations_c; working_note])
    /\ _row_to_document_source (row_of_document orientations_c) = Ok d
    /\ id d = row_id (row_of_document orientations_c).
Proof.
  apply (module_query_is_complete spread_library SPREAD
           (map as_stored [delegated_regulation; orientations_b; orientations_a;
                           orientations_c; working_note])
           (row_of_document orientations_c)).
  - vm_compute. reflexivity.
  - right. left. reflexivity.
  - left. reflexivity.
Defined.

(** X14: whatever the limit, the documents [get_documents_by_module]
    returns are ordered by reliability, highest first, and among equal
    reliabilities by publication date, latest first and undated last: no
    document of the result ranks strictly before one that precedes it. *)
Theorem module_query_is_ordered :
  forall (kb : SCRKnowledgeBase) (m : SCRModule) (limit : option nat)
         (docs : list DocumentSource),
    get_documents_by_module kb m limit = Ok docs ->
    StronglySorted (not_after ranks_before) docs.
Proof.
  intros kb m limit docs Hq. unfold get_documents_by_module in Hq.
  assert (Hs : StronglySorted (not_after row_before)
                 (sorted_by row_before (rows_like_module kb m))).
  { apply SortFacts.sorted_by_sorted;
      [exact ReadFacts.row_before_irrefl | exact ReadFacts.row_before_trans]. }
  assert (Hs' : StronglySorted (not_after row_before)
                  (match limit with
                   | Some (S n) => firstn (S n) (sorted_by row_before (rows_like_module kb m))
                   | _ => sorted_by row_before (rows_like_module kb m)
                   end)).
  { destruct limit as [[|n]|]; try exact Hs. apply ReadFacts.StronglySorted_firstn, Hs. }
  apply ReadFacts.res_map_Forall2 in Hq.
  refine (ReadFacts.StronglySorted_Forall2 _ _ _ _ _ _ Hq Hs').
  intros a a' b b' Hab Hab' HR.
  apply ReadFacts.row_to_document_fields in Hab. apply ReadFacts.row_to_document_fields in Hab'.
  destruct Hab as [_ [S1 [D1 _]]], Hab' as [_ [S2 [D2 _]]].
  unfold not_after, ranks_before, row_before in *.
  rewrite S1, S2, <- D1, <- D2 in HR. exact HR.
Qed.

Lemma module_query_is_ordered_witness :
  StronglySorted (not_after ranks_before)
    (map as_stored [delegated_regulation; orientations_b; orientations_a;
                    orientations_c; working_note]).
Proof.
  apply (module_query_is_ordered spread_library SPREAD None
           (map as_stored [delegated_regulation; orientations_b; orientations_a;
                           orientations_c; working_note])).
  vm_compute. reflexivity.
Defined.

(** X15: a positive limit cuts the result of the unlimited query to its
    first documents, and a limit of 0 is no limit at all. *)
Theorem module_query_limit :
  forall (kb : SCRKnowledgeBase) (m : SCRModule) (docs : list DocumentSource) (n : nat),
    get_documents_by_module kb m None = Ok docs ->
    get_documents_by_module kb m (Some (S n)) = Ok (firstn (S n) docs)
    /\ get_documents_by_module kb m (Some 0) = Ok docs.
Proof.
  intros kb m docs n Hq. unfold get_documents_by_module in *. split; [|exact Hq].
  apply ReadFacts.res_map_firstn. exact Hq.
Qed.

Lemma module_query_limit_witness :
  get_documents_by_module spread_library SPREAD (Some 2)
  = Ok (firstn 2 (map as_stored [delegated_regulation; orientations_b; orientations_a;
                                 orientations_c; working_note]))
  /\ get_documents_by_module spread_library SPREAD (Some 0)
     = Ok (map as_stored [delegated_regulation; orientations_b; orientations_a;
                          orientations_c; working_note]).
Proof.
  apply (module_query_limit spread_library SPREAD
           (map as_stored [delegated_regulation; orientations_b; orientations_a;
                           orientations_c; working_note]) 1).
  vm_compute. reflexivity.
Defined.

(** ** The table of concepts *)

Module ConceptFacts.

Lemma sequence_id_is_new (kb : SCRKnowledgeBase) :
  concept_ids_ok kb ->
  ~ In (Z.of_nat (S (concept_seq kb))) (map crow_id (scr_concepts kb)).
Proof.
  intros [Hb _] Hin. apply in_map_iff in Hin. destruct Hin as [r [Er Hr]].
  rewrite Forall_forall in Hb. specialize (Hb r Hr). lia.
Qed.

Lemma add_scr_concept_keeps_ids (written : bool) (kb : SCRKnowledgeBase) (c : SCRConcept) :
  concept_ids_ok kb -> concept_ids_ok (snd (add_scr_concept written kb c)).
Proof.
  intros H. destruct written; [|exact H]. pose proof (sequence_id_is_new kb H) as Hfresh. destruct H as [Hb Hn].
  unfold concept_ids_ok, add_scr_concept. simpl. split.
  - apply Forall_app. split.
    + eapply Forall_impl; [|exact Hb]. simpl. intros r Hr. lia.
    + constructor; [simpl; lia | constructor].
  - rewrite map_app. simpl. apply CollectionFacts.NoDup_snoc; assumption.
Qed.

(** A property of the state that every step keeps is kept by a loop,
    whether it ends normally or by an exception. *)
Lemma foldM_preserves {A B : Type} (P : State -> Prop) (f : B -> A -> M B) :
  (forall b x s, P s -> P (snd (f b x s))) ->
  forall l b s, P s -> P (snd (foldM f l b s)).
Proof.
  intros Hf. induction l as [|x t IH]; intros b s Hs; simpl; [exact Hs|].
  unfold bind. specialize (Hf b x s Hs).
  destruct (f b x s) as [[b'|e] s1]; simpl in *; [apply IH, Hf | exact Hf].
Qed.

Lemma emit_concept_preserves (P : SCRKnowledgeBase -> Prop) w doc c :
  (forall written kb x, P kb -> P (snd (add_scr_concept written kb x))) ->
  forall acc m s, P (knowledge_base s) ->
                  P (knowledge_base (snd (emit_concept w doc c acc m s))).
Proof.
  intros Hadd acc m s Hs. unfold emit_concept, bind, lift.
  destruct (SCRConcept_new _ _ _ _ _ _ _ _ _ _ _ _) as [x|e]; [|exact Hs].
  unfold kb_add_scr_concept.
  specialize (Hadd (write_succeeds w (store_calls (trace s))) (knowledge_base s) x Hs).
  destruct (add_scr_concept (write_succeeds w (store_calls (trace s)))
              (knowledge_base s) x) as [cid kb'].
  simpl in Hadd. destruct (0 <? cid)%Z; exact Hadd.
Qed.

Lemma miner_preserves (P : SCRKnowledgeBase -> Prop) w doc content :
  (forall written kb x, P kb -> P (snd (add_scr_concept written kb x))) ->
  forall s, P (knowledge_base s) ->
            P (knowledge_base (snd (_auto_extract_concepts w doc content s))).
Proof.
  intros Hadd s Hs. unfold _auto_extract_concepts.
  apply (foldM_preserves (fun st => P (knowledge_base st))); [|exact Hs].
  intros b x s0 H0.
  apply (foldM_preserves (fun st => P (knowledge_base st))); [|exact H0].
  intros b1 x1 s1 H1.
  destruct (candidate_of content x1) as [c|]; [|exact H1].
  apply (foldM_preserves (fun st => P (knowledge_base st))); [|exact H1].
  intros b2 x2 s2 H2. apply emit_concept_preserves; assumption.
Qed.

(** A property of the knowledge base that both writes keep is kept by an
    ingestion, successful or not. *)
Lemma ingestion_preserves (P : SCRKnowledgeBase -> Prop) :
  (forall written kb x, P kb -> P (snd (add_scr_concept written kb x))) ->
  (forall written kb d, P kb -> P (snd (add_document written kb d))) ->
  forall w loc ty mods md s,
    P (knowledge_base s) ->
    P (knowledge_base (snd (add_document_source w loc ty mods md s))).
Proof.
  intros Hc Hd w loc ty mods md s Hs.
  rewrite OutcomeFacts.add_document_source_outcome.
  destruct (create_parser loc) as [p|e]; [|exact Hs].
  destruct (extract_content p w loc) as [cd|e]; [|exact Hs].
  destruct (String.eqb (text_content cd) EmptyString); [exact Hs|].
  destruct (built_document w loc ty mods md cd) as [d|e]; [|exact Hs].
  destruct (write_succeeds w (store_calls (trace s))); [|exact Hs].
  simpl. apply miner_preserves; [exact Hc|]. simpl. apply (Hd true), Hs.
Qed.

Lemma row_to_concept_fields now (r : ConceptRow) (c : SCRConcept) :
  _row_to_scr_concept now r = Ok c ->
  scr_module c = crow_scr_module r
  /\ concept_name c = strip (crow_concept_name r)
  /\ concept_id c = Some (crow_id r)
  /\ tags c = []
  /\ confidence_score c = 0.8%float.
Proof.
  unfold _row_to_scr_concept, SCRConcept_new.
  change (in_unit_interval 0.8%float) with true. simpl negb. cbv iota.
  destruct (String.length (strip (crow_concept_name r)) <? 3)%nat; [discriminate|].
  intros H. injection H as <-. repeat split.
Qed.

Lemma Forall2_In_left {A B : Type} (P : A -> B -> Prop) (l : list A) (l' : list B) (x : A) :
  Forall2 P l l' -> In x l -> exists y, In y l' /\ P x y.
Proof.
  induction 1 as [|a b l l' Hab HF IH]; intros Hin; [destruct Hin|].
  destruct Hin as [-> | Hin].
  - exists b. split; [left; reflexivity | exact Hab].
  - destruct (IH Hin) as [y [Hy Py]]. exists y. split; [right; exact Hy | exact Py].
Qed.

Lemma Forall2_In_right {A B : Type} (P : A -> B -> Prop) (l : list A) (l' : list B) (y : B) :
  Forall2 P l l' -> In y l' -> exists x, In x l /\ P x y.
Proof.
  induction 1 as [|a b l l' Hab HF IH]; intros Hin; [destruct Hin|].
  destruct Hin as [-> | Hin].
  - exists a. split; [left; reflexivity | exact Hab].
  - destruct (IH Hin) as [x [Hx Px]]. exists x. split; [right; exact Hx | exact Px].
Qed.

Lemma Forall2_length {A B : Type} (P : A -> B -> Prop) (l : list A) (l' : list B) :
  Forall2 P l l' -> List.length l = List.length l'.
Proof. induction 1; simpl; congruence. Qed.

Lemma name_before_irrefl (a : ConceptRow) : name_before a a = false.
Proof. apply SortFacts.str_ltb_irrefl. Qed.

Lemma name_before_trans (a b c : ConceptRow) :
  name_before a b = true -> name_before b c = true -> name_before a c = true.
Proof. apply SortFacts.str_ltb_trans. Qed.

End ConceptFacts.

(** X16: [add_scr_concept] either carries the write out and returns an
    id that is positive and new, carried by no earlier row of a table
    whose ids came from the sequence, or does not carry it out and
    returns -1, the knowledge base being as before; in both cases the
    table is again such a table, with pairwise distinct ids. *)
Theorem concept_ids_are_fresh :
  forall (written : bool) (kb : SCRKnowledgeBase) (c : SCRConcept),
    concept_ids_ok kb ->
    (if written
     then (0 < fst (add_scr_concept written kb c))%Z
          /\ ~ In (fst (add_scr_concept written kb c)) (map crow_id (scr_concepts kb))
          /\ In (fst (add_scr_concept written kb c))
                (map crow_id (scr_concepts (snd (add_scr_concept written kb c))))
     else fst (add_scr_concept written kb c) = (-1)%Z
          /\ snd (add_scr_concept written kb c) = kb)
    /\ concept_ids_ok (snd (add_scr_concept written kb c)).
Proof.
  intros written kb c H. destruct written.
  2:{ split; [split; reflexivity | exact H]. }
  split; [split; [|split]|].
  - unfold add_scr_concept. simpl. lia.
  - unfold add_scr_concept. simpl fst.
    intros Hin. apply in_map_iff in Hin. destruct Hin as [r [Er Hr]].
    destruct H as [Hb _]. rewrite Forall_forall in Hb. specialize (Hb r Hr). lia.
  - unfold add_scr_concept. simpl. rewrite map_app. apply in_app_iff.
    right. left. reflexivity.
  - destruct H as [Hb Hn]. unfold concept_ids_ok, add_scr_concept. simpl. split.
    + apply Forall_app. split.
      * eapply Forall_impl; [|exact Hb]. simpl. intros r Hr. lia.
      * constructor; [simpl; lia | constructor].
    + rewrite map_app. simpl. apply CollectionFacts.NoDup_snoc; [exact Hn|].
      intros Hin. apply in_map_iff in Hin. destruct Hin as [r [Er Hr]].
      rewrite Forall_forall in Hb. specialize (Hb r Hr). lia.
Qed.

Lemma concept_ids_are_fresh_witness :
  (((0 < fst (add_scr_concept true small_kb stress_factor))%Z
    /\ ~ In (fst (add_scr_concept true small_kb stress_factor))
            (map crow_id (scr_concepts small_kb))
    /\ In (fst (add_scr_concept true small_kb stress_factor))
          (map crow_id (scr_concepts (snd (add_scr_concept true small_kb stress_factor)))))
   /\ concept_ids_ok (snd (add_scr_concept true small_kb stress_factor)))
  /\ ((fst (add_scr_concept false small_kb stress_factor) = (-1)%Z
       /\ snd (add_scr_concept false small_kb stress_factor) = small_kb)
      /\ concept_ids_ok (snd (add_scr_concept false small_kb stress_factor))).
Proof.
  split.
  - apply (concept_ids_are_fresh true small_kb stress_factor).
    unfold concept_ids_ok. simpl. split.
    + repeat constructor; simpl; lia.
    + repeat constructor; simpl; intuition discriminate.
  - apply (concept_ids_are_fresh false small_kb stress_factor).
    unfold concept_ids_ok. simpl. split.
    + repeat constructor; simpl; lia.
    + repeat constructor; simpl; intuition discriminate.
Defined.

(** X17: an ingestion, successful or not, keeps the keys of both tables:
    if the ids of the documents are pairwise distinct and the ids of the
    concepts are distinct ids of the sequence before the call, they are
    so after it. *)
Theorem ingestion_keeps_keys :
  forall (w : World) (loc : string) (ty : DocumentType) (mods : list SCRModule)
         (md : Overrides) (s : State),
    document_ids_ok (knowledge_base s) ->
    concept_ids_ok (knowledge_base s) ->
    document_ids_ok (knowledge_base (snd (add_document_source w loc ty mods md s)))
    /\ concept_ids_ok (knowledge_base (snd (add_document_source w loc ty mods md s))).
Proof.
  intros w loc ty mods md s Hd Hc. split.
  - apply (ConceptFacts.ingestion_preserves document_ids_ok); [| |exact Hd].
    + intros written kb x H. destruct written; exact H.
    + intros written kb d H. destruct written; [|exact H].
      unfold document_ids_ok, add_document. simpl.
      apply KeyFacts.insert_or_replace_NoDup, H.
  - apply (ConceptFacts.ingestion_preserves concept_ids_ok); [| |exact Hc].
    + intros written kb x H. apply ConceptFacts.add_scr_concept_keeps_ids, H.
    + intros written kb d H. destruct written; exact H.
Qed.

Lemma ingestion_keeps_keys_witness :
  document_ids_ok (knowledge_base after_second)
  /\ concept_ids_ok (knowledge_base after_second).
Proof.
  apply (ingestion_keeps_keys (report_files 20%Z) "a/report.pdf" INTERNAL_DOC [SPREAD]
           no_overrides after_first).
  - unfold document_ids_ok. vm_compute. repeat constructor. simpl. tauto.
  - unfold concept_ids_ok. vm_compute. split; constructor.
Defined.

(** X18: [get_concepts_by_module] tests the module by equality: every
    concept it returns has the module asked for, there is one for each
    stored row of that module, and, the stored names being stripped as
    the constructor leaves them, the names come in ascending order. *)
Theorem concept_query_is_exact_and_sorted :
  forall (now : datetime) (kb : SCRKnowledgeBase) (m : SCRModule) (cs : list SCRConcept),
    Forall (fun r => strip (crow_concept_name r) = crow_concept_name r) (scr_concepts kb) ->
    get_concepts_by_module now kb m = Ok cs ->
    Forall (fun c => scr_module c = m) cs
    /\ List.length cs = List.length (rows_of_module kb m)
    /\ StronglySorted (not_after str_ltb) (map concept_name cs).
Proof.
  intros now kb m cs Hstrip Hq. unfold get_concepts_by_module in Hq.
  apply ReadFacts.res_map_Forall2 in Hq.
  assert (P := SortFacts.sorted_by_perm name_before (rows_of_module kb m)).
  assert (Hrows : forall r, In r (sorted_by name_before (rows_of_module kb m)) ->
                            crow_scr_module r = m
                            /\ strip (crow_concept_name r) = crow_concept_name r).
  { intros r Hr. apply (Permutation_in _ P) in Hr. unfold rows_of_module in Hr.
    apply filter_In in Hr. destruct Hr as [Hin Hm].
    split; [apply CollectionFacts.SCRModule_eqb_eq, Hm|].
    rewrite Forall_forall in Hstrip. apply Hstrip, Hin. }
  split; [|split].
  - apply Forall_forall. intros c Hc.
    destruct (ConceptFacts.Forall2_In_right _ _ _ _ Hq Hc) as [r [Hr Hrc]].
    apply ConceptFacts.row_to_concept_fields in Hrc. destruct Hrc as [Hm _].
    rewrite Hm. apply Hrows, Hr.
  - rewrite <- (ConceptFacts.Forall2_length _ _ _ Hq). apply Permutation_length, P.
  - assert (Hs : StronglySorted (not_after name_before)
                   (sorted_by name_before (rows_of_module kb m))).
    { apply SortFacts.sorted_by_sorted;
        [exact ConceptFacts.name_before_irrefl | exact ConceptFacts.name_before_trans]. }
    revert Hq Hs Hrows. generalize (sorted_by name_before (rows_of_module kb m)).
    intros rows Hq. induction Hq as [|r c rows cs Hrc HF IH]; intros Hs Hrows; [constructor|].
    inversion Hs as [|? ? Hs' Hall]; subst. simpl. constructor.
    + apply IH; [exact Hs'|]. intros r0 Hr0. apply Hrows. right. exact Hr0.
    + apply Forall_forall. intros n Hn. apply in_map_iff in Hn.
      destruct Hn as [c' [<- Hc']].
      destruct (ConceptFacts.Forall2_In_right _ _ _ _ HF Hc') as [r' [Hr' Hrc']].
      apply ConceptFacts.row_to_concept_fields in Hrc.
      apply ConceptFacts.row_to_concept_fields in Hrc'.
      destruct Hrc as [_ [N1 _]], Hrc' as [_ [N2 _]].
      rewrite N1, N2.
      rewrite (proj2 (Hrows r (or_introl eq_refl))).
      rewrite (proj2 (Hrows r' (or_intror Hr'))).
      rewrite Forall_forall in Hall. exact (Hall r' Hr').
Qed.

Lemma concept_query_is_exact_and_sorted_witness :
  exists cs,
    get_concepts_by_module 9%Z small_kb SPREAD = Ok cs
    /\ Forall (fun c => scr_module c = SPREAD) cs
    /\ List.length cs = List.length (rows_of_module small_kb SPREAD)
    /\ StronglySorted (not_after str_ltb) (map concept_name cs).
Proof.
  eexists. split; [vm_compute; reflexivity|].
  apply (concept_query_is_exact_and_sorted 9%Z small_kb SPREAD).
  - simpl. repeat constructor.
  - vm_compute. reflexivity.
Defined.

(** X19: what the store keeps of a concept: when [add_scr_concept]
    returns an id (a positive number) for a concept whose name is
    stripped and at least 3 characters long, the concept is found by
    [get_concepts_by_module] for its module with its name, definition,
    formula, article, source document, examples and creation time and
    with the id the store gave it, but with no tags, a confidence of 0.8
    and the instant of the read as [updated_at]. *)
Theorem concept_round_trip :
  forall (now : datetime) (written : bool) (kb : SCRKnowledgeBase) (c : SCRConcept)
         (cs : list SCRConcept),
    strip (concept_name c) = concept_name c ->
    3 <= String.length (concept_name c) ->
    (0 < fst (add_scr_concept written kb c))%Z ->
    get_concepts_by_module now (snd (add_scr_concept written kb c)) (scr_module c) = Ok cs ->
    In (as_read_back now (fst (add_scr_concept written kb c)) c) cs.
Proof.
  intros now written kb c cs Hs Hl Hw Hq.
  destruct written; [|simpl in Hw; lia].
  unfold get_concepts_by_module in Hq.
  apply ReadFacts.res_map_Forall2 in Hq.
  set (r := {| crow_id := Z.of_nat (S (concept_seq kb));
               crow_concept_name := concept_name c;
               crow_scr_module := scr_module c;
               crow_definition := definition c;
               crow_formula := formula c;
               crow_regulatory_article := regulatory_article c;
               crow_source_document_id := source_document_id c;
               crow_examples := match examples c with [] => None | l => Some l end;
               crow_created_at := created_at c |}).
  assert (Hin : In r (sorted_by name_before
                        (rows_of_module (snd (add_scr_concept true kb c)) (scr_module c)))).
  { apply (Permutation_in _ (Permutation_sym (SortFacts.sorted_by_perm name_before _))).
    unfold rows_of_module, add_scr_concept. simpl. apply filter_In. split.
    - apply in_app_iff. right. left. reflexivity.
    - apply CollectionFacts.SCRModule_eqb_eq. reflexivity. }
  destruct (ConceptFacts.Forall2_In_left _ _ _ _ Hq Hin) as [y [Hy Hry]].
  replace (as_read_back now (fst (add_scr_concept true kb c)) c) with y; [exact Hy|].
  unfold _row_to_scr_concept, SCRConcept_new in Hry.
  change (in_unit_interval 0.8%float) with true in Hry. simpl negb in Hry. cbv iota in Hry.
  simpl in Hry. rewrite Hs in Hry.
  replace (String.length (concept_name c) <? 3)%nat with false in Hry
    by (symmetry; apply Nat.ltb_ge; exact Hl).
  injection Hry as <-. unfold as_read_back. simpl. f_equal.
  destruct (examples c); reflexivity.
Qed.

Lemma concept_round_trip_witness :
  exists cs,
    get_concepts_by_module 9%Z (snd (add_scr_concept true small_kb stress_factor))
      (scr_module stress_factor) = Ok cs
    /\ List.length cs = 3
    /\ In (as_read_back 9%Z (fst (add_scr_concept true small_kb stress_factor))
             stress_factor) cs.
Proof.
  eexists. split; [vm_compute; reflexivity|]. split; [reflexivity|].
  apply (concept_round_trip 9%Z true small_kb stress_factor).
  - reflexivity.
  - vm_compute. lia.
  - vm_compute. reflexivity.
  - vm_compute. reflexivity.
Defined.

Import Complexity.

(** ** Statistics *)

Module CountFacts.

Lemma dict_get_count_up_same (k : string) (d : list (string * nat)) :
  dict_get k (count_up k d)
  = Some (S (match dict_get k d with Some n => n | None => 0 end)).
Proof.
  induction d as [|[k' n] t IH]; simpl.
  - rewrite String.eqb_refl. reflexivity.
  - destruct (String.eqb k k') eqn:E; simpl.
    + rewrite String.eqb_refl. reflexivity.
    + rewrite E. exact IH.
Qed.

Lemma dict_get_count_up_other (k k' : string) (d : list (string * nat)) :
  k <> k' -> dict_get k' (count_up k d) = dict_get k' d.
Proof.
  intros Hk. induction d as [|[k0 n] t IH]; simpl.
  - destruct (String.eqb k' k) eqn:E; [apply String.eqb_eq in E; congruence | reflexivity].
  - destruct (String.eqb k k0) eqn:E; simpl.
    + apply String.eqb_eq in E. subst k0.
      destruct (String.eqb k' k) eqn:E'; [apply String.eqb_eq in E'; congruence | reflexivity].
    + destruct (String.eqb k' k0); [reflexivity | exact IH].
Qed.

Lemma SCRModule_value_inj (a b : SCRModule) :
  SCRModule_value a = SCRModule_value b -> a = b.
Proof. destruct a, b; simpl; intros H; try reflexivity; discriminate H. Qed.

Lemma held_count_up (k k' : string) (d : list (string * nat)) :
  held k' (count_up k d) = (if String.eqb k k' then 1 else 0) + held k' d.
Proof.
  unfold held. destruct (String.eqb k k') eqn:E.
  - apply String.eqb_eq in E. subst k'. rewrite dict_get_count_up_same. reflexivity.
  - rewrite dict_get_count_up_other; [reflexivity|].
    intros ->. rewrite String.eqb_refl in E. discriminate.
Qed.

Lemma present_count_up (k k' : string) (d : list (string * nat)) :
  dict_get k' d <> Some 0 -> dict_get k' (count_up k d) <> Some 0.
Proof.
  intros H. destruct (String.eqb k k') eqn:E.
  - apply String.eqb_eq in E. subst k'. rewrite dict_get_count_up_same. discriminate.
  - rewrite dict_get_count_up_other; [exact H|].
    intros ->. rewrite String.eqb_refl in E. discriminate.
Qed.

Lemma tags_loop (m : SCRModule) (tags : list SCRModule) (d : list (string * nat)) :
  held (SCRModule_value m) (fold_left (fun d t => count_up (SCRModule_value t) d) tags d)
  = tag_count m tags + held (SCRModule_value m) d
  /\ (dict_get (SCRModule_value m) d <> Some 0 ->
      dict_get (SCRModule_value m)
        (fold_left (fun d t => count_up (SCRModule_value t) d) tags d) <> Some 0).
Proof.
  revert d. induction tags as [|t ts IH]; intros d; simpl; [split; auto|].
  destruct (IH (count_up (SCRModule_value t) d)) as [H1 H2]. split.
  - rewrite H1, held_count_up. unfold tag_count. simpl.
    destruct (SCRModule_eqb m t) eqn:E.
    + apply CollectionFacts.SCRModule_eqb_eq in E. subst t.
      rewrite String.eqb_refl. simpl. lia.
    + destruct (String.eqb (SCRModule_value t) (SCRModule_value m)) eqn:E'.
      * apply String.eqb_eq, SCRModule_value_inj in E'. subst t.
        assert (SCRModule_eqb m m = true) by (apply CollectionFacts.SCRModule_eqb_eq; reflexivity).
        congruence.
      * simpl. lia.
  - intros H. apply H2, present_count_up, H.
Qed.

Lemma rows_loop (m : SCRModule) (rows : list DocRow) (d : list (string * nat)) :
  held (SCRModule_value m)
    (fold_left (fun d r => fold_left (fun d t => count_up (SCRModule_value t) d)
                                     (row_scr_modules r) d) rows d)
  = tag_count m (concat (map row_scr_modules rows)) + held (SCRModule_value m) d
  /\ (dict_get (SCRModule_value m) d <> Some 0 ->
      dict_get (SCRModule_value m)
        (fold_left (fun d r => fold_left (fun d t => count_up (SCRModule_value t) d)
                                         (row_scr_modules r) d) rows d) <> Some 0).
Proof.
  revert d. induction rows as [|r rs IH]; intros d; simpl; [split; auto|].
  destruct (IH (fold_left (fun d t => count_up (SCRModule_value t) d) (row_scr_modules r) d))
    as [H1 H2].
  destruct (tags_loop m (row_scr_modules r) d) as [T1 T2]. split.
  - rewrite H1, T1. unfold tag_count. rewrite filter_app, length_app. lia.
  - intros H. apply H2, T2, H.
Qed.

End CountFacts.

(** X20: [get_statistics] counts tags, not documents: the entry of
    [documents_by_module] for a module is the number of times the module
    is written in the tag lists of all stored documents, and the key is
    absent when that number is 0. *)
Theorem statistics_count_tags :
  forall (kb : SCRKnowledgeBase) (m : SCRModule),
    dict_get (SCRModule_value m) (documents_by_module (get_statistics kb))
    = match tag_count m (concat (map row_scr_modules (documents kb))) with
      | 0 => None
      | n => Some n
      end.
Proof.
  intros kb m. unfold get_statistics. simpl.
  destruct (CountFacts.rows_loop m (documents kb) []) as [H1 H2].
  unfold held in H1. simpl in H1, H2. rewrite Nat.add_0_r in H1.
  specialize (H2 ltac:(discriminate)).
  destruct (dict_get (SCRModule_value m) _) as [n|].
  - subst n. destruct (tag_count m _); [congruence | reflexivity].
  - rewrite <- H1. reflexivity.
Qed.

(** ** Signals *)

(** X21: [_extract_title] never gives an empty title: the title of the
    parser is taken only when it has more than 5 characters once
    stripped, a line of the text only when it has at least 10, and the
    fallback starts with a fixed prefix; so a title that is returned has
    at least 6 characters whatever the content and the source are.  No
    title is returned only when the fallback is reached for a URL that
    [urlparse] refuses, and the exception is then that of
    [_extract_source_name]. *)
Theorem extract_title_never_short :
  forall (w : World) (content_data : ContentData) (source : string),
    match _extract_title w content_data source with
    | Ok t => 6 <= String.length t
    | Raise e => is_url source = true /\ _extract_source_name w source = Raise e
    end.
Proof.
  intros w cd src. unfold _extract_title.
  assert (Hfrom :
    match
      match title_line (firstn 15 (filter (fun l => negb (String.eqb l EmptyString))
                                     (map strip (split_on (chr 10) (text_content cd))))) with
      | Some line => Ok line
      | None =>
          if is_url src
          then res_bind (_extract_source_name w src)
                        (fun source_name => Ok ("Document web - " ++ source_name)%string)
          else Ok ("Document - " ++ PyPath.stem src)%string
      end
    with
    | Ok t => 6 <= String.length t
    | Raise e => is_url src = true /\ _extract_source_name w src = Raise e
    end).
  { destruct (title_line _) as [line|] eqn:E.
    - unfold title_line in E. apply find_some in E. destruct E as [_ E].
      apply andb_true_iff in E. destruct E as [E _].
      apply andb_true_iff in E. destruct E as [E _].
      apply Nat.leb_le in E. lia.
    - destruct (is_url src) eqn:U.
      + destruct (_extract_source_name w src) as [n|e]; simpl.
        * lia.
        * split; reflexivity.
      + rewrite AppendFacts.length_append. simpl. lia. }
  destruct (meta_title cd) as [t|]; [|exact Hfrom].
  destruct (negb (String.eqb t EmptyString) && (5 <? String.length (strip t))%nat) eqn:E;
    [|exact Hfrom].
  apply andb_true_iff in E. destruct E as [_ E]. apply Nat.ltb_lt in E. lia.
Qed.

(** ** The complexity of a configuration *)

Module ComplexityFacts.
Local Open Scope float_scope.

Lemma normal_depth (d : Z) :
  let d' := if negb ((1 <=? d)%Z && (d <=? 5)%Z) then 3%Z else d in
  d' = 1%Z \/ d' = 2%Z \/ d' = 3%Z \/ d' = 4%Z \/ d' = 5%Z.
Proof.
  simpl. destruct (1 <=? d)%Z eqn:E1; simpl; [|tauto].
  destruct (d <=? 5)%Z eqn:E2; simpl; [|tauto].
  apply Z.leb_le in E1. apply Z.leb_le in E2. lia.
Qed.

Lemma normal_context (c : string) :
  let c' := if negb (mem_str c ["low"; "medium"; "high"]%string) then "high"%string else c in
  c' = "low"%string \/ c' = "medium"%string \/ c' = "high"%string.
Proof.
  simpl. unfold mem_str. simpl.
  destruct (String.eqb c "low") eqn:E1.
  { apply String.eqb_eq in E1. subst c. simpl. tauto. }
  destruct (String.eqb c "medium") eqn:E2.
  { apply String.eqb_eq in E2. subst c. simpl. tauto. }
  destruct (String.eqb c "high") eqn:E3.
  { apply String.eqb_eq in E3. subst c. simpl. tauto. }
  rewrite ?String.eqb_sym, ?E1, ?E2, ?E3. simpl. tauto.
Qed.

End ComplexityFacts.

(** X22: the complexity of a configuration made by the constructor is
    always computed, and lies strictly between 0.17 and 0.97: the cap
    [min(score, 1.0)] of [get_complexity_score] is never reached. *)
Theorem complexity_score_below_cap :
  forall (p : AIProvider) (e : ExpertiseLevel) (m : SCRModule) (language output_format : string)
         (examples formulas refs : bool) (max_length : Z) (requirements : list string)
         (context : string) (depth : Z),
  exists x : float,
    get_complexity_score
      (PromptConfig_new p e m language output_format examples formulas refs max_length
         requirements context depth) = Ok x
    /\ PrimFloat.ltb 0.17 x = true /\ PrimFloat.ltb x 0.97 = true.
Proof.
  intros p e m language output_format examples formulas refs max_length requirements
         context depth.
  unfold get_complexity_score, PromptConfig_new. simpl.
  pose proof (ComplexityFacts.normal_depth depth) as Hd.
  pose proof (ComplexityFacts.normal_context context) as Hc.
  simpl in Hd, Hc.
  set (d' := if negb ((1 <=? depth)%Z && (depth <=? 5)%Z) then 3%Z else depth) in *.
  set (c' := if negb (mem_str context ["low"; "medium"; "high"]) then "high" else context) in *.
  clearbody d' c'.
  assert (Hr : requirements = [] \/ exists a t, requirements = a :: t)
    by (destruct requirements as [|a t]; [left; reflexivity | right; exists a, t; reflexivity]).
  destruct Hd as [-> | [-> | [-> | [-> | ->]]]];
    destruct Hc as [-> | [-> | ->]];
    destruct Hr as [-> | [a [t ->]]];
    destruct e, examples, formulas;
    eexists; (split; [vm_compute; reflexivity | split; vm_compute; reflexivity]).
Qed.

Import Enums Batch BatchSpec BatchSamples.

(** ** Batches *)

Module BatchFacts.

Lemma foldM_app {A B : Type} (f : B -> A -> M B) (l1 l2 : list A) (b : B) (s : State) :
  foldM f (l1 ++ l2) b s
  = match foldM f l1 b s with
    | (Ok b', s') => foldM f l2 b' s'
    | (Raise e, s') => (Raise e, s')
    end.
Proof.
  revert b s. induction l1 as [|x t IH]; intros b s; simpl; [reflexivity|].
  unfold bind. destruct (f b x s) as [[b'|e] s1]; [apply IH | reflexivity].
Qed.

Lemma results_set_keys (d : list (string * bool)) (k : string) (v : bool) (p : string) :
  In p (map fst (results_set d k v)) <-> p = k \/ In p (map fst d).
Proof.
  induction d as [|[k' v'] t IH]; simpl.
  - intuition.
  - destruct (String.eqb k k') eqn:E; simpl.
    + apply String.eqb_eq in E. subst k'. intuition.
    + rewrite IH. intuition.
Qed.

Lemma results_set_NoDup (d : list (string * bool)) (k : string) (v : bool) :
  NoDup (map fst d) -> NoDup (map fst (results_set d k v)).
Proof.
  induction d as [|[k' v'] t IH]; simpl; intros H.
  - constructor; [intros [] | constructor].
  - inversion H as [|? ? Hn Ht]; subst.
    destruct (String.eqb k k') eqn:E; simpl.
    + constructor; assumption.
    + constructor; [|apply IH, Ht].
      rewrite results_set_keys. intros [-> | Hin]; [|exact (Hn Hin)].
      rewrite String.eqb_refl in E. discriminate.
Qed.

(** An entry with a path adds its path to the results and raises
    nothing. *)
Lemma process_entry_with_path (results : list (string * bool)) (wc : World * DocConfig)
    (fp : string) (s : State) :
  cfg_file_path (snd wc) = Some fp ->
  exists b, fst (process_entry results wc s) = Ok (results_set results fp b).
Proof.
  intros H. unfold process_entry. rewrite H.
  destruct (decode_entry (snd wc)) as [[[ty mods] md]|e].
  - destruct (add_document_source (fst wc) fp ty mods md s) as [b s']. exists b. reflexivity.
  - exists false. reflexivity.
Qed.

Lemma batch_loop (cfgs : list (World * DocConfig)) :
  Forall has_path cfgs ->
  forall (acc : list (string * bool)) (s : State),
    NoDup (map fst acc) ->
    exists results,
      fst (foldM process_entry cfgs acc s) = Ok results
      /\ NoDup (map fst results)
      /\ (forall p, In p (map fst results) <-> In p (map fst acc) \/ In p (paths cfgs)).
Proof.
  induction 1 as [|wc t Hp HF IH]; intros acc s Hacc; simpl.
  - exists acc. repeat split; [exact Hacc | tauto | tauto].
  - unfold has_path in Hp. destruct (cfg_file_path (snd wc)) as [fp|] eqn:E; [|congruence].
    destruct (process_entry_with_path acc wc fp s E) as [b Hb].
    unfold bind. destruct (process_entry acc wc s) as [r s1]. simpl in Hb. subst r.
    destruct (IH (results_set acc fp b) s1 (results_set_NoDup acc fp b Hacc))
      as [results [H1 [H2 H3]]].
    exists results. split; [exact H1|]. split; [exact H2|].
    intros p. rewrite H3, results_set_keys.
    unfold paths. simpl. intuition.
Qed.

Lemma upper_char_head (c : ascii) :
  match upper_char c with
  | [] => False
  | n :: _ => (n <? 97)%nat || (122 <? n)%nat = true
  end.
Proof.
  destruct c as [[] [] [] [] [] [] [] []]; vm_compute; reflexivity.
Qed.

Lemma upper_head (s : string) :
  match upper s with
  | [] => True
  | n :: _ => (n <? 97)%nat || (122 <? n)%nat = true
  end.
Proof.
  unfold upper. destruct s as [|c t]; simpl; [exact I|].
  pose proof (upper_char_head c) as H. destruct (upper_char c) as [|n l]; [destruct H|].
  exact H.
Qed.

Lemma lower_head_differs (a : list nat) (n : nat) (l : list nat) :
  match a with
  | [] => True
  | x :: _ => (97 <=? x)%nat && (x <=? 122)%nat = true
  end ->
  (n <? 97)%nat || (122 <? n)%nat = true ->
  codes_eqb a (n :: l) = false.
Proof.
  destruct a as [|x a']; intros Ha Hn; [reflexivity|].
  simpl. destruct (x =? n)%nat eqn:E; [|reflexivity].
  apply Nat.eqb_eq in E. subst x.
  apply andb_true_iff in Ha. destruct Ha as [H1 H2].
  apply Nat.leb_le in H1. apply Nat.leb_le in H2.
  apply orb_true_iff in Hn. destruct Hn as [H | H]; apply Nat.ltb_lt in H; lia.
Qed.

(** No member of [AIProvider] has an upper-cased string as its value. *)
Lemma no_provider_in_upper_case (s : string) :
  AIProvider_of (upper s) = Raise (ValueError (msg_not_valid "AIProvider")).
Proof.
  pose proof (upper_head s) as H. unfold AIProvider_of, by_value.
  destruct (upper s) as [|n l]; [reflexivity|].
  assert (Hall : forall p, codes_eqb (codes (AIProvider_value p)) (n :: l) = false).
  { intros p. apply lower_head_differs; [destruct p; vm_compute; reflexivity | exact H]. }
  unfold all_providers. cbn [find]. rewrite !Hall. reflexivity.
Qed.

End BatchFacts.

(** X23: a batch whose entries all have a ['file_path'] raises nothing
    and reports each path once: the keys of the result are pairwise
    distinct and are exactly the paths of the entries, however often a
    path is repeated. *)
Theorem batch_reports_each_path_once :
  forall (documents_config : list (World * DocConfig)) (s : State),
    Forall has_path documents_config ->
    exists results,
      fst (batch_process_documents documents_config s) = Ok results
      /\ NoDup (map fst results)
      /\ (forall p, In p (map fst results) <-> In p (paths documents_config)).
Proof.
  intros cfgs s H.
  destruct (BatchFacts.batch_loop cfgs H [] s (NoDup_nil _)) as [results [H1 [H2 H3]]].
  exists results. split; [exact H1|]. split; [exact H2|].
  intros p. rewrite H3. simpl. tauto.
Qed.

Lemma batch_reports_each_path_once_witness :
  exists results,
    fst (batch_process_documents
           [(report_files 10%Z, report_entry); (report_files 20%Z, report_entry)]
           initial_state) = Ok results
    /\ NoDup (map fst results)
    /\ (forall p, In p (map fst results)
                  <-> In p (paths [(report_files 10%Z, report_entry);
                                   (report_files 20%Z, report_entry)])).
Proof.
  apply (batch_reports_each_path_once
           [(report_files 10%Z, report_entry); (report_files 20%Z, report_entry)]
           initial_state).
  repeat constructor; unfold has_path; simpl; discriminate.
Defined.

(** X24: the first entry without a ['file_path'] ends the batch with a
    [KeyError], raised outside the [try]: no result is returned, the
    entries after it are not processed, and what the entries before it
    did to the knowledge base stays done. *)
Theorem batch_stops_at_missing_path :
  forall (before after : list (World * DocConfig)) (w : World) (c : DocConfig) (s : State),
    Forall has_path before ->
    cfg_file_path c = None ->
    batch_process_documents (before ++ (w, c) :: after) s
    = (Raise (KeyError "file_path"), snd (batch_process_documents before s)).
Proof.
  intros pre post w c s Hpre Hc. unfold batch_process_documents.
  rewrite BatchFacts.foldM_app.
  destruct (BatchFacts.batch_loop pre Hpre [] s (NoDup_nil _)) as [results [H1 _]].
  destruct (foldM process_entry pre [] s) as [r s1]. simpl in H1. subst r. simpl.
  unfold bind, process_entry. simpl. rewrite Hc. reflexivity.
Qed.

Lemma batch_stops_at_missing_path_witness :
  batch_process_documents
    ([(report_files 10%Z, report_entry)] ++ (report_files 20%Z, pathless_entry)
       :: [(report_files 30%Z, report_entry)]) initial_state
  = (Raise (KeyError "file_path"),
     snd (batch_process_documents [(report_files 10%Z, report_entry)] initial_state)).
Proof.
  apply (batch_stops_at_missing_path [(report_files 10%Z, report_entry)]
           [(report_files 30%Z, report_entry)] (report_files 20%Z) pathless_entry
           initial_state).
  - repeat constructor; unfold has_path; simpl; discriminate.
  - reflexivity.
Defined.

(** X25: an entry whose type or modules are not values of the
    enumerations, or whose metadata names a parameter, is reported
    [False] under its path, and the generator is left as the entries
    before it left it: no parser is called and nothing is stored. *)
Theorem undecodable_entry_is_reported_failed :
  forall (before : list (World * DocConfig)) (w : World) (c : DocConfig) (fp : string)
         (e : exc) (s s' : State) (results : list (string * bool)),
    batch_process_documents before s = (Ok results, s') ->
    cfg_file_path c = Some fp ->
    decode_entry c = Raise e ->
    batch_process_documents (before ++ [(w, c)]) s
    = (Ok (results_set results fp false), s').
Proof.
  intros pre w c fp e s s' results Hpre Hfp He. unfold batch_process_documents in *.
  rewrite BatchFacts.foldM_app, Hpre. simpl.
  unfold bind, process_entry. simpl. rewrite Hfp, He. reflexivity.
Qed.

Lemma undecodable_entry_is_reported_failed_witness :
  batch_process_documents ([] ++ [(report_files 10%Z, misnamed_entry)]) initial_state
  = (Ok (results_set [] "a/report.pdf" false), initial_state).
Proof.
  apply (undecodable_entry_is_reported_failed [] (report_files 10%Z) misnamed_entry
           "a/report.pdf" (ValueError (msg_not_valid "DocumentType"))
           initial_state initial_state []).
  - reflexivity.
  - reflexivity.
  - vm_compute. reflexivity.
Defined.

(** X26: [quick_generate_prompt] never returns a prompt: it upper-cases
    its arguments before it looks them up among the values of the
    enumerations, which are all in lower case, so that, once the
    generator is created, the lookup of the provider raises [ValueError]
    whatever the three arguments are. *)
Theorem quick_generate_prompt_always_raises :
  forall (create_default_generator : res unit)
         (generate_optimized_prompt : PromptConfig -> string)
         (scr_module ai_provider expertise_level : string),
    quick_generate_prompt create_default_generator generate_optimized_prompt
      scr_module ai_provider expertise_level
    = res_bind create_default_generator
        (fun _ => Raise (ValueError (msg_not_valid "AIProvider"))).
Proof.
  intros boot gen m p e. unfold quick_generate_prompt.
  destruct boot as [u|x]; simpl; [|reflexivity].
  rewrite BatchFacts.no_provider_in_upper_case. reflexivity.
Qed.

Import Search SearchSpec.

(** ** Searching *)

Module SearchFacts.
Import FloatOrder.

Lemma SFcompare_opp (x y : spec_float) :
  SFcompare (SFopp x) (SFopp y) = SFcompare y x.
Proof.
  destruct x as [[|]|[|]| |[|] mx ex], y as [[|]|[|]| |[|] my ey]; simpl; try reflexivity;
    rewrite ?(Z.compare_antisym ex ey);
    destruct (ex ?= ey)%Z; simpl; try reflexivity;
    change (Pos.compare_cont Eq mx my) with (Pos.compare mx my);
    change (Pos.compare_cont Eq my mx) with (Pos.compare my mx);
    rewrite ?(Pos.compare_antisym mx my);
    destruct (mx ?= my)%positive; reflexivity.
Qed.

Lemma ltb_opp (x y : float) :
  PrimFloat.ltb (PrimFloat.opp x) (PrimFloat.opp y) = PrimFloat.ltb y x.
Proof. rewrite !ltb_spec, !opp_spec. unfold SFltb. rewrite SFcompare_opp. reflexivity. Qed.

Lemma eqb_opp (x y : float) :
  PrimFloat.eqb (PrimFloat.opp x) (PrimFloat.opp y) = PrimFloat.eqb y x.
Proof. rewrite !eqb_spec, !opp_spec. unfold SFeqb. rewrite SFcompare_opp. reflexivity. Qed.

Lemma ltb_not_eqb (x y : float) :
  PrimFloat.ltb x y = true -> PrimFloat.eqb x y = false.
Proof.
  rewrite ltb_Lt. intros H. destruct (PrimFloat.eqb x y) eqn:E; [|reflexivity].
  apply eqb_Eq in E. congruence.
Qed.

Lemma eqb_not_ltb_sym (x y : float) :
  PrimFloat.eqb x y = true -> PrimFloat.ltb y x = false.
Proof.
  rewrite eqb_Eq. intros H. destruct (PrimFloat.ltb y x) eqn:E; [|reflexivity].
  apply ltb_Lt in E. rewrite (FloatFacts.SFcompare_swap (Prim2SF x) (Prim2SF y)) in E.
  rewrite H in E.
  simpl in E. discriminate.
Qed.

Lemma search_before_irrefl (a : DocumentSource) : search_before a a = false.
Proof.
  unfold search_before.
  destruct (PrimFloat.eqb _ _); [apply SortFacts.str_ltb_irrefl | apply ltb_irrefl].
Qed.

Lemma search_before_trans (a b c : DocumentSource) :
  search_before a b = true -> search_before b c = true -> search_before a c = true.
Proof.
  unfold search_before.
  set (ka := PrimFloat.opp (reliability_score a)).
  set (kb := PrimFloat.opp (reliability_score b)).
  set (kc := PrimFloat.opp (reliability_score c)).
  destruct (PrimFloat.eqb ka kb) eqn:E1, (PrimFloat.eqb kb kc) eqn:E2; intros H1 H2.
  - rewrite (eqb_trans _ _ _ E1 E2). exact (SortFacts.str_ltb_trans _ _ _ H1 H2).
  - pose proof (eqb_ltb _ _ _ E1 H2) as L. rewrite (ltb_not_eqb _ _ L). exact L.
  - pose proof (ltb_eqb _ _ _ H1 E2) as L. rewrite (ltb_not_eqb _ _ L). exact L.
  - pose proof (ltb_trans _ _ _ H1 H2) as L. rewrite (ltb_not_eqb _ _ L). exact L.
Qed.

Lemma not_after_ranked (a b : DocumentSource) :
  not_after search_before a b -> ranked a b.
Proof.
  unfold not_after, search_before, ranked. rewrite eqb_opp, ltb_opp.
  destruct (PrimFloat.eqb (reliability_score a) (reliability_score b)) eqn:E; intros H.
  - split; [|intros _; exact H].
    rewrite FloatMore.eqb_sym in E. apply eqb_not_ltb_sym, E.
  - split; [exact H | discriminate].
Qed.

Lemma query_gives_stored (kb : SCRKnowledgeBase) (m : SCRModule) (docs : list DocumentSource) :
  get_documents_by_module kb m None = Ok docs -> Forall (stored_in kb) docs.
Proof.
  intros Hq. unfold get_documents_by_module in Hq.
  apply ReadFacts.res_map_Forall2 in Hq.
  apply Forall_forall. intros d Hd.
  destruct (ConceptFacts.Forall2_In_right _ _ _ _ Hq Hd) as [r [Hr Hrd]].
  exists r. split; [|exact Hrd].
  apply (Permutation_in _ (SortFacts.sorted_by_perm row_before _)) in Hr.
  unfold rows_like_module in Hr. apply filter_In in Hr. apply Hr.
Qed.

Lemma collect_gives_stored (kb : SCRKnowledgeBase) (modules : list SCRModule) :
  forall all_docs docs,
    Forall (stored_in kb) all_docs ->
    collect_documents kb modules all_docs = Ok docs ->
    Forall (stored_in kb) docs.
Proof.
  induction modules as [|m rest IH]; intros all_docs docs Hall Hc; simpl in Hc.
  - injection Hc as <-. exact Hall.
  - destruct (get_documents_by_module kb m None) as [ds|e] eqn:E; [|discriminate].
    simpl in Hc. eapply IH; [|exact Hc].
    apply Forall_app. split; [exact Hall|].
    apply Forall_forall. intros d Hd. apply filter_In in Hd. destruct Hd as [Hd _].
    pose proof (query_gives_stored kb m ds E) as Hs.
    rewrite Forall_forall in Hs. apply Hs, Hd.
Qed.

End SearchFacts.

(** X27: what [search_documents] returns: every document passes the
    three filters of the call, is a document of the store as the store
    reads it, and the list is ranked: a document never comes before one
    with a higher score, and at equal scores the titles ascend. *)
Theorem search_results_filtered_and_ranked :
  forall (kb : SCRKnowledgeBase) (query : option string)
         (scr_modules : option (list SCRModule)) (doc_types : option (list DocumentType))
         (min_reliability : float) (results : list DocumentSource),
    search_documents kb query scr_modules doc_types min_reliability = Ok results ->
    Forall (fun d => accepts query doc_types min_reliability d = true) results
    /\ Forall (stored_in kb) results
    /\ StronglySorted ranked results.
Proof.
  intros kb q mods types minr results H. unfold search_documents in H.
  destruct (collect_documents kb _ []) as [all_docs|e] eqn:E; [|discriminate].
  simpl in H. injection H as <-.
  pose proof (SearchFacts.collect_gives_stored kb _ [] all_docs (Forall_nil _) E) as Hst.
  pose proof (SortFacts.sorted_by_perm search_before
                (filter (accepts q types minr) all_docs)) as P.
  split; [|split].
  - apply Forall_forall. intros d Hd. apply (Permutation_in _ P) in Hd.
    apply filter_In in Hd. apply Hd.
  - apply Forall_forall. intros d Hd. apply (Permutation_in _ P) in Hd.
    apply filter_In in Hd. rewrite Forall_forall in Hst. apply Hst, Hd.
  - pose proof (SortFacts.sorted_by_sorted search_before SearchFacts.search_before_irrefl
                  SearchFacts.search_before_trans (filter (accepts q types minr) all_docs))
      as Hs.
    clear P. induction Hs as [|x l Hs IH Hx]; constructor.
    + exact IH.
    + eapply Forall_impl; [|exact Hx]. intros b. apply SearchFacts.not_after_ranked.
Qed.

Lemma search_results_filtered_and_ranked_witness :
  (Forall (fun d => accepts (Some "orientations") (Some [EIOPA_GUIDELINES]) 0.6%float d = true)
          (map as_stored [orientations_a; orientations_b; orientations_c])
   /\ Forall (stored_in spread_library)
             (map as_stored [orientations_a; orientations_b; orientations_c])
   /\ StronglySorted ranked
        (map as_stored [orientations_a; orientations_b; orientations_c]))
  /\ (Forall (fun d => accepts None None 0.6%float d = true)
             (map as_stored [delegated_regulation; orientations_a; orientations_b;
                             orientations_c])
      /\ Forall (stored_in spread_library)
                (map as_stored [delegated_regulation; orientations_a; orientations_b;
                                orientations_c])
      /\ StronglySorted ranked
           (map as_stored [delegated_regulation; orientations_a; orientations_b;
                           orientations_c])).
Proof.
  split.
  - apply (search_results_filtered_and_ranked spread_library (Some "orientations")
             (Some [SPREAD]) (Some [EIOPA_GUIDELINES]) 0.6%float
             (map as_stored [orientations_a; orientations_b; orientations_c])).
    vm_compute. reflexivity.
  - apply (search_results_filtered_and_ranked spread_library None None None 0.6%float
             (map as_stored [delegated_regulation; orientations_a; orientations_b;
                             orientations_c])).
    vm_compute. reflexivity.
Defined.

Import Utilities UtilitiesSpec.

(** ** The utility functions *)

Module RegexFacts.

Lemma every_nil (p : ascii -> bool) : every p EmptyString.
Proof. reflexivity. Qed.

Lemma every_cons (p : ascii -> bool) (c : ascii) (s : string) :
  every p (String c s) <-> p c = true /\ every p s.
Proof. unfold every. simpl. apply andb_true_iff. Qed.

Lemma every_code_cons (p : nat -> bool) (c : nat) (s : codepoints) :
  every_code p (c :: s) <-> p c = true /\ every_code p s.
Proof. unfold every_code. simpl. apply andb_true_iff. Qed.

(** What a successful repetition has done: it took a run of characters
    of the class, within its bounds, and the continuation holds on what
    follows. *)
Lemma repeat_class_sound (p : nat -> bool) (lo : nat) (hi : option nat) :
  forall (rest : codepoints) (cnt : nat) (k : codepoints -> bool),
    repeat_class p lo hi cnt rest k = true ->
    exists run_ tail,
      rest = run_ ++ tail /\ every_code p run_
      /\ lo <= cnt + List.length run_
      /\ (run_ = [] \/ within hi (cnt + List.length run_))
      /\ k tail = true.
Proof.
  assert (Stop : forall rest cnt k,
             (lo <=? cnt)%nat && k rest = true ->
             exists run_ tail,
               rest = run_ ++ tail /\ every_code p run_
               /\ lo <= cnt + List.length run_
               /\ (run_ = [] \/ within hi (cnt + List.length run_))
               /\ k tail = true).
  { intros rest cnt k H. apply andb_true_iff in H. destruct H as [E Hk].
    apply Nat.leb_le in E. exists [], rest. simpl.
    repeat split; [lia | left; reflexivity | exact Hk]. }
  induction rest as [|c t IH]; intros cnt k H; simpl in H; [exact (Stop _ _ _ H)|].
  destruct (below hi cnt && p c) eqn:B; [|exact (Stop _ _ _ H)].
  apply orb_true_iff in H. destruct H as [H | H]; [|exact (Stop _ _ _ H)].
  apply IH in H. destruct H as [ds [tail [E1 [E2 [E3 [E4 E5]]]]]].
  apply andb_true_iff in B. destruct B as [B1 B2].
  exists (c :: ds), tail. simpl.
  split; [rewrite E1; reflexivity|].
  split; [apply every_code_cons; split; assumption|].
  split; [lia|]. split; [|exact E5].
  right. unfold within. destruct hi as [h|]; [|exact I].
  simpl in B1. apply Nat.ltb_lt in B1.
  destruct E4 as [-> | E4]; simpl in *; lia.
Qed.

(** A repetition does not miss a match: if a run of characters of the
    class, within the bounds, is followed by something on which the
    continuation holds, the repetition succeeds. *)
Lemma repeat_class_complete (p : nat -> bool) (lo : nat) (hi : option nat)
    (tail : codepoints) (k : codepoints -> bool) :
  k tail = true ->
  forall (run_ : codepoints) (cnt : nat),
    every_code p run_ ->
    lo <= cnt + List.length run_ ->
    within hi (cnt + List.length run_) ->
    repeat_class p lo hi cnt (run_ ++ tail) k = true.
Proof.
  intros Hk. induction run_ as [|c ds IH]; intros cnt Hp Hlo Hhi; simpl in *.
  - assert (E : (lo <=? cnt)%nat = true) by (apply Nat.leb_le; lia).
    destruct tail as [|c t]; simpl; rewrite E, Hk; simpl; [reflexivity|].
    destruct (below hi cnt && p c); [apply orb_true_r | reflexivity].
  - apply every_code_cons in Hp. destruct Hp as [Hc Hds].
    assert (B : below hi cnt = true).
    { unfold below. destruct hi as [h|]; [|reflexivity]. simpl in Hhi. apply Nat.ltb_lt. lia. }
    rewrite B, Hc. simpl. rewrite IH; [reflexivity | exact Hds | lia |].
    unfold within in *. destruct hi; [lia | exact I].
Qed.

Lemma at_end_cases (rest : codepoints) :
  at_end rest = true <-> ending rest.
Proof.
  unfold ending. destruct rest as [|c [|d t]]; simpl.
  - split; [left; reflexivity | reflexivity].
  - split.
    + intros H. apply Nat.eqb_eq in H. subst c. right. reflexivity.
    + intros [H | H]; [discriminate|]. injection H as ->. reflexivity.
  - split; [discriminate | intros [H | H]; discriminate].
Qed.

Lemma short_run (p : nat -> bool) (s : codepoints) :
  every_code p s -> s = [] \/ 0 + List.length s <= 1 ->
  s = [] \/ exists c, s = [c] /\ p c = true.
Proof.
  intros Hp [-> | Hl]; [left; reflexivity|].
  destruct s as [|c [|d t]]; simpl in Hl.
  - left. reflexivity.
  - right. exists c. split; [reflexivity|]. apply every_code_cons in Hp. apply Hp.
  - lia.
Qed.

Section Digits.

Variable decimal : nat -> bool.

Lemma number_of_run (s : codepoints) :
  every_code decimal s -> 1 <= 0 + List.length s -> number decimal s.
Proof.
  intros Hp Hl. split; [|exact Hp]. intros ->. simpl in Hl. lia.
Qed.

Lemma number_length (s : codepoints) : number decimal s -> 1 <= 0 + List.length s.
Proof. intros [Hn _]. destruct s; [congruence | simpl; lia]. Qed.

Lemma first_form_sound (a : codepoints) :
  matches_whole [OneOrMore decimal; AtMostOne lower_case_letter] a = true ->
  exists body tail, article_form decimal body /\ ending tail /\ a = body ++ tail.
Proof.
  unfold matches_whole. cbn [match_elements]. intros E.
  apply repeat_class_sound in E. destruct E as [n [t1 [Ea [Hn [Hlo [_ Ek]]]]]].
  apply repeat_class_sound in Ek. destruct Ek as [l [t2 [Et [Hl [_ [Hhi Hend]]]]]].
  apply at_end_cases in Hend.
  destruct (short_run lower_case_letter l Hl Hhi) as [-> | [c [-> Hc]]].
  - exists n, t2. split; [apply form_number, number_of_run; assumption|].
    split; [exact Hend|]. subst a t1. reflexivity.
  - exists (n ++ [c]), t2.
    split; [apply form_lettered; [apply number_of_run; assumption | exact Hc]|].
    split; [exact Hend|]. subst a t1. rewrite <- app_assoc. reflexivity.
Qed.

Lemma second_form_sound (a : codepoints) :
  matches_whole [OneOrMore decimal; Exactly 47; OneOrMore decimal] a = true ->
  exists body tail, article_form decimal body /\ ending tail /\ a = body ++ tail.
Proof.
  unfold matches_whole. cbn [match_elements]. intros E.
  apply repeat_class_sound in E. destruct E as [n [t1 [Ea [Hn [Hlo [_ Ek]]]]]].
  destruct t1 as [|c t1]; [discriminate|].
  apply andb_true_iff in Ek. destruct Ek as [Hc Ek]. apply Nat.eqb_eq in Hc. subst c.
  apply repeat_class_sound in Ek. destruct Ek as [m [t2 [Et [Hm [Hlo' [_ Hend]]]]]].
  apply at_end_cases in Hend.
  exists (n ++ [47] ++ m), t2.
  split; [apply form_pair; apply number_of_run; assumption|].
  split; [exact Hend|]. subst a t1. repeat (rewrite <- app_assoc; simpl). reflexivity.
Qed.

Lemma third_form_sound (a : codepoints) :
  matches_whole [OneOrMore decimal; Exactly 47; OneOrMore decimal;
                 Exactly 47; Exactly 67; Exactly 69] a = true ->
  exists body tail, article_form decimal body /\ ending tail /\ a = body ++ tail.
Proof.
  unfold matches_whole. cbn [match_elements]. intros E.
  apply repeat_class_sound in E. destruct E as [n [t1 [Ea [Hn [Hlo [_ Ek]]]]]].
  destruct t1 as [|c t1]; [discriminate|].
  apply andb_true_iff in Ek. destruct Ek as [Hc Ek]. apply Nat.eqb_eq in Hc. subst c.
  apply repeat_class_sound in Ek. destruct Ek as [m [t2 [Et [Hm [Hlo' [_ Hend]]]]]].
  destruct t2 as [|c1 t2]; [discriminate|].
  apply andb_true_iff in Hend. destruct Hend as [H1 Hend].
  destruct t2 as [|c2 t2]; [discriminate|].
  apply andb_true_iff in Hend. destruct Hend as [H2 Hend].
  destruct t2 as [|c3 t2]; [discriminate|].
  apply andb_true_iff in Hend. destruct Hend as [H3 Hend].
  apply Nat.eqb_eq in H1, H2, H3. subst c1 c2 c3.
  apply at_end_cases in Hend.
  exists (n ++ [47] ++ m ++ [47; 67; 69]), t2.
  split; [apply form_directive; apply number_of_run; assumption|].
  split; [exact Hend|]. subst a t1. repeat (rewrite <- app_assoc; simpl). reflexivity.
Qed.

Lemma first_form_complete (n tail : codepoints) :
  number decimal n -> ending tail ->
  matches_whole [OneOrMore decimal; AtMostOne lower_case_letter] (n ++ tail) = true.
Proof.
  intros Hn Ht. unfold matches_whole. cbn [match_elements].
  apply repeat_class_complete; [| apply Hn | apply number_length, Hn | exact I].
  destruct Ht as [-> | ->]; reflexivity.
Qed.

Lemma lettered_form_complete (n : codepoints) (c : nat) (tail : codepoints) :
  number decimal n -> lower_case_letter c = true -> ending tail ->
  matches_whole [OneOrMore decimal; AtMostOne lower_case_letter] ((n ++ [c]) ++ tail) = true.
Proof.
  intros Hn Hc Ht. unfold matches_whole. cbn [match_elements]. rewrite <- app_assoc.
  apply repeat_class_complete; [| apply Hn | apply number_length, Hn | exact I].
  apply (repeat_class_complete lower_case_letter 0 (Some 1) tail _
           (proj2 (at_end_cases tail) Ht) [c] 0).
  - apply every_code_cons. split; [exact Hc | reflexivity].
  - simpl. lia.
  - simpl. lia.
Qed.

Lemma second_form_complete (n m tail : codepoints) :
  number decimal n -> number decimal m -> ending tail ->
  matches_whole [OneOrMore decimal; Exactly 47; OneOrMore decimal]
    ((n ++ [47] ++ m) ++ tail) = true.
Proof.
  intros Hn Hm Ht. unfold matches_whole. cbn [match_elements].
  repeat (rewrite <- app_assoc; simpl).
  apply repeat_class_complete; [| apply Hn | apply number_length, Hn | exact I].
  rewrite Nat.eqb_refl. simpl.
  apply repeat_class_complete; [| apply Hm | apply number_length, Hm | exact I].
  apply at_end_cases, Ht.
Qed.

Lemma third_form_complete (n m tail : codepoints) :
  number decimal n -> number decimal m -> ending tail ->
  matches_whole [OneOrMore decimal; Exactly 47; OneOrMore decimal;
                 Exactly 47; Exactly 67; Exactly 69]
    ((n ++ [47] ++ m ++ [47; 67; 69]) ++ tail) = true.
Proof.
  intros Hn Hm Ht. unfold matches_whole. cbn [match_elements].
  repeat (rewrite <- app_assoc; simpl).
  apply repeat_class_complete; [| apply Hn | apply number_length, Hn | exact I].
  rewrite Nat.eqb_refl. simpl.
  apply repeat_class_complete; [| apply Hm | apply number_length, Hm | exact I].
  simpl. apply at_end_cases, Ht.
Qed.

End Digits.

End RegexFacts.

(** X28: [\d] being the decimal digits of Unicode, whichever code points
    these are, the strings [validate_regulatory_article] accepts are
    exactly the numbers written with such digits, the numbers followed
    by one lower-case ASCII letter, the pairs [n/m] and the triples
    [n/m/CE], each possibly followed by one newline, which [$] lets
    pass.  A number in Arabic-Indic digits is therefore accepted. *)
Theorem validate_regulatory_article_accepts :
  forall (decimal : nat -> bool) (article : codepoints),
    validate_regulatory_article decimal article = true
    <-> exists body tail,
          article_form decimal body /\ ending tail /\ article = body ++ tail.
Proof.
  intros decimal a. unfold validate_regulatory_article, valid_article_patterns, existsb.
  split.
  - intros H. rewrite orb_false_r in H.
    apply orb_true_iff in H. destruct H as [H | H];
      [exact (RegexFacts.first_form_sound decimal a H)|].
    apply orb_true_iff in H. destruct H as [H | H];
      [exact (RegexFacts.second_form_sound decimal a H)
      | exact (RegexFacts.third_form_sound decimal a H)].
  - intros [body [tail [Hf [Ht ->]]]]. destruct Hf as [n Hn | n c Hn Hc | n m Hn Hm | n m Hn Hm].
    + rewrite RegexFacts.first_form_complete; [reflexivity | exact Hn | exact Ht].
    + rewrite RegexFacts.lettered_form_complete; [reflexivity | exact Hn | exact Hc | exact Ht].
    + rewrite RegexFacts.second_form_complete; [|exact Hn | exact Hm | exact Ht].
      rewrite orb_true_r. reflexivity.
    + rewrite RegexFacts.third_form_complete; [|exact Hn | exact Hm | exact Ht].
      rewrite !orb_true_r. reflexivity.
Qed.

Lemma validate_regulatory_article_accepts_witness :
  validate_regulatory_article two_ranges_of_digits [1633; 1640; 1632] = true
  /\ validate_regulatory_article two_ranges_of_digits [50; 48; 48; 57; 47; 49; 51; 56; 47; 67; 69; 10]
     = true
  /\ validate_regulatory_article two_ranges_of_digits [49; 56; 48; 65] = false.
Proof.
  split; [|split].
  - apply (proj2 (validate_regulatory_article_accepts two_ranges_of_digits
                    [1633; 1640; 1632])).
    exists [1633; 1640; 1632], []. split; [|split].
    + apply form_number. split; [discriminate | reflexivity].
    + left. reflexivity.
    + reflexivity.
  - apply (proj2 (validate_regulatory_article_accepts two_ranges_of_digits
                    [50; 48; 48; 57; 47; 49; 51; 56; 47; 67; 69; 10])).
    exists ([50; 48; 48; 57] ++ [47] ++ [49; 51; 56] ++ [47; 67; 69]), [10].
    split; [|split].
    + apply form_directive; split; try discriminate; reflexivity.
    + right. reflexivity.
    + reflexivity.
  - reflexivity.
Defined.

Module CleanFacts.

Lemma take_length (n : nat) (s : string) : String.length (take n s) <= n.
Proof.
  revert s. induction n as [|n IH]; intros s; [destruct s; simpl; lia|].
  destruct s as [|c t]; simpl; [lia|]. specialize (IH t). lia.
Qed.

Lemma take_every (p : ascii -> bool) (n : nat) (s : string) :
  every p s -> every p (take n s).
Proof.
  revert s. induction n as [|n IH]; intros s H; [destruct s; reflexivity|].
  destruct s as [|c t]; [reflexivity|].
  apply RegexFacts.every_cons in H. destruct H as [Hc Ht].
  simpl. apply RegexFacts.every_cons. split; [exact Hc | apply IH, Ht].
Qed.

Lemma drop_punctuation_every (s : string) :
  every (fun c => is_word c || is_space c || Ascii.eqb c "-") (drop_punctuation s).
Proof.
  induction s as [|c t IH]; [reflexivity|]. simpl.
  destruct (is_word c || is_space c || Ascii.eqb c "-") eqn:E; [|exact IH].
  apply RegexFacts.every_cons. split; [exact E | exact IH].
Qed.

Lemma underscore_plain (s : string) (in_run : bool) :
  every (fun c => is_word c || is_space c || Ascii.eqb c "-") s ->
  plain (underscore_from in_run s).
Proof.
  revert in_run. induction s as [|c t IH]; intros in_run H; [reflexivity|].
  apply RegexFacts.every_cons in H. destruct H as [Hc Ht]. simpl.
  destruct (is_space c) eqn:Es.
  - destruct in_run; [apply IH, Ht|].
    apply RegexFacts.every_cons. split; [reflexivity | apply IH, Ht].
  - apply RegexFacts.every_cons. split; [|apply IH, Ht].
    cbv beta in Hc. rewrite orb_false_r in Hc. exact Hc.
Qed.

End CleanFacts.

(** X29: the part of the identifier that [create_document_id] makes from
    the title has at most 30 characters, all of them word characters or
    hyphens: no blank and no punctuation of the title reaches the
    identifier. *)
Theorem document_id_title_part_is_plain :
  forall (title content_hash : string) (doc_type : DocumentType),
    create_document_id title content_hash doc_type
    = (DocumentType_value doc_type ++ "_" ++ clean_title title ++ "_"
       ++ take 8 content_hash)%string
    /\ String.length (clean_title title) <= 30
    /\ plain (clean_title title).
Proof.
  intros title h ty. split; [reflexivity|]. unfold clean_title. split.
  - apply CleanFacts.take_length.
  - apply CleanFacts.take_every, CleanFacts.underscore_plain,
      CleanFacts.drop_punctuation_every.
Qed.

